(** * Report-intake bot: conversation engine, admin relay and polling drivers

    A shallow embedding of the Telegram report bot.  The repository holds
    several drivers of the same flow; the ones the properties below talk
    about are embedded here, each in a module named after its file:

    - [ApiBot]     : [telegram_api_bot.py], the HTTP-request based bot that
                     [bot.py] launches;
    - [RunnerBot]  : [telegram_bot_runner.py], the synchronous runner;
    - [Standalone] : [standalone_bot.py], the handler functions of the
                     [ConversationHandler] based bot.

    Python strings are byte strings in UTF-8 ([string]); Python integers are
    [Z]; a dictionary is a [gmap]; a key that may be missing from a
    dictionary is an [option]. *)

From stdpp Require Import gmap strings list pretty.

Local Open Scope Z_scope.

(** ** Python string primitives *)

Module Py.

(** ["\n"] *)
Definition nl : string := String (Ascii.ascii_of_nat 10) EmptyString.

(** ["\n".join(lines)]: the adjacent literals of the source, one list
    element per line. *)
Definition lines (ls : list string) : string := String.concat nl ls.

Definition bytes_of (s : string) : list N :=
  Ascii.N_of_ascii <$> String.list_ascii_of_string s.

Definition of_bytes (bs : list N) : string :=
  String.string_of_list_ascii (Ascii.ascii_of_N <$> bs).

(** [str.isspace] on the character that starts [bs], as the number of
    bytes of its UTF-8 encoding; [0] when [bs] does not start with white
    space.  The white-space characters of [str.split] and [str.strip] are
    U+0009..U+000D, U+001C..U+0020, U+0085, U+00A0, U+1680,
    U+2000..U+200A, U+2028, U+2029, U+202F, U+205F and U+3000. *)
Definition space_width (bs : list N) : nat :=
  match bs with
  | [] => 0%nat
  | b0 :: rest =>
    if ((9 <=? b0) && (b0 <=? 13) || (28 <=? b0) && (b0 <=? 32))%N then 1%nat
    else match rest with
    | [] => 0%nat
    | b1 :: rest' =>
      if ((b0 =? 194) && ((b1 =? 133) || (b1 =? 160)))%N then 2%nat
      else match rest' with
      | [] => 0%nat
      | b2 :: _ =>
        if ((b0 =? 225) && (b1 =? 154) && (b2 =? 128)
            || (b0 =? 226) && (b1 =? 128)
               && ((128 <=? b2) && (b2 <=? 138)
                   || (b2 =? 168) || (b2 =? 169) || (b2 =? 175))
            || (b0 =? 226) && (b1 =? 129) && (b2 =? 159)
            || (b0 =? 227) && (b1 =? 128) && (b2 =? 128))%N
        then 3%nat else 0%nat
      end
    end
  end.

(** The same test on the character that ends a string, given the bytes in
    reverse order. *)
Definition rspace_width (rbs : list N) : nat :=
  if (space_width (reverse (take 1 rbs)) =? 1)%nat then 1%nat
  else if (space_width (reverse (take 2 rbs)) =? 2)%nat then 2%nat
  else if (space_width (reverse (take 3 rbs)) =? 3)%nat then 3%nat
  else 0%nat.

Fixpoint lstrip_go (width : list N -> nat) (fuel : nat) (bs : list N) : list N :=
  match fuel with
  | O => bs
  | S fuel' =>
    match width bs with
    | O => bs
    | w => lstrip_go width fuel' (drop w bs)
    end
  end.

Definition lstrip_bytes (bs : list N) : list N :=
  lstrip_go space_width (length bs) bs.

Definition rstrip_bytes (bs : list N) : list N :=
  reverse (lstrip_go rspace_width (length bs) (reverse bs)).

(** [s.strip()] *)
Definition strip (s : string) : string :=
  of_bytes (rstrip_bytes (lstrip_bytes (bytes_of s))).

(** The bytes up to the next white-space character, and what follows. *)
Fixpoint span_token (bs : list N) : list N * list N :=
  match bs with
  | [] => ([], [])
  | b :: rest =>
    match space_width bs with
    | O => let '(tok, rest') := span_token rest in (b :: tok, rest')
    | _ => ([], bs)
    end
  end.

(** [split_whitespace] of CPython: skip white space, take a token, and
    once [maxsplit] tokens were taken keep the remainder (leading white
    space skipped, trailing white space kept) as the last part. *)
Fixpoint split_go (fuel : nat) (maxsplit : option nat) (bs : list N)
  : list (list N) :=
  match fuel with
  | O => []
  | S fuel' =>
    match lstrip_bytes bs with
    | [] => []
    | b :: bs' =>
      match maxsplit with
      | Some O => [b :: bs']
      | _ =>
        let '(tok, rest) := span_token (b :: bs') in
        tok :: split_go fuel' (Nat.pred <$> maxsplit) rest
      end
    end
  end.

(** [s.split()] with [maxsplit = None], [s.split(maxsplit=n)] with
    [Some n]. *)
Definition split (maxsplit : option nat) (s : string) : list string :=
  of_bytes <$> split_go (S (String.length s)) maxsplit (bytes_of s).

(** [s.startswith(p)] *)
Definition startswith (s p : string) : bool := String.prefix p s.

Definition lower_ascii (c : Ascii.ascii) : Ascii.ascii :=
  let n := Ascii.N_of_ascii c in
  if ((65 <=? n) && (n <=? 90))%N then Ascii.ascii_of_N (n + 32) else c.

(** [s.lower()], on the letters A..Z.  The source only compares the result
    with the words ["report"] and ["refund"]; no character outside ASCII
    lowers to one of their letters, so the comparison is the one of
    Python. *)
Fixpoint lower (s : string) : string :=
  match s with
  | EmptyString => EmptyString
  | String c s' => String (lower_ascii c) (lower s')
  end.

(** [str(n)] *)
Definition str_of_int (n : Z) : string := pretty n.

(** [str(x)] of an integer that may be [None]. *)
Definition str_of_opt_int (x : option Z) : string :=
  match x with
  | Some n => str_of_int n
  | None => "None"
  end.

(** Truth value of an integer that may be [None]. *)
Definition truthy_int (x : option Z) : bool :=
  match x with
  | Some n => negb (n =? 0)
  | None => false
  end.

(** Truth value of a string. *)
Definition truthy_str (s : string) : bool :=
  negb (bool_decide (s = "")).

End Py.

(** ** A state monad for the handlers

    The handlers mutate the bot's dictionaries and talk to the network; they
    are functions from the state before to a result and the state after. *)

Definition M (S A : Type) : Type := S -> A * S.

#[global] Instance M_ret {S} : MRet (M S) := λ A a s, (a, s).
#[global] Instance M_bind {S} : MBind (M S) :=
  λ A B f m s, let '(a, s') := m s in f a s'.

Definition exec {S A} (m : M S A) (s : S) : S := snd (m s).

(** ** The data of the Telegram Bot API the bots read *)

(** [message["from"]], [callback_query["from"]] *)
Record tg_user := TgUser {
  tg_id : option Z;
  tg_username : option string;
  tg_first_name : option string;
  tg_last_name : option string
}.

(** [update["message"]]: the keys the bots read, each possibly missing.
    [msg_chat] is [message["chat"]["id"]]; [msg_photo] lists the [file_id]
    of each size of the photo, smallest first. *)
Record message := Message {
  msg_chat : option Z;
  msg_from : option tg_user;
  msg_text : option string;
  msg_photo : option (list string);
  msg_caption : option string
}.

(** [update["callback_query"]]; [cq_chat] is
    [callback_query["message"]["chat"]["id"]]. *)
Record callback_query := CallbackQuery {
  cq_id : option string;
  cq_from : option tg_user;
  cq_chat : option Z;
  cq_data : option string
}.

Inductive update_body :=
| UMessage (m : message)
| UCallbackQuery (q : callback_query)
| UOther.

Record update := Update { update_id : Z; body : update_body }.

(** [x is not None], and the truth value of an answer of the Bot API (a
    dictionary that is never empty). *)
Definition present {A} (x : option A) : bool :=
  match x with Some _ => true | None => false end.

(** Truth value of a message dictionary: it has some key. *)
Definition message_truthy (m : message) : bool :=
  present (msg_chat m) || present (msg_from m) || present (msg_text m)
  || present (msg_photo m) || present (msg_caption m).

(** A destination is an integer chat id taken from an update, or a string
    (a configured channel id, or a token of an admin command). *)
Inductive dest :=
| ChatId (chat_id : Z)
| ChatName (chat_id : string).

Inductive markup :=
| ReplyKeyboard (keyboard : list (list string)) (resize_keyboard : bool)
| InlineKeyboard (inline_keyboard : list (list (string * string))).

(** The requests the bot posts to the Bot API. *)
Inductive request :=
| SendMessage (chat_id : dest) (text : string) (reply_markup : option markup)
| SendPhoto (chat_id : dest) (photo : string) (caption : string)
| AnswerCallbackQuery (callback_query_id : option string).

(** The JSON body of an answer: its ["ok"] field and its [str()]. *)
Record reply := Reply { ok : bool; repr : string }.

(** What the world outside answers while one event is processed.
    [http r = None]: the request raised ([requests] failed, or the status
    was an error); [db_ok = false]: the [INSERT] raised. *)
Record env := Env {
  http : request -> option reply;
  db_ok : bool;
  db_now : Z;
  now_manila : string
}.

(** ** The report table *)

Module Store.

(** A row of the table [report] ([init_db], [models.Report]). *)
Record report := Report {
  id : Z;
  user_id : Z;
  username : string;
  category : string;
  description : string;
  status : string;
  timestamp : Z
}.

(** [INSERT INTO report (user_id, username, category, description)] on the
    table that [init_db] created: the status and the timestamp take the
    defaults of its [CREATE TABLE].  The rows are those of a table that was
    empty when the bot started and that only this insert writes, so their
    ids are 1, 2, ... in order, and the row id SQLite assigns ([lastrowid],
    one more than the largest id) is the number of rows the table then
    has. *)
Definition insert (now : Z) (user_id : Z) (username category description : string)
    (rows : list report) : Z * list report :=
  let report_id := Z.of_nat (S (length rows)) in
  (report_id,
   rows ++ [Report report_id user_id username category description "Pending" now]).

Definition newer_first (a b : report) : Prop := timestamp b <= timestamp a.

#[global] Instance newer_first_dec a b : Decision (newer_first a b).
Proof. unfold newer_first. apply _. Defined.

(** Put a row before the first row that is not newer than it. *)
Fixpoint insert_newer_first (r : report) (sorted : list report) : list report :=
  match sorted with
  | [] => [r]
  | x :: rest =>
    if decide (newer_first r x) then r :: x :: rest
    else x :: insert_newer_first r rest
  end.

(** [get_reports] of [app.py]:
    [Report.query.order_by(Report.timestamp.desc()).all()].  The query does
    not order rows of equal timestamp; they stay in the order of the table,
    as SQLite returns them. *)
Definition list_reports (rows : list report) : list report :=
  foldr insert_newer_first [] rows.

End Store.

(** ** [telegram_api_bot.py] *)

Module ApiBot.

Definition CHANNEL_ID : string := "-1002544234044".
Definition RESPONSE_CHANNEL_ID : string := "-1002326727802".

Definition CATEGORIES : list string := ["Discord Items"; "Premiums"].

Inductive conv_state :=
| STATE_IDLE
| STATE_AWAITING_CATEGORY
| STATE_AWAITING_DESCRIPTION.

#[global] Instance conv_state_eq_dec : EqDecision conv_state.
Proof. solve_decision. Defined.

(** A value of [user_states]: the key ["state"] is always written, the
    keys ["category"] and ["message_data"] may be missing. *)
Record session := Session {
  state : conv_state;
  category : option string;
  message_data : option message
}.

(** The mutable state of the module: the dictionary [user_states], the
    table behind [DB_PATH], [self.offset], and the requests posted so
    far, oldest first. *)
Record bot := Bot {
  user_states : gmap (option Z) session;
  reports : list Store.report;
  outbox : list request;
  offset : Z
}.

Definition get_user_states : M bot (gmap (option Z) session) :=
  λ w, (user_states w, w).

(** [user_states[user_id] = s] *)
Definition set_session (user_id : option Z) (s : session) : M bot unit :=
  λ w, (tt, Bot (<[user_id := s]> (user_states w)) (reports w) (outbox w) (offset w)).

Definition set_offset (n : Z) : M bot unit :=
  λ w, (tt, Bot (user_states w) (reports w) (outbox w) n).

(** [user_id in user_states and user_states[user_id]["state"] == st] *)
Definition in_state (states : gmap (option Z) session) (user_id : option Z)
    (st : conv_state) : bool :=
  match states !! user_id with
  | Some s => bool_decide (state s = st)
  | None => false
  end.

(** [user_states.get(user_id, {}).get("message_data", None)], kept by the
    caller under [if message_data:]. *)
Definition kept_message_data (states : gmap (option Z) session)
    (user_id : option Z) : option message :=
  m ← states !! user_id ≫= message_data;
  if message_truthy m then Some m else None.

(** The branch of the [if]/[elif] chain of [process_command] a text
    falls in. *)
Inductive command :=
| CmdStart | CmdReport | CmdRefund | CmdRespond | CmdDebugChannel | PlainText.

Definition classify (text : string) : command :=
  if Py.startswith text "/start" then CmdStart
  else if Py.startswith text "/report" || bool_decide (Py.lower text = "report")
  then CmdReport
  else if Py.startswith text "/refund" || bool_decide (Py.lower text = "refund")
  then CmdRefund
  else if Py.startswith text "/respond" then CmdRespond
  else if Py.startswith text "/debug_channel" then CmdDebugChannel
  else PlainText.

(** *** The texts the bot sends *)

Definition welcome_text (username : string) : string :=
  Py.lines [
    "🩰⠀hello <b>@" +:+ username +:+ "</b>!";
    "";
    "⠀⠀This is the report bot for @xnnprems.";
    "⠀⠀⠀for updates, join our main channel";
    "";
    "<b>report</b> - to report a problem with your purchase";
    "<b>refund</b> - to request a refund of your purchase";
    "";
    "❗️⠀<b>reminders:</b>";
    "⠀.⠀make sure that the informations you provided";
    "⠀⠀are correct and true";
    "⠀.⠀refunds will only be given if we can no longer";
    "⠀⠀ fix the premium acc you purchased";
    "⠀.⠀do not request a refund if hindi ka namin";
    "⠀⠀ sinabihan" ].

Definition category_prompt : string :=
  "Let's start your report. First, please select the category that best describes your issue:".

Definition discord_form : string :=
  Py.lines [
    "🩰⠀<b>Discord Report Form</b>";
    "";
    "<code>discord username:</code>";
    "<code>item purchased:</code>";
    "<code>date of purchase:</code>";
    "<code>issue description:</code>";
    "";
    "❗️ Please fill out all fields in your response" ].

Definition premium_form : string :=
  Py.lines [
    "🩰⠀<b>Premium Report Form</b>";
    "";
    "<code>⠀﹒ premium availed : </code>";
    "<code>⠀﹒ solo or shared : </code>";
    "<code>⠀﹒ price paid : </code>";
    "<code>⠀﹒ email : </code>";
    "<code>⠀﹒ password : </code>";
    "<code>⠀﹒ date reported : </code>";
    "<code>⠀﹒ days used : </code>";
    "<code>⠀﹒ remaining days : </code>";
    "<code>⠀﹒ issue : </code>";
    "";
    "<b>ꕀ⠀include this in your form</b>";
    "⠀✅⠀proof of vouch";
    "⠀✅⠀proof of issue" ].

Definition refund_form : string :=
  Py.lines [
    "🩰⠀<b>Refund Form</b>";
    "";
    "<code>username:</code>";
    "<code>date of purchase:</code>";
    "<code>price paid:</code>";
    "<code>days of subscription:</code>";
    "<code>remaining days:</code>";
    "<code>gcash number:</code>";
    "";
    "❗️<b>note:</b> there will be an 8% or 0.80 service fee";
    "";
    "<b>formula:</b> price / days of sub x 0.8 x (remaining days)" ].

Definition lost_track_msg : string :=
  "Sorry, I've lost track of your report. Please start over with /report".

Definition refund_channel_msg (now : string) (report_id : Z)
    (user_id username description : string) : string :=
  Py.lines [
    "🩰⠀ <b>Refund Request</b>";
    "";
    "<b>Report ID:</b> xnn_" +:+ Py.str_of_int report_id;
    "<b>Submitted:</b> " +:+ now;
    "";
    "<b>Requested by:</b> <a href='tg://user?id=" +:+ user_id +:+ "'>@"
      +:+ username +:+ "</a>";
    "<b>User ID:</b> " +:+ user_id;
    "";
    "<b>Details:</b>";
    description ].

Definition report_channel_msg (now category : string) (report_id : Z)
    (user_id username description : string) : string :=
  Py.lines [
    "🩰⠀ <b>" +:+ category +:+ " Report</b>";
    "";
    "<b>Report ID:</b> xnn_" +:+ Py.str_of_int report_id;
    "<b>Submitted:</b> " +:+ now;
    "";
    "<b>Reported by:</b> <a href='tg://user?id=" +:+ user_id +:+ "'>@"
      +:+ username +:+ "</a>";
    "<b>User ID:</b> " +:+ user_id;
    "";
    "<b>Details:</b>";
    description ].

Definition success_msg (report_id : Z) : string :=
  Py.lines [
    "✅ Your report has been submitted successfully!";
    "";
    "<b>Report ID:</b> <tg-spoiler>xnn_" +:+ Py.str_of_int report_id +:+ "</tg-spoiler>";
    "";
    "❗ <b>reminders:</b>";
    "⠀﹒ do not spam the admins for updates";
    "⠀﹒ no update means, hindi pa na ayos report mo";
    "⠀﹒ 5-7 days or up waiting time for reports";
    "" ].

(** The report is saved; forwarding it to the channel failed. *)
Definition error_msg : string :=
  Py.lines [
    "❌ There was an issue forwarding your report to our admins.";
    "Please try again later or contact support directly." ].

Definition save_error_msg : string :=
  "Sorry, there was an error saving your report. Please try again later.".

Definition respond_usage : string := "❌ Usage: /respond [user_id] [message]".

Definition respond_photo_usage : string :=
  "❌ Usage: Send photo with caption: /respond [user_id] [message]".

Definition respond_user_caption (response_text : string) : string :=
  Py.lines [ "📬 <b>Admin Response:</b>"; ""; response_text ].

Definition respond_user_msg (response_text : string) : string :=
  Py.lines [ "❗⠀<b>Admin Response:</b>"; ""; response_text ].

Definition respond_channel_msg (target_user_id response_text : string) : string :=
  Py.lines [
    "📬 <b>Admin Response</b>";
    "";
    "<b>To User:</b> <a href='tg://user?id=" +:+ target_user_id +:+ "'>"
      +:+ target_user_id +:+ "</a>";
    "<b>Response:</b>";
    response_text ].

Definition respond_photo_sent : string := "✅ Photo response sent successfully!".
Definition respond_photo_failed : string :=
  "❌ Failed to send photo response. Please try again.".
Definition respond_sent : string := "✅ Response sent successfully!".
Definition respond_failed : string := "❌ Failed to send response. Please try again.".

Definition debug_info (chat_id user_id : string) : string :=
  Py.lines [
    "Debug Info:";
    "• Your Chat ID: <b>" +:+ chat_id +:+ "</b>";
    "• Your User ID: <b>" +:+ user_id +:+ "</b>";
    "• Current Channel ID setting: <b>" +:+ CHANNEL_ID +:+ "</b>";
    "";
    "To make channel forwarding work:";
    "1. Add this bot as an admin to your channel";
    "2. Make sure it has permission to post messages";
    "3. Get the channel ID (you may need to use a channel ID bot)";
    "";
    "You can test sending directly to a channel with:";
    "/debug_channel YOUR_CHANNEL_ID" ].

Definition debug_test_msg (user_id now : string) : string :=
  Py.lines [
    "🧪 <b>TEST MESSAGE</b>";
    "";
    "This is a test message sent to verify channel connectivity.";
    "Sent by user ID: " +:+ user_id;
    "Timestamp: " +:+ now ].

Definition debug_sent (new_channel_id : string) : string :=
  "✅ Test message successfully sent to channel ID: <b>" +:+ new_channel_id +:+ "</b>".

Definition debug_failed (new_channel_id response : string) : string :=
  Py.lines [
    "❌ Failed to send test message to channel ID: <b>" +:+ new_channel_id +:+ "</b>";
    "Error: " +:+ response;
    "";
    "Possible causes:";
    "• Bot is not a channel admin";
    "• Channel ID is incorrect";
    "• Bot doesn't have post permission" ].

(** *** The handlers, while the world answers as [E] says *)

Section handlers.

Variable E : env.

(** The request is handed to [requests.post]; a failure is logged and
    [None] is returned. *)
Definition post (r : request) : M bot (option reply) :=
  λ w, (http E r, Bot (user_states w) (reports w) (outbox w ++ [r]) (offset w)).

Definition send_message (chat_id : dest) (text : string)
    (reply_markup : option markup) : M bot (option reply) :=
  post (SendMessage chat_id text reply_markup).

Definition send_photo_to_channel (channel_id : dest) (file_id caption : string)
  : M bot (option reply) :=
  post (SendPhoto channel_id file_id caption).

Definition answer_callback_query (callback_query_id : option string)
  : M bot (option reply) :=
  post (AnswerCallbackQuery callback_query_id).

(** [response and response.get("ok", False)] *)
Definition reply_ok (response : option reply) : bool :=
  match response with
  | Some r => ok r
  | None => false
  end.

Definition send_to_channel (text : string) : M bot (option reply) :=
  response ← send_message (ChatName CHANNEL_ID) text None;
  mret (if reply_ok response then response else None).

(** [save_report]: the row id, or [None] when the insert raised.  The
    column [user_id] is [NOT NULL]. *)
Definition save_report (user_id : option Z) (username category description : string)
  : M bot (option Z) :=
  λ w,
    match user_id with
    | Some uid =>
      if db_ok E then
        let '(report_id, rows) :=
          Store.insert (db_now E) uid username category description (reports w) in
        (Some report_id, Bot (user_states w) rows (outbox w) (offset w))
      else (None, w)
    | None => (None, w)
    end.

Definition cmd_start (chat_id : Z) (user_id : option Z) (message : message)
  : M bot unit :=
  set_session user_id (Session STATE_IDLE None (Some message));;
  send_message (ChatId chat_id)
    (welcome_text (default "user" (msg_from message ≫= tg_username)))
    (Some (ReplyKeyboard [["report"]; ["refund"]] true));;
  mret tt.

Definition cmd_report (chat_id : Z) (user_id : option Z) : M bot unit :=
  states ← get_user_states;
  let message_data := kept_message_data states user_id in
  set_session user_id (Session STATE_AWAITING_CATEGORY None message_data);;
  let keyboard := (λ category, [(category, category)]) <$> CATEGORIES in
  send_message (ChatId chat_id) category_prompt (Some (InlineKeyboard keyboard));;
  mret tt.

Definition process_category (chat_id : Z) (user_id : option Z) (category : string)
  : M bot unit :=
  if bool_decide (category = "Discord Items") then
    send_message (ChatId chat_id) discord_form None;; mret tt
  else if bool_decide (category = "Premiums") then
    send_message (ChatId chat_id) premium_form None;; mret tt
  else mret tt.

Definition cmd_refund (chat_id : Z) (user_id : option Z) : M bot unit :=
  states ← get_user_states;
  let message_data := kept_message_data states user_id in
  set_session user_id
    (Session STATE_AWAITING_DESCRIPTION (Some "Refund") message_data);;
  send_message (ChatId chat_id) refund_form None;;
  mret tt.

(** The name a report is saved under:
    [user_states[user_id].get("message_data", {}).get("from", {})
       .get("username", f"user_{user_id}")]. *)
Definition resolve_username (s : session) (user_id : option Z) : string :=
  let user_data := message_data s ≫= msg_from in
  default ("user_" +:+ Py.str_of_opt_int user_id) (user_data ≫= tg_username).

Definition process_description (chat_id : Z) (user_id : option Z)
    (description : string) : M bot unit :=
  states ← get_user_states;
  match states !! user_id with
  | Some (Session st (Some category) md) =>
    let username := resolve_username (Session st (Some category) md) user_id in
    report_id ← save_report user_id username category description;
    (if Py.truthy_int report_id then
       let rid := default 0 report_id in
       let uid := Py.str_of_opt_int user_id in
       let channel_msg :=
         if bool_decide (category = "Refund")
         then refund_channel_msg (now_manila E) rid uid username description
         else report_channel_msg (now_manila E) category rid uid username description in
       channel_response ← send_to_channel channel_msg;
       if reply_ok channel_response
       then send_message (ChatId chat_id) (success_msg rid) None
       else send_message (ChatId chat_id) error_msg None
     else send_message (ChatId chat_id) save_error_msg None);;
    set_session user_id (Session STATE_IDLE None None)
  | _ =>
    send_message (ChatId chat_id) lost_track_msg None;;
    set_session user_id (Session STATE_IDLE None None)
  end.

(** [cmd_respond]; [update] is the message of the update the caller
    passes.  Nothing in the body raises outside the inner [try], so the
    outer handler (which would send [respond_failed]) is never entered; the
    inner handler is entered by the two [raise] statements and by
    [photo[-1]] on an empty list. *)
Definition cmd_respond (chat_id : Z) (user_id : option Z) (text : string)
    (update : option message) : M bot unit :=
  match update ≫= (λ m, sizes ← msg_photo m; Some (m, sizes)) with
  | Some (m, sizes) =>
    let caption := default "" (msg_caption m) in
    if negb (Py.truthy_str caption) || negb (Py.startswith caption "/respond") then
      send_message (ChatId chat_id) respond_photo_usage None;; mret tt
    else
      match Py.split (Some 2%nat) caption with
      | _ :: target_user_id :: response_text :: _ =>
        let failed :=
          send_message (ChatId chat_id) respond_photo_failed None;; mret tt in
        match last sizes with
        | None => failed
        | Some photo =>
          response ← send_photo_to_channel (ChatName target_user_id) photo
                       (respond_user_caption response_text);
          if negb (present response) then failed
          else
            response ← send_photo_to_channel (ChatName RESPONSE_CHANNEL_ID) photo
                         (respond_channel_msg target_user_id response_text);
            if negb (present response) then failed
            else send_message (ChatId chat_id) respond_photo_sent None;; mret tt
        end
      | _ => send_message (ChatId chat_id) respond_photo_usage None;; mret tt
      end
  | None =>
    match Py.split (Some 2%nat) text with
    | _ :: target_user_id :: response_text :: _ =>
      send_message (ChatName target_user_id) (respond_user_msg response_text) None;;
      send_message (ChatName "-1002326727802")
        (respond_channel_msg target_user_id response_text) None;;
      send_message (ChatId chat_id) respond_sent None;;
      mret tt
    | _ => send_message (ChatId chat_id) respond_usage None;; mret tt
    end
  end.

Definition cmd_debug_channel (chat_id : Z) (user_id : option Z) (text : string)
  : M bot unit :=
  let parts := Py.split None (Py.strip text) in
  let new_channel_id := parts !! 1%nat in
  send_message (ChatId chat_id)
    (debug_info (Py.str_of_int chat_id) (Py.str_of_opt_int user_id)) None;;
  match new_channel_id with
  | Some new_channel_id =>
    if Py.truthy_str new_channel_id then
      response ← send_message (ChatName new_channel_id)
                   (debug_test_msg (Py.str_of_opt_int user_id) (now_manila E)) None;
      (if reply_ok response
       then send_message (ChatId chat_id) (debug_sent new_channel_id) None
       else send_message (ChatId chat_id)
              (debug_failed new_channel_id (from_option repr "None" response)) None);;
      mret tt
    else mret tt
  | None => mret tt
  end.

Definition process_command (message : message) : M bot unit :=
  let chat_id := msg_chat message in
  let user_id := msg_from message ≫= tg_id in
  let text := default "" (msg_text message) in
  let photo := default [] (msg_photo message) in
  let caption := default "" (msg_caption message) in
  if negb (Py.truthy_int chat_id) then mret tt
  else
    let chat_id := default 0 chat_id in
    states ← get_user_states;
    if bool_decide (photo ≠ []) && in_state states user_id STATE_AWAITING_DESCRIPTION
    then
      let file_id := default "" (last photo) in
      process_description chat_id user_id (if Py.truthy_str caption then caption else "");;
      send_photo_to_channel (ChatName CHANNEL_ID) file_id caption;;
      mret tt
    else if negb (Py.truthy_str text) then mret tt
    else
      match classify text with
      | CmdStart => cmd_start chat_id user_id message
      | CmdReport => cmd_report chat_id user_id
      | CmdRefund => cmd_refund chat_id user_id
      | CmdRespond => cmd_respond chat_id user_id text (Some message)
      | CmdDebugChannel => cmd_debug_channel chat_id user_id text
      | PlainText =>
        if in_state states user_id STATE_AWAITING_DESCRIPTION
        then process_description chat_id user_id text
        else mret tt
      end.

Definition process_callback_query (callback_query : callback_query) : M bot unit :=
  let chat_id := cq_chat callback_query in
  let user_id := cq_from callback_query ≫= tg_id in
  let data := default "" (cq_data callback_query) in
  let callback_id := cq_id callback_query in
  if negb (Py.truthy_int chat_id) || negb (Py.truthy_str data)
     || negb (Py.truthy_int user_id)
  then mret tt
  else
    let chat_id := default 0 chat_id in
    answer_callback_query callback_id;;
    states ← get_user_states;
    if in_state states user_id STATE_AWAITING_CATEGORY then
      if bool_decide (data ∈ CATEGORIES) then
        let message_data := kept_message_data states user_id in
        set_session user_id
          (Session STATE_AWAITING_DESCRIPTION (Some data) message_data);;
        process_category chat_id user_id data
      else mret tt
    else mret tt.

(** The body of the [for] loop of [run]. *)
Definition dispatch (u : update) : M bot unit :=
  match body u with
  | UMessage m => process_command m
  | UCallbackQuery q => process_callback_query q
  | UOther => mret tt
  end.

End handlers.

(** *** The polling loop *)

(** What [getUpdates] answered: the request raised, or a JSON body with
    its ["ok"] and ["result"]. *)
Inductive poll :=
| PollRaised
| PollBody (ok : bool) (result : list update).

Definition get_updates (p : poll) : M bot (list update) :=
  match p with
  | PollBody true updates =>
    match last updates with
    | Some u => set_offset (update_id u + 1)
    | None => mret tt
    end;;
    mret updates
  | _ => mret []
  end.

(** The [for] loop over a batch; the world answers the [i]-th event of
    the batch as [envs i] says. *)
Fixpoint handle_batch (envs : nat -> env) (i : nat) (updates : list update)
  : M bot unit :=
  match updates with
  | [] => mret tt
  | u :: rest => dispatch (envs i) u;; handle_batch envs (S i) rest
  end.

(** One turn of the [while True] loop of [run]. *)
Definition run_once (p : poll) (envs : nat -> env) : M bot unit :=
  updates ← get_updates p;
  handle_batch envs 0 updates.

(** The state [run_bot] starts from, on a table that [init_db] just
    created. *)
Definition init : bot := Bot ∅ [] [] 0.

End ApiBot.

(** ** The bots built on [python-telegram-bot]

    Their handlers do not catch the errors of the library: a request that
    fails raises, and the exception leaves the handler.  [MX] is the state
    monad with that exception; the state reached so far is kept. *)

Definition MX (S A : Type) : Type := S -> option A * S.

#[global] Instance MX_ret {S} : MRet (MX S) := λ A a s, (Some a, s).
#[global] Instance MX_bind {S} : MBind (MX S) :=
  λ A B f m s,
    match m s with
    | (Some a, s') => f a s'
    | (None, s') => (None, s')
    end.

Definition raise {S A} : MX S A := λ s, (None, s).

Module Ptb.

(** [telegram.User]: the first name is mandatory. *)
Record user := User {
  id : Z;
  first_name : string;
  last_name : option string;
  username : option string
}.

(** [telegram.CallbackQuery] *)
Record callback := Callback { query_id : string; data : string }.

(** [telegram.Update]: [message] is [update.message.text] when
    [update.message] is set. *)
Record update := Update {
  update_id : Z;
  effective_user : option user;
  effective_chat : option Z;
  message : option (option string);
  callback_query : option callback
}.

End Ptb.

(** The name a report is saved under in [process_description] of
    [telegram_bot_runner.py] and in [report_description] of
    [standalone_bot.py]:
    [username = user.username]; [if not username: username =
    f"{user.first_name} {user.last_name or ''}".strip()]. *)
Definition ptb_resolve_username (user : Ptb.user) : string :=
  let name := default "" (Ptb.username user) in
  if Py.truthy_str name then name
  else Py.strip (Ptb.first_name user +:+ " " +:+ default "" (Ptb.last_name user)).

Definition cancelled_text : string :=
  "Report process cancelled. If you want to submit a report later, use the /report command.".

Definition thanks_text (report_id : option Z) (category : string) : string :=
  Py.lines [
    "Thank you! Your report (ID: " +:+ Py.str_of_opt_int report_id
      +:+ ") has been submitted successfully.";
    "";
    "Category: " +:+ category;
    "Our team will review your issue and take appropriate action. If needed, we may contact you for additional information.";
    "";
    "You can submit another report using the /report command." ].

Definition selected_text (category : string) : string :=
  Py.lines [
    "You selected: " +:+ category;
    "";
    "Now, please provide a detailed description of the issue. Include relevant information like:";
    "- Order number (if applicable)";
    "- Date of purchase";
    "- What exactly went wrong";
    "";
    "Type your description below:" ].

Definition help_text : string :=
  Py.lines [
    "Here are the available commands:";
    "";
    "/start - Start the bot";
    "/report - Report a new purchase issue";
    "/cancel - Cancel the current operation";
    "/help - Show this help message" ].

Definition ptb_category_prompt : string :=
  "Let's start your report. First, please select the category that best describes your issue:".

(** ** [telegram_bot_runner.py] *)

Module RunnerBot.

Definition categories : list string :=
  ["Delivery Issue"; "Product Quality"; "Wrong Item"; "Damaged Package";
   "Payment Issue"; "Missing Parts"; "Other"].

Inductive conv_state := STATE_INIT | STATE_CATEGORY | STATE_DESCRIPTION.

#[global] Instance conv_state_eq_dec : EqDecision conv_state.
Proof. solve_decision. Defined.

(** [self.user_states], [self.user_data] (a dictionary per user, with or
    without the key ['category']), the table, the requests sent and
    [self.last_update_id]. *)
Record bot := Bot {
  user_states : gmap Z conv_state;
  user_data : gmap Z (option string);
  reports : list Store.report;
  outbox : list request;
  last_update_id : Z
}.

Definition get : MX bot bot := λ w, (Some w, w).

Definition set_state (user_id : Z) (st : conv_state) : MX bot unit :=
  λ w, (Some tt, Bot (<[user_id := st]> (user_states w)) (user_data w)
                     (reports w) (outbox w) (last_update_id w)).

Definition set_user_data (f : gmap Z (option string) -> gmap Z (option string))
  : MX bot unit :=
  λ w, (Some tt, Bot (user_states w) (f (user_data w))
                     (reports w) (outbox w) (last_update_id w)).

Definition set_last_update_id (n : Z) : MX bot unit :=
  λ w, (Some tt, Bot (user_states w) (user_data w) (reports w) (outbox w) n).

Definition hello_text (first_name : string) : string :=
  Py.lines [
    "Hello " +:+ first_name +:+ "! ðŸ‘‹";
    "";
    "I'm the Purchase Issue Reporter Bot. I can help you report problems with your purchases.";
    "";
    "Use /report to start a new issue report.";
    "Use /help to see all available commands." ].

Definition lost_track_text : string :=
  "Sorry, I lost track of your report. Please start over with /report".

Section handlers.

Variable E : env.

(** A call of [self.bot]: it raises when the request fails. *)
Definition call (r : request) : MX bot unit :=
  λ w,
    let w' := Bot (user_states w) (user_data w) (reports w) (outbox w ++ [r])
                  (last_update_id w) in
    (if present (http E r) then Some tt else None, w').

(** [x.attr] on a value that may be [None]. *)
Definition attr {A} (x : option A) : MX bot A :=
  match x with
  | Some a => mret a
  | None => raise
  end.

Definition send_message (chat_id : Z) (text : string) (reply_markup : option markup)
  : MX bot unit :=
  call (SendMessage (ChatId chat_id) text reply_markup).

Definition save_report (user_id : Z) (username category description : string)
  : MX bot (option Z) :=
  λ w,
    if db_ok E then
      let '(report_id, rows) :=
        Store.insert (db_now E) user_id username category description (reports w) in
      (Some (Some report_id),
       Bot (user_states w) (user_data w) rows (outbox w) (last_update_id w))
    else (Some None, w).

Definition cmd_start (update : Ptb.update) : MX bot unit :=
  user ← attr (Ptb.effective_user update);
  chat_id ← attr (Ptb.effective_chat update);
  send_message chat_id (hello_text (Ptb.first_name user))
    (Some (ReplyKeyboard [["/report"]; ["/help"]] true)).

Definition cmd_help (update : Ptb.update) : MX bot unit :=
  chat_id ← attr (Ptb.effective_chat update);
  send_message chat_id help_text None.

Definition cmd_report (update : Ptb.update) : MX bot unit :=
  let keyboard := (λ category, [(category, category)]) <$> categories in
  chat_id ← attr (Ptb.effective_chat update);
  send_message chat_id ptb_category_prompt (Some (InlineKeyboard keyboard)).

Definition cmd_cancel (update : Ptb.update) : MX bot unit :=
  user ← attr (Ptb.effective_user update);
  let user_id := Ptb.id user in
  set_user_data (delete user_id);;
  chat_id ← attr (Ptb.effective_chat update);
  send_message chat_id cancelled_text None.

Definition process_category (update : Ptb.update) : MX bot unit :=
  user ← attr (Ptb.effective_user update);
  let user_id := Ptb.id user in
  query ← attr (Ptb.callback_query update);
  let category := Ptb.data query in
  set_user_data (<[user_id := Some category]>);;
  call (AnswerCallbackQuery (Some (Ptb.query_id query)));;
  chat_id ← attr (Ptb.effective_chat update);
  send_message chat_id (selected_text category) None.

Definition process_description (update : Ptb.update) : MX bot unit :=
  user ← attr (Ptb.effective_user update);
  let user_id := Ptb.id user in
  text ← attr (Ptb.message update);
  let description := default "" text in
  w ← get;
  match mjoin (user_data w !! user_id) with
  | None =>
    chat_id ← attr (Ptb.effective_chat update);
    send_message chat_id lost_track_text None
  | Some category =>
    let username := ptb_resolve_username user in
    report_id ← save_report (Ptb.id user) username category description;
    chat_id ← attr (Ptb.effective_chat update);
    send_message chat_id (thanks_text report_id category) None;;
    set_user_data (delete user_id)
  end.

(** The [elif update.callback_query:] branch of [process_update]. *)
Definition on_callback_query (update : Ptb.update) : MX bot unit :=
  match Ptb.callback_query update with
  | Some _ =>
    user ← attr (Ptb.effective_user update);
    let user_id := Ptb.id user in
    w ← get;
    if bool_decide (user_states w !! user_id = Some STATE_CATEGORY) then
      process_category update;; set_state user_id STATE_DESCRIPTION
    else mret tt
  | None => mret tt
  end.

Definition process_update (update : Ptb.update) : MX bot unit :=
  match Ptb.message update with
  | Some (Some text) =>
    if Py.truthy_str text then
      user ← attr (Ptb.effective_user update);
      let user_id := Ptb.id user in
      if bool_decide (text = "/start") then
        cmd_start update;; set_state user_id STATE_INIT
      else if bool_decide (text = "/help") then
        cmd_help update;; set_state user_id STATE_INIT
      else if bool_decide (text = "/report") then
        cmd_report update;; set_state user_id STATE_CATEGORY
      else if bool_decide (text = "/cancel") then
        cmd_cancel update;; set_state user_id STATE_INIT
      else
        w ← get;
        if bool_decide (user_states w !! user_id = Some STATE_DESCRIPTION) then
          process_description update;; set_state user_id STATE_INIT
        else mret tt
    else on_callback_query update
  | _ => on_callback_query update
  end.

End handlers.

(** *** The polling loop *)

(** The [for] loop of [run]: an exception of [process_update] leaves the
    loop, and the updates that follow are not looked at. *)
Fixpoint handle_batch (envs : nat -> env) (i : nat) (updates : list Ptb.update)
  : MX bot unit :=
  match updates with
  | [] => mret tt
  | u :: rest =>
    process_update (envs i) u;;
    set_last_update_id (Ptb.update_id u);;
    handle_batch envs (S i) rest
  end.

(** One turn of the [while True] loop of [run]; [p] is what
    [self.bot.get_updates(offset=self.last_update_id + 1)] returned, [None]
    when it raised.  The [except] clause logs and sleeps, whatever
    raised. *)
Definition run_once (p : option (list Ptb.update)) (envs : nat -> env) : M bot unit :=
  λ w,
    match p with
    | Some updates => (tt, snd (handle_batch envs 0 updates w))
    | None => (tt, w)
    end.

Definition init : bot := Bot ∅ ∅ [] [] 0.

End RunnerBot.

(** ** [standalone_bot.py]

    The handlers that [ConversationHandler] calls; each returns the state
    the conversation moves to.  [context.user_data] is the dictionary the
    library keeps for the user of the update. *)

Module Standalone.

Definition CATEGORIES : list string :=
  ["Delivery Issue"; "Product Quality"; "Wrong Item"; "Damaged Package";
   "Payment Issue"; "Missing Parts"; "Other"].

Definition CATEGORY : Z := 0.
Definition DESCRIPTION : Z := 1.
(** [ConversationHandler.END] *)
Definition END : Z := -1.

Record bot := Bot {
  user_data : option string;
  reports : list Store.report;
  outbox : list request
}.

Section handlers.

Variable E : env.

(** [update.message.reply_text], [query.message.reply_text] *)
Definition reply_text (update : Ptb.update) (text : string)
    (reply_markup : option markup) : MX bot unit :=
  λ w,
    match Ptb.effective_chat update with
    | Some chat_id =>
      let r := SendMessage (ChatId chat_id) text reply_markup in
      (if present (http E r) then Some tt else None,
       Bot (user_data w) (reports w) (outbox w ++ [r]))
    | None => (None, w)
    end.

(** [save_report]; the column [category] is [NOT NULL]. *)
Definition save_report (user_id : Z) (username : string) (category : option string)
    (description : string) : MX bot (option Z) :=
  λ w,
    match category with
    | Some category =>
      if db_ok E then
        let '(report_id, rows) :=
          Store.insert (db_now E) user_id username category description (reports w) in
        (Some (Some report_id), Bot (user_data w) rows (outbox w))
      else (Some None, w)
    | None => (Some None, w)
    end.

Definition start_report (update : Ptb.update) : MX bot Z :=
  let keyboard := (λ category, [(category, category)]) <$> CATEGORIES in
  reply_text update ptb_category_prompt (Some (InlineKeyboard keyboard));;
  mret CATEGORY.

Definition category_selected (update : Ptb.update) : MX bot Z :=
  match Ptb.callback_query update with
  | Some query =>
    λ w,
      let r := AnswerCallbackQuery (Some (Ptb.query_id query)) in
      let w' := Bot (user_data w) (reports w) (outbox w ++ [r]) in
      if present (http E r) then
        (reply_text update (selected_text (Ptb.data query)) None;;
         mret DESCRIPTION)
          (Bot (Some (Ptb.data query)) (reports w') (outbox w'))
      else (None, w')
  | None => raise
  end.

Definition report_description (update : Ptb.update) : MX bot Z :=
  match Ptb.effective_user update, Ptb.message update with
  | Some user, Some text =>
    λ w,
      let description := default "" text in
      let category := user_data w in
      let username := ptb_resolve_username user in
      (report_id ← save_report (Ptb.id user) username category description;
       reply_text update
         (thanks_text report_id (default "None" category)) None;;
       mret END) w
  | _, _ => raise
  end.

Definition cancel (update : Ptb.update) : MX bot Z :=
  reply_text update cancelled_text None;;
  mret END.

End handlers.

End Standalone.

(** ** [app.py]

    The two views of the dashboard that read and write the table [report].
    A view is a computation on the rows of the table; the Flask session is
    the value of its key ['admin_id'], if it has one. *)

Module App.

Inductive response :=
| Redirect (endpoint : string)
| NotFound
| ReportList (report_list : list Store.report)
| Success.

(** [login_required]: [if 'admin_id' not in session: return
    redirect(url_for('login'))]. *)
Definition login_required (admin_id : option Z) (f : M (list Store.report) response)
  : M (list Store.report) response :=
  match admin_id with
  | Some _ => f
  | None => mret (Redirect "login")
  end.

(** [get_reports] on the table the bot writes; a row of the list carries
    the columns of the report.  Every row of that table has its timestamp,
    set by the default of the insert, so [timestamp_str] is its
    [isoformat()]: the branch for a missing timestamp is not taken. *)
Definition get_reports (admin_id : option Z) : M (list Store.report) response :=
  login_required admin_id (λ rows, (ReportList (Store.list_reports rows), rows)).

Definition set_status (s : string) (r : Store.report) : Store.report :=
  Store.Report (Store.id r) (Store.user_id r) (Store.username r) (Store.category r)
    (Store.description r) s (Store.timestamp r).

(** [update_report]; [data] is the JSON object of the request, with strings
    as values.  [get_or_404] looks the row up by its primary key. *)
Definition update_report (admin_id : option Z) (report_id : Z) (data : gmap string string)
  : M (list Store.report) response :=
  login_required admin_id
    (λ rows,
       match list_find (λ r, Store.id r = report_id) rows with
       | None => (NotFound, rows)
       | Some (i, report) =>
         match data !! "status" with
         | Some s => (Success, <[i := set_status s report]> rows)
         | None => (Success, rows)
         end
       end).

End App.

(** ** Vocabulary of the properties *)

(** A session is fresh when the user is unknown to the bot, or idle with no
    category drafted. *)
Definition fresh (states : gmap (option Z) ApiBot.session) (user_id : option Z) : Prop :=
  match states !! user_id with
  | None => True
  | Some s => ApiBot.state s = ApiBot.STATE_IDLE ∧ ApiBot.category s = None
  end.

(** The text [process_description] forwards to the report channel. *)
Definition channel_text (E : env) (category : string) (report_id : Z) (user_id : option Z)
    (username description : string) : string :=
  if bool_decide (category = "Refund")
  then ApiBot.refund_channel_msg (now_manila E) report_id (Py.str_of_opt_int user_id)
         username description
  else ApiBot.report_channel_msg (now_manila E) category report_id
         (Py.str_of_opt_int user_id) username description.

(** The text an admin command is parsed from: the caption when the message
    carries a photo, the text otherwise. *)
Definition respond_input (text : string) (update : option message) : string :=
  match update ≫= (λ m, sizes ← msg_photo m; Some m) with
  | Some m => default "" (msg_caption m)
  | None => text
  end.

#[global] Instance dest_eq_dec : EqDecision dest.
Proof. solve_decision. Defined.

(** The destination of a request that carries a message or a photo. *)
Definition request_dest (r : request) : option dest :=
  match r with
  | SendMessage d _ _ | SendPhoto d _ _ => Some d
  | AnswerCallbackQuery _ => None
  end.

(** The requests of an outbox that go to the destination [d]. *)
Definition sent_to (d : dest) (outbox : list request) : list request :=
  filter (λ r, request_dest r = Some d) outbox.

(** A computation of [ApiBot] is quiet when it only posts requests: sessions,
    reports and offset are as before. *)
Definition quiet {A} (m : M ApiBot.bot A) : Prop :=
  ∀ w, ApiBot.user_states (m w).2 = ApiBot.user_states w
       ∧ ApiBot.reports (m w).2 = ApiBot.reports w
       ∧ ApiBot.offset (m w).2 = ApiBot.offset w.

(** A computation of [ApiBot] that leaves [self.offset] alone. *)
Definition keeps_offset {A} (m : M ApiBot.bot A) : Prop :=
  ∀ w, ApiBot.offset (m w).2 = ApiBot.offset w.

(** A computation of [RunnerBot] that leaves [self.last_update_id] alone,
    whether it returns or raises. *)
Definition keeps_last {A} (m : MX RunnerBot.bot A) : Prop :=
  ∀ w, RunnerBot.last_update_id (m w).2 = RunnerBot.last_update_id w.

(** The display name the specification describes: the handle when there is
    one, else the trimmed first and last name, else [user_<identity>] when
    there is neither handle nor name. *)
Definition spec_display_name (handle first_name last_name : option string)
    (identity : Z) : string :=
  match handle with
  | Some h => h
  | None =>
    match first_name, last_name with
    | None, None => "user_" +:+ Py.str_of_int identity
    | _, _ => Py.strip (default "" first_name +:+ " " +:+ default "" last_name)
    end
  end.

(** The identifiers the transport may answer a poll with: ascending, none
    below the lower bound [lo] the poll asked for. *)
Fixpoint ascending_from (lo : Z) (ids : list Z) : Prop :=
  match ids with
  | [] => True
  | i :: rest => lo <= i ∧ ascending_from (i + 1) rest
  end.

(** The states [ApiBot.run] goes through at the head of its [for] loop, each
    with the updates of the batch that are not dispatched yet. *)
Fixpoint api_batch_states (envs : nat -> env) (i : nat) (updates : list update)
    (w : ApiBot.bot) : list (ApiBot.bot * list update) :=
  (w, updates) ::
  match updates with
  | [] => []
  | u :: rest => api_batch_states envs (S i) rest (exec (ApiBot.dispatch (envs i) u) w)
  end.

Definition api_loop_states (p : ApiBot.poll) (envs : nat -> env) (w : ApiBot.bot)
  : list (ApiBot.bot * list update) :=
  let '(updates, w') := ApiBot.get_updates p w in
  api_batch_states envs 0 updates w'.

(** The same for [RunnerBot.run]; an exception of [process_update] leaves the
    loop, with nothing left to dispatch in this turn. *)
Fixpoint runner_batch_states (envs : nat -> env) (i : nat) (updates : list Ptb.update)
    (w : RunnerBot.bot) : list (RunnerBot.bot * list Ptb.update) :=
  (w, updates) ::
  match updates with
  | [] => []
  | u :: rest =>
    match RunnerBot.process_update (envs i) u w with
    | (Some _, w') =>
      runner_batch_states envs (S i) rest
        (snd (RunnerBot.set_last_update_id (Ptb.update_id u) w'))
    | (None, w') => [(w', [])]
    end
  end.

(** One turn of [RunnerBot.run]; when the poll raised, the loop is not
    entered. *)
Definition runner_loop_states (p : option (list Ptb.update)) (envs : nat -> env)
    (w : RunnerBot.bot) : list (RunnerBot.bot * list Ptb.update) :=
  match p with
  | Some updates => runner_batch_states envs 0 updates w
  | None => [(w, [])]
  end.

(** The updates of a batch that [RunnerBot.run] processes without an
    exception, in the order of the batch: the loop is left at the first
    update whose processing raises. *)
Fixpoint runner_processed (envs : nat -> env) (i : nat) (updates : list Ptb.update)
    (w : RunnerBot.bot) : list Ptb.update :=
  match updates with
  | [] => []
  | u :: rest =>
    match RunnerBot.process_update (envs i) u w with
    | (Some _, w') =>
      u :: runner_processed envs (S i) rest
             (snd (RunnerBot.set_last_update_id (Ptb.update_id u) w'))
    | (None, _) => []
    end
  end.

(** The bot after a sequence of updates, each dispatched while the world
    answers as the environment paired with it says. *)
Fixpoint run_events (events : list (env * update)) (w : ApiBot.bot) : ApiBot.bot :=
  match events with
  | [] => w
  | (E, u) :: rest => run_events rest (exec (ApiBot.dispatch E u) w)
  end.

(** The user an update comes from. *)
Definition sender (u : update) : option Z :=
  match body u with
  | UMessage m => msg_from m ≫= tg_id
  | UCallbackQuery q => cq_from q ≫= tg_id
  | UOther => None
  end.

Definition idle_session : ApiBot.session := ApiBot.Session ApiBot.STATE_IDLE None None.

(** What one update can do to the sessions and to the table: the
    transitions of the conversation, as [ApiBot] makes them. *)
Inductive effect (E : env) (u : option Z)
    (us : gmap (option Z) ApiBot.session) (rs : list Store.report)
  : gmap (option Z) ApiBot.session -> list Store.report -> Prop :=
| effect_none : effect E u us rs us rs
| effect_start (m : message) :
    effect E u us rs (<[u := ApiBot.Session ApiBot.STATE_IDLE None (Some m)]> us) rs
| effect_report :
    effect E u us rs
      (<[u := ApiBot.Session ApiBot.STATE_AWAITING_CATEGORY None
                (ApiBot.kept_message_data us u)]> us) rs
| effect_refund :
    effect E u us rs
      (<[u := ApiBot.Session ApiBot.STATE_AWAITING_DESCRIPTION (Some "Refund")
                (ApiBot.kept_message_data us u)]> us) rs
| effect_select (s : ApiBot.session) (c : string) :
    us !! u = Some s ->
    ApiBot.state s = ApiBot.STATE_AWAITING_CATEGORY ->
    c ∈ ApiBot.CATEGORIES ->
    effect E u us rs
      (<[u := ApiBot.Session ApiBot.STATE_AWAITING_DESCRIPTION (Some c)
                (ApiBot.kept_message_data us u)]> us) rs
| effect_complete (s : ApiBot.session) (uid : Z) (c d : string) :
    u = Some uid ->
    us !! u = Some s ->
    ApiBot.state s = ApiBot.STATE_AWAITING_DESCRIPTION ->
    ApiBot.category s = Some c ->
    db_ok E = true ->
    effect E u us rs (<[u := idle_session]> us)
      (rs ++ [Store.Report (Z.of_nat (S (length rs))) uid (ApiBot.resolve_username s u)
                c d "Pending" (db_now E)])
| effect_abandon (s : ApiBot.session) :
    us !! u = Some s ->
    ApiBot.state s = ApiBot.STATE_AWAITING_DESCRIPTION ->
    (db_ok E = false ∨ u = None ∨ ApiBot.category s = None) ->
    effect E u us rs (<[u := idle_session]> us) rs.

Definition known_category (c : string) : Prop := c ∈ ApiBot.CATEGORIES ∨ c = "Refund".

(** A session drafts a category exactly while it awaits the description,
    and that category is one the bot offers. *)
Definition session_ok (s : ApiBot.session) : Prop :=
  match ApiBot.state s with
  | ApiBot.STATE_AWAITING_DESCRIPTION =>
    ∃ c, ApiBot.category s = Some c ∧ known_category c
  | _ => ApiBot.category s = None
  end.

Definition bot_ok (w : ApiBot.bot) : Prop :=
  (∀ u s, ApiBot.user_states w !! u = Some s -> session_ok s)
  ∧ Forall (λ r, known_category (Store.category r)) (ApiBot.reports w).

(** The message is handed to [process_description]: it has a chat, and a
    description is awaited from its sender, and it carries a photo or a
    text. *)
Definition taken_as_description (m : message) (w : ApiBot.bot) : bool :=
  Py.truthy_int (msg_chat m)
  && ApiBot.in_state (ApiBot.user_states w) (msg_from m ≫= tg_id)
       ApiBot.STATE_AWAITING_DESCRIPTION
  && (bool_decide (default [] (msg_photo m) ≠ [])
      || Py.truthy_str (default "" (msg_text m))).

(** The texts that [process_update] takes as commands. *)
Definition runner_command (text : string) : Prop :=
  text = "/start" ∨ text = "/help" ∨ text = "/report" ∨ text = "/cancel".

(** A computation of [RunnerBot] that leaves [self.user_states] alone. *)
Definition keeps_states {A} (m : MX RunnerBot.bot A) : Prop :=
  ∀ w, RunnerBot.user_states (m w).2 = RunnerBot.user_states w.

(** A computation of [RunnerBot] that leaves [self.user_states] alone when
    it raises. *)
Definition raises_clean {A} (m : MX RunnerBot.bot A) : Prop :=
  ∀ w, (m w).1 = None -> RunnerBot.user_states (m w).2 = RunnerBot.user_states w.

(** The row ids of a table that was only ever appended to. *)
Definition dense_ids (rows : list Store.report) : Prop :=
  ∀ (i : nat) r, rows !! i = Some r -> Store.id r = Z.of_nat (S i).

(** ** Sample environments, users and sessions *)

Definition answers_ok : env :=
  Env (λ _, Some (Reply true "{'ok': True}")) true 1700000000 "2024-05-01 10:00:00".

(** The report channel cannot be reached; everything else answers. *)
Definition channel_down : env :=
  Env (λ r, match r with
            | SendMessage (ChatName _) _ _ => None
            | _ => Some (Reply true "{'ok': True}")
            end)
      true 1700000000 "2024-05-01 10:00:00".

(** The table cannot be written. *)
Definition db_down : env :=
  Env (λ _, Some (Reply true "{'ok': True}")) false 1700000000 "2024-05-01 10:00:00".

(** Nothing answers. *)
Definition network_down : env :=
  Env (λ _, None) true 1700000000 "2024-05-01 10:00:00".

(** A user without a handle. *)
Definition ann : tg_user := TgUser (Some 7) None (Some "Ann") (Some "Lee").

(** A user with a handle. *)
Definition bob : tg_user := TgUser (Some 8) (Some "bob_k") (Some "Bob") None.

(** A member of the staff. *)
Definition admin : tg_user := TgUser (Some 1) (Some "staff") (Some "Sam") None.

Definition text_message (chat_id : Z) (user : tg_user) (text : string) : message :=
  Message (Some chat_id) (Some user) (Some text) None None.

Definition photo_message (chat_id : Z) (user : tg_user) (caption : string) : message :=
  Message (Some chat_id) (Some user) None (Some ["small"; "large"]) (Some caption).

Definition selection (chat_id : Z) (user : tg_user) (data : string) : callback_query :=
  CallbackQuery (Some "cb") (Some user) (Some chat_id) (Some data).

(** The session of a user that picks a category next. *)
Definition picking : ApiBot.bot :=
  ApiBot.Bot {[ Some 7 := ApiBot.Session ApiBot.STATE_AWAITING_CATEGORY None None ]} [] [] 0.

(** The session of a user that describes a "Premiums" issue next. *)
Definition describing : ApiBot.bot :=
  ApiBot.Bot {[ Some 7 := ApiBot.Session ApiBot.STATE_AWAITING_DESCRIPTION
                            (Some "Premiums") None ]} [] [] 0.

(** The same after the user sent [/start]: the session keeps that message. *)
Definition describing_known : ApiBot.bot :=
  ApiBot.Bot {[ Some 7 := ApiBot.Session ApiBot.STATE_AWAITING_DESCRIPTION
                            (Some "Premiums") (Some (text_message 7 ann "/start")) ]}
             [] [] 0.

(** A user of the bots built on [python-telegram-bot], and the updates
    they send. *)
Definition ann_ptb : Ptb.user := Ptb.User 7 "Ann" (Some "Lee") None.

Definition ptb_text (update_id chat_id : Z) (user : Ptb.user) (text : string)
  : Ptb.update :=
  Ptb.Update update_id (Some user) (Some chat_id) (Some (Some text)) None.

Definition ptb_selection (update_id chat_id : Z) (user : Ptb.user) (data : string)
  : Ptb.update :=
  Ptb.Update update_id (Some user) (Some chat_id) None (Some (Ptb.Callback "cb" data)).

(** [RunnerBot] while it awaits the description of an "Other" issue. *)
Definition runner_describing : RunnerBot.bot :=
  RunnerBot.Bot {[ 7 := RunnerBot.STATE_DESCRIPTION ]} {[ 7 := Some "Other" ]} [] [] 0.

(** * Properties *)

(** ** The string primitives on sample inputs *)

Example split_maxsplit_keeps_remainder :
  Py.split (Some 2%nat) "  /respond  555   Your refund  was approved  "
  = ["/respond"; "555"; "Your refund  was approved  "].
Proof. vm_compute. reflexivity. Qed.

Example split_two_tokens : Py.split (Some 2%nat) "/respond 555  " = ["/respond"; "555"].
Proof. vm_compute. reflexivity. Qed.

Example split_all : Py.split None " /debug_channel   -100  x " = ["/debug_channel"; "-100"; "x"].
Proof. vm_compute. reflexivity. Qed.

Example strip_both_ends : Py.strip "  Ann Lee  " = "Ann Lee".
Proof. vm_compute. reflexivity. Qed.

Example strip_no_break_space :
  Py.strip (Py.of_bytes [194; 160] +:+ "Ann " +:+ Py.of_bytes [226; 128; 131])%N = "Ann".
Proof. vm_compute. reflexivity. Qed.

Example lower_word : Py.lower "RePort" = "report".
Proof. reflexivity. Qed.

(** ** Symbolic execution of the handlers *)

Arguments Py.lines : simpl never.
Arguments Py.split : simpl never.
Arguments Py.strip : simpl never.
Arguments Py.startswith : simpl never.
Arguments Py.lower : simpl never.
Arguments Py.str_of_int : simpl never.
Arguments String.append : simpl never.

Ltac monad_unfold :=
  unfold exec, mbind, mret, M_bind, M_ret, MX_bind, MX_ret, raise in *.

Ltac api_unfold :=
  unfold ApiBot.send_to_channel, ApiBot.send_message, ApiBot.send_photo_to_channel,
    ApiBot.answer_callback_query, ApiBot.post, ApiBot.get_user_states,
    ApiBot.set_session, ApiBot.set_offset, ApiBot.save_report in *.

Ltac runner_unfold :=
  unfold RunnerBot.send_message, RunnerBot.call, RunnerBot.attr, RunnerBot.get,
    RunnerBot.set_state, RunnerBot.set_user_data, RunnerBot.set_last_update_id,
    RunnerBot.save_report in *.

(** Case analysis on the condition of the first [if] of the goal. *)
Ltac split_if :=
  match goal with
  | |- context [if ?c then _ else _] =>
    let H := fresh "Hif" in destruct c eqn:H; cbn in *
  end.

(** Give the user id of an update a name, so that unfolding the monad of the
    handlers leaves it alone. *)
Ltac name_user_id :=
  match goal with
  | |- context [?x ≫= tg_id] =>
    let u := fresh "user_id" in
    let H := fresh "Huser" in
    remember (x ≫= tg_id) as u eqn:H; clear H
  end.

Lemma reply_ok_guard (response : option reply) :
  ApiBot.reply_ok (if ApiBot.reply_ok response then response else None)
  = ApiBot.reply_ok response.
Proof. destruct response as [[[] ?]|]; reflexivity. Qed.

(** *** What [process_description] does *)

(** The insert succeeds: one row is appended, the report is forwarded, the
    user is told whether forwarding worked, and the session is reset. *)
Lemma process_description_saved (E : env) (chat_id uid : Z) (description : string)
    (w : ApiBot.bot) (s : ApiBot.session) (category : string) :
  ApiBot.user_states w !! Some uid = Some s ->
  ApiBot.category s = Some category ->
  db_ok E = true ->
  let username := ApiBot.resolve_username s (Some uid) in
  let report_id := Z.of_nat (S (length (ApiBot.reports w))) in
  let forward :=
    SendMessage (ChatName ApiBot.CHANNEL_ID)
      (channel_text E category report_id (Some uid) username description) None in
  exec (ApiBot.process_description E chat_id (Some uid) description) w
  = ApiBot.Bot
      (<[Some uid := ApiBot.Session ApiBot.STATE_IDLE None None]> (ApiBot.user_states w))
      (ApiBot.reports w
         ++ [Store.Report report_id uid username category description "Pending" (db_now E)])
      (ApiBot.outbox w
         ++ [forward;
             SendMessage (ChatId chat_id)
               (if ApiBot.reply_ok (http E forward)
                then ApiBot.success_msg report_id else ApiBot.error_msg) None])
      (ApiBot.offset w).
Proof.
  intros Hs Hcat Hdb username report_id forward.
  destruct s as [st c md]; cbn in Hcat; subst c.
  unfold ApiBot.process_description. api_unfold. monad_unfold. cbn.
  rewrite Hs. cbn. rewrite Hdb. cbn.
  replace (Z.of_nat (S (length (ApiBot.reports w))) =? 0) with false
    by (symmetry; apply Z.eqb_neq; lia).
  cbn. fold report_id.
  change (default _ ((md ≫= msg_from) ≫= tg_username)) with username.
  change (Py.str_of_int uid) with (Py.str_of_opt_int (Some uid)).
  change (if bool_decide (category = "Refund") then _ else _)
    with (channel_text E category report_id (Some uid) username description).
  fold forward.
  destruct (http E forward) as [[[] r]|]; cbn; rewrite <- app_assoc; reflexivity.
Qed.

(** The insert raises: no row, one message to the user, the session is
    reset. *)
Lemma process_description_not_saved (E : env) (chat_id : Z) (user_id : option Z)
    (description : string) (w : ApiBot.bot) (s : ApiBot.session) (category : string) :
  ApiBot.user_states w !! user_id = Some s ->
  ApiBot.category s = Some category ->
  db_ok E = false ->
  exec (ApiBot.process_description E chat_id user_id description) w
  = ApiBot.Bot
      (<[user_id := ApiBot.Session ApiBot.STATE_IDLE None None]> (ApiBot.user_states w))
      (ApiBot.reports w)
      (ApiBot.outbox w ++ [SendMessage (ChatId chat_id) ApiBot.save_error_msg None])
      (ApiBot.offset w).
Proof.
  intros Hs Hcat Hdb.
  destruct s as [st c md]; cbn in Hcat; subst c.
  unfold ApiBot.process_description. api_unfold. monad_unfold. cbn.
  rewrite Hs. cbn. rewrite Hdb. destruct user_id; reflexivity.
Qed.

(** No category is drafted: the user is asked to start over. *)
Lemma process_description_lost_track (E : env) (chat_id : Z) (user_id : option Z)
    (description : string) (w : ApiBot.bot) :
  ApiBot.user_states w !! user_id ≫= ApiBot.category = None ->
  exec (ApiBot.process_description E chat_id user_id description) w
  = ApiBot.Bot
      (<[user_id := ApiBot.Session ApiBot.STATE_IDLE None None]> (ApiBot.user_states w))
      (ApiBot.reports w)
      (ApiBot.outbox w ++ [SendMessage (ChatId chat_id) ApiBot.lost_track_msg None])
      (ApiBot.offset w).
Proof.
  intros Hs. unfold ApiBot.process_description. api_unfold. monad_unfold. cbn.
  destruct (ApiBot.user_states w !! user_id) as [[st [c|] md]|]; cbn in *;
    try discriminate; reflexivity.
Qed.

(** *** How [process_command] routes a text message *)

Lemma process_command_text (E : env) (m : message) (w : ApiBot.bot) (chat_id : Z)
    (t : string) :
  msg_chat m = Some chat_id ->
  chat_id ≠ 0 ->
  msg_text m = Some t ->
  t ≠ "" ->
  default [] (msg_photo m) = [] ->
  ApiBot.process_command E m w
  = match ApiBot.classify t with
    | ApiBot.CmdStart => ApiBot.cmd_start E chat_id (msg_from m ≫= tg_id) m w
    | ApiBot.CmdReport => ApiBot.cmd_report E chat_id (msg_from m ≫= tg_id) w
    | ApiBot.CmdRefund => ApiBot.cmd_refund E chat_id (msg_from m ≫= tg_id) w
    | ApiBot.CmdRespond =>
      ApiBot.cmd_respond E chat_id (msg_from m ≫= tg_id) t (Some m) w
    | ApiBot.CmdDebugChannel =>
      ApiBot.cmd_debug_channel E chat_id (msg_from m ≫= tg_id) t w
    | ApiBot.PlainText =>
      if ApiBot.in_state (ApiBot.user_states w) (msg_from m ≫= tg_id)
           ApiBot.STATE_AWAITING_DESCRIPTION
      then ApiBot.process_description E chat_id (msg_from m ≫= tg_id) t w
      else (tt, w)
    end.
Proof.
  intros Hchat Hnz Htext Hne Hphoto. unfold ApiBot.process_command.
  rewrite Hchat, Htext, Hphoto. cbn.
  replace (chat_id =? 0) with false by (symmetry; apply Z.eqb_neq; exact Hnz).
  unfold Py.truthy_str. rewrite (bool_decide_eq_false_2 _ Hne). cbn.
  unfold mbind, M_bind, ApiBot.get_user_states.
  destruct (ApiBot.classify t); try reflexivity.
  destruct (ApiBot.in_state _ _ _); reflexivity.
Qed.

(** ** What the handlers leave alone *)

Lemma quiet_ret {A} (a : A) : quiet (mret a : M ApiBot.bot A).
Proof. intros w. cbn. auto. Qed.

Lemma quiet_bind {A B} (m : M ApiBot.bot A) (f : A -> M ApiBot.bot B) :
  quiet m -> (∀ a, quiet (f a)) -> quiet (m ≫= f).
Proof.
  intros Hm Hf w. unfold mbind, M_bind. specialize (Hm w).
  destruct (m w) as [a w1]. cbn in Hm. specialize (Hf a w1).
  destruct Hm as (H1 & H2 & H3), Hf as (H4 & H5 & H6).
  rewrite H4, H5, H6. auto.
Qed.

Lemma quiet_post (E : env) (r : request) : quiet (ApiBot.post E r).
Proof. intros w. cbn. auto. Qed.

Lemma keeps_offset_ret {A} (a : A) : keeps_offset (mret a : M ApiBot.bot A).
Proof. intros w. reflexivity. Qed.

Lemma keeps_offset_bind {A B} (m : M ApiBot.bot A) (f : A -> M ApiBot.bot B) :
  keeps_offset m -> (∀ a, keeps_offset (f a)) -> keeps_offset (m ≫= f).
Proof.
  intros Hm Hf w. unfold mbind, M_bind. specialize (Hm w).
  destruct (m w) as [a w1]. cbn in Hm. rewrite <- Hm. apply Hf.
Qed.

Lemma quiet_keeps_offset {A} (m : M ApiBot.bot A) : quiet m -> keeps_offset m.
Proof. intros H w. apply H. Qed.

Lemma keeps_offset_get : keeps_offset ApiBot.get_user_states.
Proof. intros w. reflexivity. Qed.

Lemma keeps_offset_set_session u s : keeps_offset (ApiBot.set_session u s).
Proof. intros w. reflexivity. Qed.

Lemma keeps_offset_save_report E u n c d : keeps_offset (ApiBot.save_report E u n c d).
Proof. intros w. unfold ApiBot.save_report. repeat case_match; reflexivity. Qed.

Ltac quiet_step :=
  first
    [ apply quiet_ret
    | apply quiet_post
    | apply quiet_bind; [| intros ?]
    | progress cbv zeta
    | case_match ].

Lemma quiet_send_message E d t k : quiet (ApiBot.send_message E d t k).
Proof. apply quiet_post. Qed.
Lemma quiet_send_photo E d t k : quiet (ApiBot.send_photo_to_channel E d t k).
Proof. apply quiet_post. Qed.

Lemma quiet_cmd_respond E chat_id user_id text update :
  quiet (ApiBot.cmd_respond E chat_id user_id text update).
Proof.
  unfold ApiBot.cmd_respond, ApiBot.send_message, ApiBot.send_photo_to_channel.
  repeat quiet_step.
Qed.

Lemma quiet_cmd_debug_channel E chat_id user_id text :
  quiet (ApiBot.cmd_debug_channel E chat_id user_id text).
Proof.
  unfold ApiBot.cmd_debug_channel, ApiBot.send_message.
  repeat quiet_step.
Qed.

Ltac keeps_step :=
  first
    [ apply keeps_offset_ret
    | apply keeps_offset_get
    | apply keeps_offset_set_session
    | apply keeps_offset_save_report
    | apply quiet_keeps_offset; apply quiet_post
    | apply keeps_offset_bind; [| intros ?]
    | progress cbv zeta
    | case_match ].

Lemma keeps_offset_process_description E chat_id user_id description :
  keeps_offset (ApiBot.process_description E chat_id user_id description).
Proof.
  unfold ApiBot.process_description, ApiBot.send_to_channel, ApiBot.send_message.
  repeat keeps_step.
Qed.

Lemma keeps_offset_process_command E m : keeps_offset (ApiBot.process_command E m).
Proof.
  unfold ApiBot.process_command, ApiBot.cmd_start, ApiBot.cmd_report, ApiBot.cmd_refund,
    ApiBot.send_photo_to_channel, ApiBot.send_message.
  repeat first
    [ apply keeps_offset_process_description
    | apply quiet_keeps_offset; apply quiet_cmd_respond
    | apply quiet_keeps_offset; apply quiet_cmd_debug_channel
    | keeps_step ].
Qed.

Lemma keeps_offset_process_callback_query E q :
  keeps_offset (ApiBot.process_callback_query E q).
Proof.
  unfold ApiBot.process_callback_query, ApiBot.process_category,
    ApiBot.answer_callback_query, ApiBot.send_message.
  repeat keeps_step.
Qed.

Lemma keeps_offset_dispatch E u : keeps_offset (ApiBot.dispatch E u).
Proof.
  unfold ApiBot.dispatch. destruct (body u).
  - apply keeps_offset_process_command.
  - apply keeps_offset_process_callback_query.
  - apply keeps_offset_ret.
Qed.

(** While a category is awaited, a message that is not [/start] is ignored
    or handled by one of four commands. *)
Lemma text_awaiting_category_cases (E : env) (m : message) (w : ApiBot.bot)
    (s : ApiBot.session) :
  ApiBot.user_states w !! (msg_from m ≫= tg_id) = Some s ->
  ApiBot.state s = ApiBot.STATE_AWAITING_CATEGORY ->
  Py.startswith (default "" (msg_text m)) "/start" = false ->
  let user_id := msg_from m ≫= tg_id in
  let chat_id := default 0 (msg_chat m) in
  let t := default "" (msg_text m) in
  ApiBot.process_command E m w =
    if negb (Py.truthy_int (msg_chat m)) || negb (Py.truthy_str t) then (tt, w)
    else match ApiBot.classify t with
         | ApiBot.CmdReport => ApiBot.cmd_report E chat_id user_id w
         | ApiBot.CmdRefund => ApiBot.cmd_refund E chat_id user_id w
         | ApiBot.CmdRespond => ApiBot.cmd_respond E chat_id user_id t (Some m) w
         | ApiBot.CmdDebugChannel => ApiBot.cmd_debug_channel E chat_id user_id t w
         | _ => (tt, w)
         end.
Proof.
  intros Hs Hst Hstart. cbv zeta.
  unfold ApiBot.process_command.
  remember (default "" (msg_text m)) as t eqn:Ht; clear Ht.
  name_user_id.
  destruct (Py.truthy_int (msg_chat m)); cbn; [|reflexivity].
  unfold mbind, M_bind, ApiBot.get_user_states.
  unfold ApiBot.in_state. rewrite Hs, Hst. cbn. rewrite andb_false_r.
  destruct (Py.truthy_str t); cbn; [|reflexivity].
  assert (ApiBot.classify t ≠ ApiBot.CmdStart) as Hc.
  { unfold ApiBot.classify. rewrite Hstart. repeat case_match; discriminate. }
  destruct (ApiBot.classify t); try reflexivity. congruence.
Qed.

(** ** What the commands that open a flow do *)

Lemma cmd_report_effect (E : env) (chat_id : Z) (user_id : option Z) (w : ApiBot.bot) :
  ApiBot.cmd_report E chat_id user_id w
  = (tt,
     ApiBot.Bot
       (<[user_id := ApiBot.Session ApiBot.STATE_AWAITING_CATEGORY None
                       (ApiBot.kept_message_data (ApiBot.user_states w) user_id)]>
          (ApiBot.user_states w))
       (ApiBot.reports w)
       (ApiBot.outbox w
          ++ [SendMessage (ChatId chat_id) ApiBot.category_prompt
                (Some (InlineKeyboard
                         ((λ category, [(category, category)]) <$> ApiBot.CATEGORIES)))])
       (ApiBot.offset w)).
Proof. reflexivity. Qed.

Lemma cmd_refund_effect (E : env) (chat_id : Z) (user_id : option Z) (w : ApiBot.bot) :
  ApiBot.cmd_refund E chat_id user_id w
  = (tt,
     ApiBot.Bot
       (<[user_id := ApiBot.Session ApiBot.STATE_AWAITING_DESCRIPTION (Some "Refund")
                       (ApiBot.kept_message_data (ApiBot.user_states w) user_id)]>
          (ApiBot.user_states w))
       (ApiBot.reports w)
       (ApiBot.outbox w ++ [SendMessage (ChatId chat_id) ApiBot.refund_form None])
       (ApiBot.offset w)).
Proof. reflexivity. Qed.

(** ** Category selection *)

(** C6.  A button selection whose value is not one of [CATEGORIES], made by
    a user whose session awaits a category, changes no session (state and
    draft of that user stay as they were, the state still
    [STATE_AWAITING_CATEGORY]) and creates no report. *)
Theorem unknown_selection_ignored (E : env) (q : callback_query) (w : ApiBot.bot)
    (s : ApiBot.session) (d : string) :
  ApiBot.user_states w !! (cq_from q ≫= tg_id) = Some s ->
  ApiBot.state s = ApiBot.STATE_AWAITING_CATEGORY ->
  cq_data q = Some d ->
  d ∉ ApiBot.CATEGORIES ->
  ApiBot.user_states (exec (ApiBot.process_callback_query E q) w) = ApiBot.user_states w
  ∧ ApiBot.user_states (exec (ApiBot.process_callback_query E q) w) !! (cq_from q ≫= tg_id)
    = Some s
  ∧ ApiBot.reports (exec (ApiBot.process_callback_query E q) w) = ApiBot.reports w.
Proof.
  intros Hs Hst Hd Hnot. unfold ApiBot.process_callback_query, ApiBot.in_state.
  name_user_id. rewrite Hd. monad_unfold. api_unfold. cbn.
  destruct (Py.truthy_int (cq_chat q)), (Py.truthy_str d), (Py.truthy_int user_id);
    cbn; auto.
  rewrite Hs, Hst, (bool_decide_eq_false_2 _ Hnot). cbn. auto.
Qed.

Lemma unknown_selection_ignored_witness :
  ApiBot.user_states
    (exec (ApiBot.process_callback_query answers_ok (selection 7 ann "Shipping")) picking)
  = ApiBot.user_states picking
  ∧ ApiBot.user_states
      (exec (ApiBot.process_callback_query answers_ok (selection 7 ann "Shipping")) picking)
      !! Some 7
    = Some (ApiBot.Session ApiBot.STATE_AWAITING_CATEGORY None None)
  ∧ ApiBot.reports
      (exec (ApiBot.process_callback_query answers_ok (selection 7 ann "Shipping")) picking)
    = [].
Proof.
  apply (unknown_selection_ignored answers_ok (selection 7 ann "Shipping") picking
           (ApiBot.Session ApiBot.STATE_AWAITING_CATEGORY None None) "Shipping").
  - reflexivity.
  - reflexivity.
  - reflexivity.
  - compute_done.
Defined.

(** ** A description sent while a category is awaited *)

(** C8.  While the session of a user awaits a category, a message of that
    user whose text does not start with [/start] (every plain text, and
    every command but the one that resets the session) creates no report and
    leaves the session out of [STATE_IDLE]; a text that is no command at
    all changes nothing. *)
Theorem text_while_awaiting_category (E : env) (m : message) (w : ApiBot.bot)
    (s : ApiBot.session) :
  ApiBot.user_states w !! (msg_from m ≫= tg_id) = Some s ->
  ApiBot.state s = ApiBot.STATE_AWAITING_CATEGORY ->
  Py.startswith (default "" (msg_text m)) "/start" = false ->
  ApiBot.reports (exec (ApiBot.process_command E m) w) = ApiBot.reports w
  ∧ ApiBot.in_state (ApiBot.user_states (exec (ApiBot.process_command E m) w))
      (msg_from m ≫= tg_id) ApiBot.STATE_IDLE = false
  ∧ (ApiBot.classify (default "" (msg_text m)) = ApiBot.PlainText ->
     exec (ApiBot.process_command E m) w = w).
Proof.
  intros Hs Hst Hstart.
  assert (Hidle : ApiBot.in_state (ApiBot.user_states w) (msg_from m ≫= tg_id)
                    ApiBot.STATE_IDLE = false).
  { unfold ApiBot.in_state. rewrite Hs, Hst. reflexivity. }
  unfold exec. rewrite (text_awaiting_category_cases E m w s Hs Hst Hstart).
  destruct (negb (Py.truthy_int (msg_chat m))
            || negb (Py.truthy_str (default "" (msg_text m)))); [cbn; auto|].
  destruct (ApiBot.classify (default "" (msg_text m))); cbn; auto.
  - rewrite cmd_report_effect. unfold ApiBot.in_state. cbn. rewrite lookup_insert_eq.
    repeat split; try reflexivity. discriminate.
  - rewrite cmd_refund_effect. unfold ApiBot.in_state. cbn. rewrite lookup_insert_eq.
    repeat split; try reflexivity. discriminate.
  - destruct (quiet_cmd_respond E (default 0 (msg_chat m)) (msg_from m ≫= tg_id)
                (default "" (msg_text m)) (Some m) w) as (Hu & Hr & _).
    rewrite Hu, Hr. repeat split; try reflexivity; [exact Hidle | discriminate].
  - destruct (quiet_cmd_debug_channel E (default 0 (msg_chat m)) (msg_from m ≫= tg_id)
                (default "" (msg_text m)) w) as (Hu & Hr & _).
    rewrite Hu, Hr. repeat split; try reflexivity; [exact Hidle | discriminate].
Qed.

Lemma text_while_awaiting_category_witness :
  ApiBot.reports
    (exec (ApiBot.process_command answers_ok (text_message 7 ann "my parcel is late"))
          picking) = []
  ∧ ApiBot.in_state
      (ApiBot.user_states
         (exec (ApiBot.process_command answers_ok (text_message 7 ann "my parcel is late"))
               picking))
      (Some 7) ApiBot.STATE_IDLE = false
  ∧ (ApiBot.classify "my parcel is late" = ApiBot.PlainText ->
     exec (ApiBot.process_command answers_ok (text_message 7 ann "my parcel is late"))
          picking = picking).
Proof.
  apply (text_while_awaiting_category answers_ok (text_message 7 ann "my parcel is late")
           picking (ApiBot.Session ApiBot.STATE_AWAITING_CATEGORY None None)).
  - reflexivity.
  - reflexivity.
  - reflexivity.
Defined.

(** ** The admin response *)

(** C5.  An admin command (the text, or the caption when the message carries
    a photo) that splits into fewer than three parts is malformed: the only
    thing the handler does is to reply to the admin with the usage line.
    Nothing is sent to a user named in the command or to the audit channel,
    and no state changes. *)
Theorem malformed_respond_only_replies (E : env) (chat_id : Z) (user_id : option Z)
    (text : string) (update : option message) (w : ApiBot.bot) :
  (length (Py.split (Some 2%nat) (respond_input text update)) < 3)%nat ->
  ∃ usage,
    (usage = ApiBot.respond_usage ∨ usage = ApiBot.respond_photo_usage)
    ∧ ApiBot.cmd_respond E chat_id user_id text update w
      = (tt,
         ApiBot.Bot (ApiBot.user_states w) (ApiBot.reports w)
           (ApiBot.outbox w ++ [SendMessage (ChatId chat_id) usage None])
           (ApiBot.offset w))
    ∧ ∀ name, sent_to (ChatName name)
                (ApiBot.outbox (exec (ApiBot.cmd_respond E chat_id user_id text update) w))
              = sent_to (ChatName name) (ApiBot.outbox w).
Proof.
  intros Hlen.
  assert (Hfilter : ∀ usage name,
            sent_to (ChatName name)
              (ApiBot.outbox w ++ [SendMessage (ChatId chat_id) usage None])
            = sent_to (ChatName name) (ApiBot.outbox w)).
  { intros usage name. unfold sent_to. rewrite filter_app.
    rewrite (filter_cons_False _ _ []) by (cbn; congruence).
    rewrite filter_nil. apply app_nil_r. }
  unfold exec, ApiBot.cmd_respond, respond_input in *.
  destruct update as [m|]; cbn in *.
  - destruct (msg_photo m) as [sizes|]; cbn in *.
    + exists ApiBot.respond_photo_usage. split; [auto|].
      destruct (negb (Py.truthy_str (default "" (msg_caption m)))
                || negb (Py.startswith (default "" (msg_caption m)) "/respond")).
      { split; [reflexivity|]. intros name. apply Hfilter. }
      destruct (Py.split (Some 2%nat) (default "" (msg_caption m))) as [|a [|b [|c rest]]];
        cbn in Hlen; try lia; (split; [reflexivity|]; intros name; apply Hfilter).
    + exists ApiBot.respond_usage. split; [auto|].
      destruct (Py.split (Some 2%nat) text) as [|a [|b [|c rest]]];
        cbn in Hlen; try lia; (split; [reflexivity|]; intros name; apply Hfilter).
  - exists ApiBot.respond_usage. split; [auto|].
    destruct (Py.split (Some 2%nat) text) as [|a [|b [|c rest]]];
      cbn in Hlen; try lia; (split; [reflexivity|]; intros name; apply Hfilter).
Qed.

Lemma malformed_respond_only_replies_witness :
  ∃ usage,
    (usage = ApiBot.respond_usage ∨ usage = ApiBot.respond_photo_usage)
    ∧ ApiBot.cmd_respond answers_ok 1 (Some 1) "/respond 555"
        (Some (text_message 1 admin "/respond 555")) ApiBot.init
      = (tt,
         ApiBot.Bot (ApiBot.user_states ApiBot.init) (ApiBot.reports ApiBot.init)
           (ApiBot.outbox ApiBot.init ++ [SendMessage (ChatId 1) usage None])
           (ApiBot.offset ApiBot.init))
    ∧ ∀ name, sent_to (ChatName name)
                (ApiBot.outbox
                   (exec (ApiBot.cmd_respond answers_ok 1 (Some 1) "/respond 555"
                            (Some (text_message 1 admin "/respond 555"))) ApiBot.init))
              = sent_to (ChatName name) (ApiBot.outbox ApiBot.init).
Proof.
  apply (malformed_respond_only_replies answers_ok 1 (Some 1) "/respond 555"
           (Some (text_message 1 admin "/respond 555")) ApiBot.init).
  vm_compute. lia.
Defined.





(** ** Completion *)

Lemma insert_newer_first_Permutation (r : Store.report) (sorted : list Store.report) :
  Store.insert_newer_first r sorted ≡ₚ r :: sorted.
Proof.
  induction sorted as [|x rest IH]; cbn; [reflexivity|].
  destruct (decide (Store.newer_first r x)); [reflexivity|].
  rewrite IH. apply Permutation_swap.
Qed.

Lemma list_reports_Permutation (rows : list Store.report) :
  Store.list_reports rows ≡ₚ rows.
Proof.
  induction rows as [|r rows IH]; cbn; [reflexivity|].
  rewrite insert_newer_first_Permutation. fold (Store.list_reports rows).
  rewrite IH. reflexivity.
Qed.

(** Newest first; rows of equal timestamp in the order of the table. *)
Example list_reports_order :
  Store.id <$> Store.list_reports
                 [Store.Report 1 7 "user_7" "Premiums" "first" "Pending" 5;
                  Store.Report 2 7 "user_7" "Premiums" "second" "Pending" 7;
                  Store.Report 3 7 "user_7" "Refund" "third" "Pending" 5;
                  Store.Report 4 8 "bob_k" "Premiums" "fourth" "Pending" 5]
  = [2; 1; 3; 4].
Proof. vm_compute. reflexivity. Qed.






(** ** The report flow *)

Lemma quiet_process_category E chat_id user_id category :
  quiet (ApiBot.process_category E chat_id user_id category).
Proof.
  unfold ApiBot.process_category, ApiBot.send_message. repeat quiet_step.
Qed.

Lemma classify_empty : ApiBot.classify "" = ApiBot.PlainText.
Proof. reflexivity. Qed.

Lemma category_truthy (c : string) : c ∈ ApiBot.CATEGORIES -> Py.truthy_str c = true.
Proof.
  unfold ApiBot.CATEGORIES. rewrite !elem_of_cons, elem_of_nil.
  intros [-> | [-> | []]]; reflexivity.
Qed.

Lemma truthy_int_nonzero (n : Z) : n ≠ 0 -> Py.truthy_int (Some n) = true.
Proof. intros H. cbn. apply negb_true_iff, Z.eqb_neq, H. Qed.

Lemma selection_run (E : env) (q : callback_query) (w : ApiBot.bot)
    (chat_id uid : Z) (c : string) (s : ApiBot.session) :
  cq_chat q = Some chat_id -> chat_id ≠ 0 ->
  cq_from q ≫= tg_id = Some uid -> uid ≠ 0 ->
  cq_data q = Some c -> c ∈ ApiBot.CATEGORIES ->
  ApiBot.user_states w !! Some uid = Some s ->
  ApiBot.state s = ApiBot.STATE_AWAITING_CATEGORY ->
  ApiBot.process_callback_query E q w
  = ApiBot.process_category E chat_id (Some uid) c
      (ApiBot.Bot
         (<[Some uid := ApiBot.Session ApiBot.STATE_AWAITING_DESCRIPTION (Some c)
                          (ApiBot.kept_message_data (ApiBot.user_states w) (Some uid))]>
            (ApiBot.user_states w))
         (ApiBot.reports w)
         (ApiBot.outbox w ++ [AnswerCallbackQuery (cq_id q)])
         (ApiBot.offset w)).
Proof.
  intros Hchat Hcnz Hfrom Hunz Hdata Hin Hs Hst.
  unfold ApiBot.process_callback_query.
  rewrite Hchat, Hfrom, Hdata.
  rewrite (truthy_int_nonzero _ Hcnz), (truthy_int_nonzero _ Hunz).
  cbn [default from_option id]. rewrite (category_truthy _ Hin). cbn [negb orb].
  unfold mbind, M_bind, ApiBot.answer_callback_query, ApiBot.post,
    ApiBot.get_user_states, ApiBot.set_session.
  cbn [ApiBot.user_states ApiBot.reports ApiBot.outbox ApiBot.offset].
  unfold ApiBot.in_state. rewrite Hs, Hst.
  rewrite bool_decide_eq_true_2 by reflexivity.
  rewrite (bool_decide_eq_true_2 _ Hin). reflexivity.
Qed.

Lemma selection_effect (E : env) (q : callback_query) (w : ApiBot.bot)
    (chat_id uid : Z) (c : string) (s : ApiBot.session) :
  cq_chat q = Some chat_id -> chat_id ≠ 0 ->
  cq_from q ≫= tg_id = Some uid -> uid ≠ 0 ->
  cq_data q = Some c -> c ∈ ApiBot.CATEGORIES ->
  ApiBot.user_states w !! Some uid = Some s ->
  ApiBot.state s = ApiBot.STATE_AWAITING_CATEGORY ->
  ApiBot.user_states (exec (ApiBot.process_callback_query E q) w)
  = <[Some uid := ApiBot.Session ApiBot.STATE_AWAITING_DESCRIPTION (Some c)
                    (ApiBot.kept_message_data (ApiBot.user_states w) (Some uid))]>
      (ApiBot.user_states w)
  ∧ ApiBot.reports (exec (ApiBot.process_callback_query E q) w) = ApiBot.reports w.
Proof.
  intros Hchat Hcnz Hfrom Hunz Hdata Hin Hs Hst. unfold exec.
  rewrite (selection_run E q w chat_id uid c s) by assumption.
  match goal with |- context [ApiBot.process_category E chat_id (Some uid) c ?w1] =>
    destruct (quiet_process_category E chat_id (Some uid) c w1) as (H1 & H2 & _) end.
  rewrite H1, H2. auto.
Qed.

Lemma classify_nonempty (t : string) : ApiBot.classify t ≠ ApiBot.PlainText -> t ≠ "".
Proof. intros H ->. apply H. reflexivity. Qed.

(** C1, as stated, fails when the insert raises: the three events are
    processed, the session is back in [STATE_IDLE], and no report exists. *)
Lemma report_flow_without_report :
  fresh (ApiBot.user_states ApiBot.init) (Some 7)
  ∧ ApiBot.classify "/report" = ApiBot.CmdReport
  ∧ "Premiums" ∈ ApiBot.CATEGORIES
  ∧ ApiBot.classify "account locked" = ApiBot.PlainText
  ∧ ApiBot.reports
      (run_events [(answers_ok, Update 1 (UMessage (text_message 7 ann "/report")));
                   (answers_ok, Update 2 (UCallbackQuery (selection 7 ann "Premiums")));
                   (db_down, Update 3 (UMessage (text_message 7 ann "account locked")))]
                  ApiBot.init)
    = []
  ∧ ApiBot.user_states
      (run_events [(answers_ok, Update 1 (UMessage (text_message 7 ann "/report")));
                   (answers_ok, Update 2 (UCallbackQuery (selection 7 ann "Premiums")));
                   (db_down, Update 3 (UMessage (text_message 7 ann "account locked")))]
                  ApiBot.init) !! Some 7
    = Some (ApiBot.Session ApiBot.STATE_IDLE None None).
Proof. repeat split; try reflexivity; compute_done. Qed.

(** C1, amended.  For a user and a chat whose identities are not zero, from
    a fresh session (in fact from any session), the start-report command,
    then the selection of a configured category, then a description (a text
    that is not empty and is none of the commands) leave the session in
    [STATE_IDLE] without a draft, whether the insert of the completion
    succeeds or not.  When it succeeds exactly one report is created: its
    category is the selected one, its description the text sent, its status
    the default.  When it fails no report is created.  What the network
    answers does not matter. *)
Theorem report_flow_creates_one_report (E1 E2 E3 : env) (i1 i2 i3 chat_id uid : Z)
    (user : tg_user) (q : callback_query) (t c d : string) (w : ApiBot.bot) :
  fresh (ApiBot.user_states w) (Some uid) ->
  chat_id ≠ 0 -> uid ≠ 0 -> tg_id user = Some uid ->
  ApiBot.classify t = ApiBot.CmdReport ->
  cq_chat q = Some chat_id -> cq_from q = Some user -> cq_data q = Some c ->
  c ∈ ApiBot.CATEGORIES ->
  d ≠ "" -> ApiBot.classify d = ApiBot.PlainText ->
  ApiBot.user_states
    (run_events [(E1, Update i1 (UMessage (text_message chat_id user t)));
                 (E2, Update i2 (UCallbackQuery q));
                 (E3, Update i3 (UMessage (text_message chat_id user d)))] w)
    !! Some uid
  = Some (ApiBot.Session ApiBot.STATE_IDLE None None)
  ∧ if db_ok E3
    then ∃ r,
        ApiBot.reports
          (run_events [(E1, Update i1 (UMessage (text_message chat_id user t)));
                       (E2, Update i2 (UCallbackQuery q));
                       (E3, Update i3 (UMessage (text_message chat_id user d)))] w)
        = ApiBot.reports w ++ [r]
        ∧ Store.user_id r = uid
        ∧ Store.category r = c
        ∧ Store.description r = d
        ∧ Store.status r = "Pending"
    else
      ApiBot.reports
        (run_events [(E1, Update i1 (UMessage (text_message chat_id user t)));
                     (E2, Update i2 (UCallbackQuery q));
                     (E3, Update i3 (UMessage (text_message chat_id user d)))] w)
      = ApiBot.reports w.
Proof.
  intros Hfresh Hcnz Hunz Hid Ht Hqchat Hqfrom Hqdata Hin Hd Hplain.
  assert (Hfrom : ∀ x, msg_from (text_message chat_id user x) ≫= tg_id = Some uid).
  { intros x. cbn. exact Hid. }
  cbn [run_events ApiBot.dispatch body].
  set (w1 := exec (ApiBot.process_command E1 (text_message chat_id user t)) w).
  assert (Hw1 : ApiBot.user_states w1
                = <[Some uid := ApiBot.Session ApiBot.STATE_AWAITING_CATEGORY None
                      (ApiBot.kept_message_data (ApiBot.user_states w) (Some uid))]>
                    (ApiBot.user_states w)
                ∧ ApiBot.reports w1 = ApiBot.reports w).
  { subst w1. unfold exec.
    rewrite (process_command_text E1 _ w chat_id t) by
      (try reflexivity; try assumption; apply classify_nonempty; congruence).
    rewrite Ht, Hfrom, cmd_report_effect. cbn. auto. }
  destruct Hw1 as [Hu1 Hr1].
  set (w2 := exec (ApiBot.process_callback_query E2 q) w1).
  destruct (selection_effect E2 q w1 chat_id uid c
              (ApiBot.Session ApiBot.STATE_AWAITING_CATEGORY None
                 (ApiBot.kept_message_data (ApiBot.user_states w) (Some uid))))
    as [Hu2 Hr2]; try assumption; try reflexivity.
  { rewrite Hqfrom. exact Hid. }
  { rewrite Hu1. apply lookup_insert_eq. }
  fold w2 in Hu2, Hr2.
  set (w3 := exec (ApiBot.process_command E3 (text_message chat_id user d)) w2).
  assert (Hw3 : w3 = exec (ApiBot.process_description E3 chat_id (Some uid) d) w2).
  { subst w3. unfold exec.
    rewrite (process_command_text E3 _ w2 chat_id d) by (try reflexivity; assumption).
    rewrite Hplain, Hfrom. unfold ApiBot.in_state. rewrite Hu2, lookup_insert_eq.
    cbn [ApiBot.state]. rewrite bool_decide_eq_true_2 by reflexivity. reflexivity. }
  rewrite Hw3. destruct (db_ok E3) eqn:Hdb.
  - erewrite process_description_saved;
      [| rewrite Hu2; apply lookup_insert_eq | reflexivity | exact Hdb].
    cbn. rewrite Hr2, Hr1. split; [apply lookup_insert_eq|].
    eexists. split; [reflexivity|]. cbn. auto.
  - erewrite process_description_not_saved;
      [| rewrite Hu2; apply lookup_insert_eq | reflexivity | exact Hdb].
    cbn. rewrite Hr2, Hr1. split; [apply lookup_insert_eq | reflexivity].
Qed.

Lemma report_flow_creates_one_report_witness :
  ApiBot.user_states
    (run_events [(answers_ok, Update 1 (UMessage (text_message 7 ann "/report")));
                 (network_down, Update 2 (UCallbackQuery (selection 7 ann "Premiums")));
                 (channel_down, Update 3 (UMessage (text_message 7 ann "account locked")))]
                ApiBot.init)
    !! Some 7
  = Some (ApiBot.Session ApiBot.STATE_IDLE None None)
  ∧ if db_ok channel_down
    then ∃ r,
        ApiBot.reports
          (run_events [(answers_ok, Update 1 (UMessage (text_message 7 ann "/report")));
                       (network_down, Update 2 (UCallbackQuery (selection 7 ann "Premiums")));
                       (channel_down,
                        Update 3 (UMessage (text_message 7 ann "account locked")))]
                      ApiBot.init)
        = ApiBot.reports ApiBot.init ++ [r]
        ∧ Store.user_id r = 7
        ∧ Store.category r = "Premiums"
        ∧ Store.description r = "account locked"
        ∧ Store.status r = "Pending"
    else
      ApiBot.reports
        (run_events [(answers_ok, Update 1 (UMessage (text_message 7 ann "/report")));
                     (network_down, Update 2 (UCallbackQuery (selection 7 ann "Premiums")));
                     (channel_down,
                      Update 3 (UMessage (text_message 7 ann "account locked")))]
                    ApiBot.init)
      = ApiBot.reports ApiBot.init.
Proof.
  apply (report_flow_creates_one_report answers_ok network_down channel_down 1 2 3 7 7
           ann (selection 7 ann "Premiums") "/report" "Premiums" "account locked"
           ApiBot.init).
  - exact I.
  - lia.
  - lia.
  - reflexivity.
  - reflexivity.
  - reflexivity.
  - reflexivity.
  - reflexivity.
  - compute_done.
  - discriminate.
  - reflexivity.
Defined.

(** ** The refund command *)

(** C10.  Whatever the session of the user was, the refund command moves it
    to [STATE_AWAITING_DESCRIPTION] with the category ["Refund"] drafted, and
    creates no report; no category is selected.  ["Refund"] is not one of
    [CATEGORIES], so the report that the next description completes is
    saved with a category outside the configured list. *)
Theorem refund_bypasses_categories (E1 E2 : env) (chat_id uid : Z) (user : tg_user)
    (t d : string) (w : ApiBot.bot) :
  chat_id ≠ 0 -> tg_id user = Some uid ->
  ApiBot.classify t = ApiBot.CmdRefund ->
  ApiBot.user_states (exec (ApiBot.process_command E1 (text_message chat_id user t)) w)
    !! Some uid
  = Some (ApiBot.Session ApiBot.STATE_AWAITING_DESCRIPTION (Some "Refund")
            (ApiBot.kept_message_data (ApiBot.user_states w) (Some uid)))
  ∧ ApiBot.reports (exec (ApiBot.process_command E1 (text_message chat_id user t)) w)
    = ApiBot.reports w
  ∧ ("Refund" ∉ ApiBot.CATEGORIES)
  ∧ (d ≠ "" -> ApiBot.classify d = ApiBot.PlainText -> db_ok E2 = true ->
     ∃ r,
       ApiBot.reports
         (exec (ApiBot.process_command E2 (text_message chat_id user d))
               (exec (ApiBot.process_command E1 (text_message chat_id user t)) w))
       = ApiBot.reports w ++ [r]
       ∧ Store.category r = "Refund"
       ∧ (Store.category r ∉ ApiBot.CATEGORIES)
       ∧ Store.description r = d).
Proof.
  intros Hcnz Hid Ht.
  assert (Hfrom : ∀ x, msg_from (text_message chat_id user x) ≫= tg_id = Some uid).
  { intros x. cbn. exact Hid. }
  assert (Hnot : "Refund" ∉ ApiBot.CATEGORIES) by compute_done.
  set (w1 := exec (ApiBot.process_command E1 (text_message chat_id user t)) w).
  assert (Hw1 : w1 = ApiBot.Bot
            (<[Some uid := ApiBot.Session ApiBot.STATE_AWAITING_DESCRIPTION (Some "Refund")
                             (ApiBot.kept_message_data (ApiBot.user_states w) (Some uid))]>
               (ApiBot.user_states w))
            (ApiBot.reports w)
            (ApiBot.outbox w ++ [SendMessage (ChatId chat_id) ApiBot.refund_form None])
            (ApiBot.offset w)).
  { subst w1. unfold exec.
    rewrite (process_command_text E1 _ w chat_id t) by
      (try reflexivity; try assumption; apply classify_nonempty; congruence).
    rewrite Ht, Hfrom, cmd_refund_effect. reflexivity. }
  split; [rewrite Hw1; apply lookup_insert_eq|].
  split; [rewrite Hw1; reflexivity|].
  split; [exact Hnot|].
  intros Hd Hplain Hdb. unfold exec at 1.
  rewrite (process_command_text E2 _ w1 chat_id d) by (try reflexivity; assumption).
  rewrite Hplain, Hfrom. unfold ApiBot.in_state.
  assert (Hs1 : ApiBot.user_states w1 !! Some uid
                = Some (ApiBot.Session ApiBot.STATE_AWAITING_DESCRIPTION (Some "Refund")
                          (ApiBot.kept_message_data (ApiBot.user_states w) (Some uid)))).
  { rewrite Hw1. apply lookup_insert_eq. }
  rewrite Hs1. cbn [ApiBot.state]. rewrite bool_decide_eq_true_2 by reflexivity.
  fold (exec (ApiBot.process_description E2 chat_id (Some uid) d) w1).
  erewrite process_description_saved; [| exact Hs1 | reflexivity | exact Hdb].
  cbn. rewrite Hw1. cbn. eexists. split; [reflexivity|]. cbn. auto.
Qed.

Lemma refund_bypasses_categories_witness :
  ApiBot.user_states
    (exec (ApiBot.process_command answers_ok (text_message 7 ann "Refund")) picking)
    !! Some 7
  = Some (ApiBot.Session ApiBot.STATE_AWAITING_DESCRIPTION (Some "Refund") None)
  ∧ ∃ r,
      ApiBot.reports
        (exec (ApiBot.process_command answers_ok (text_message 7 ann "gcash 0917"))
              (exec (ApiBot.process_command answers_ok (text_message 7 ann "Refund"))
                    picking))
      = [r]
      ∧ Store.category r = "Refund"
      ∧ Store.description r = "gcash 0917".
Proof.
  destruct (refund_bypasses_categories answers_ok answers_ok 7 7 ann "Refund"
              "gcash 0917" picking) as (Hstate & _ & _ & Hnext).
  - lia.
  - reflexivity.
  - reflexivity.
  - split; [exact Hstate|].
    destruct Hnext as (r & Hr & Hc & _ & Hd); [discriminate | reflexivity | reflexivity |].
    exists r. auto.
Defined.

(** ** The name a report is saved under *)

(** The persisted name of [RunnerBot.process_description]. *)
Lemma runner_process_description_saved (E : env) (update : Ptb.update) (user : Ptb.user)
    (text : option string) (category : string) (w : RunnerBot.bot) :
  Ptb.effective_user update = Some user ->
  Ptb.message update = Some text ->
  RunnerBot.user_data w !! Ptb.id user = Some (Some category) ->
  db_ok E = true ->
  RunnerBot.reports (RunnerBot.process_description E update w).2
  = RunnerBot.reports w
      ++ [Store.Report (Z.of_nat (S (length (RunnerBot.reports w)))) (Ptb.id user)
            (ptb_resolve_username user) category (default "" text) "Pending" (db_now E)].
Proof.
  intros Hu Hm Hd Hdb. unfold RunnerBot.process_description.
  rewrite Hu, Hm. runner_unfold. monad_unfold. cbn. rewrite Hd. cbn. rewrite Hdb. cbn.
  destruct (Ptb.effective_chat update); cbn; [|reflexivity].
  destruct (present (http E _)); reflexivity.
Qed.

(** The persisted name of [Standalone.report_description]. *)
Lemma standalone_report_description_saved (E : env) (update : Ptb.update)
    (user : Ptb.user) (text : option string) (category : string) (w : Standalone.bot) :
  Ptb.effective_user update = Some user ->
  Ptb.message update = Some text ->
  Standalone.user_data w = Some category ->
  db_ok E = true ->
  Standalone.reports (Standalone.report_description E update w).2
  = Standalone.reports w
      ++ [Store.Report (Z.of_nat (S (length (Standalone.reports w)))) (Ptb.id user)
            (ptb_resolve_username user) category (default "" text) "Pending" (db_now E)].
Proof.
  intros Hu Hm Hd Hdb. unfold Standalone.report_description, Standalone.save_report,
    Standalone.reply_text.
  rewrite Hu, Hm, Hd. monad_unfold. cbn. rewrite Hdb. cbn.
  destruct (Ptb.effective_chat update); cbn; [|reflexivity].
  destruct (present (http E _)); reflexivity.
Qed.

(** C7, as stated, fails on [ApiBot]: a user without handle whose names are
    known is saved as [user_7], not as ["Ann Lee"]; and the handle of a user
    who never sent [/start] is not looked at, since the name is read from
    the message [/start] left in the session. *)
Lemma persisted_name_differs_from_spec :
  (Store.username <$>
     ApiBot.reports
       (exec (ApiBot.process_description answers_ok 7 (Some 7) "account locked")
             describing_known)
   = ["user_7"]
   ∧ spec_display_name None (Some "Ann") (Some "Lee") 7 = "Ann Lee")
  ∧ (Store.username <$>
       ApiBot.reports
         (exec (ApiBot.process_command answers_ok (text_message 7 bob "account locked"))
               (ApiBot.Bot
                  {[ Some 8 := ApiBot.Session ApiBot.STATE_AWAITING_DESCRIPTION
                                 (Some "Premiums") None ]} [] [] 0))
     = ["user_8"]
     ∧ spec_display_name (Some "bob_k") (Some "Bob") None 8 = "bob_k").
Proof. vm_compute. auto. Qed.

(** C7, amended.  [ApiBot] saves a completed report under the handle of the
    [/start] message kept in the session when that message has one, and
    under [user_<identity>] otherwise; first and last name are not used.
    [Standalone] and [RunnerBot] save it under the handle of the sender when
    it is not empty, and under the trimmed "first name, space, last name"
    otherwise; they have no synthetic name. *)
Theorem persisted_display_name (E : env) (chat_id uid : Z) (description : string)
    (w : ApiBot.bot) (s : ApiBot.session) (category : string)
    (E' : env) (update : Ptb.update) (user : Ptb.user) (text : option string)
    (category' : string) (w' : Standalone.bot)
    (category'' : string) (w'' : RunnerBot.bot) :
  ApiBot.user_states w !! Some uid = Some s ->
  ApiBot.category s = Some category ->
  db_ok E = true ->
  Ptb.effective_user update = Some user ->
  Ptb.message update = Some text ->
  Standalone.user_data w' = Some category' ->
  RunnerBot.user_data w'' !! Ptb.id user = Some (Some category'') ->
  db_ok E' = true ->
  (∃ r,
     ApiBot.reports (exec (ApiBot.process_description E chat_id (Some uid) description) w)
     = ApiBot.reports w ++ [r]
     ∧ Store.username r
       = match (ApiBot.message_data s ≫= msg_from) ≫= tg_username with
         | Some handle => handle
         | None => "user_" +:+ Py.str_of_int uid
         end)
  ∧ (∃ r,
       Standalone.reports (Standalone.report_description E' update w').2
       = Standalone.reports w' ++ [r]
       ∧ Store.username r
         = match Ptb.username user with
           | Some handle =>
             if bool_decide (handle = "")
             then Py.strip (Ptb.first_name user +:+ " " +:+ default "" (Ptb.last_name user))
             else handle
           | None =>
             Py.strip (Ptb.first_name user +:+ " " +:+ default "" (Ptb.last_name user))
           end)
  ∧ (∃ r,
       RunnerBot.reports (RunnerBot.process_description E' update w'').2
       = RunnerBot.reports w'' ++ [r]
       ∧ Store.username r
         = match Ptb.username user with
           | Some handle =>
             if bool_decide (handle = "")
             then Py.strip (Ptb.first_name user +:+ " " +:+ default "" (Ptb.last_name user))
             else handle
           | None =>
             Py.strip (Ptb.first_name user +:+ " " +:+ default "" (Ptb.last_name user))
           end).
Proof.
  intros Hs Hcat Hdb Hu Hm Hd Hd'' Hdb'.
  assert (Hname : ptb_resolve_username user
                  = match Ptb.username user with
                    | Some handle =>
                      if bool_decide (handle = "")
                      then Py.strip (Ptb.first_name user +:+ " "
                                       +:+ default "" (Ptb.last_name user))
                      else handle
                    | None =>
                      Py.strip (Ptb.first_name user +:+ " "
                                  +:+ default "" (Ptb.last_name user))
                    end).
  { unfold ptb_resolve_username, Py.truthy_str.
    destruct (Ptb.username user) as [h|]; cbn; [|reflexivity].
    destruct (bool_decide (h = "")); reflexivity. }
  split; [|split].
  - rewrite (process_description_saved E chat_id uid description w s category Hs Hcat Hdb).
    eexists. split; [reflexivity|]. cbn. unfold ApiBot.resolve_username.
    destruct ((ApiBot.message_data s ≫= msg_from) ≫= tg_username); reflexivity.
  - rewrite (standalone_report_description_saved E' update user text category' w'
               Hu Hm Hd Hdb').
    eexists. split; [reflexivity|]. exact Hname.
  - rewrite (runner_process_description_saved E' update user text category'' w''
               Hu Hm Hd'' Hdb').
    eexists. split; [reflexivity|]. exact Hname.
Qed.

Lemma persisted_display_name_witness :
  (∃ r,
     ApiBot.reports
       (exec (ApiBot.process_description answers_ok 7 (Some 7) "account locked")
             describing_known)
     = [r]
     ∧ Store.username r = "user_7")
  ∧ (∃ r,
       Standalone.reports
         (Standalone.report_description answers_ok
            (Ptb.Update 3 (Some (Ptb.User 7 "Ann" (Some "Lee") None)) (Some 7)
               (Some (Some "parcel lost")) None)
            (Standalone.Bot (Some "Other") [] [])).2
       = [r]
       ∧ Store.username r = "Ann Lee")
  ∧ (∃ r,
       RunnerBot.reports
         (RunnerBot.process_description answers_ok
            (Ptb.Update 3 (Some (Ptb.User 7 "Ann" (Some "Lee") None)) (Some 7)
               (Some (Some "parcel lost")) None)
            (RunnerBot.Bot {[ 7 := RunnerBot.STATE_DESCRIPTION ]} {[ 7 := Some "Other" ]}
               [] [] 0)).2
       = [r]
       ∧ Store.username r = "Ann Lee").
Proof.
  destruct (persisted_display_name answers_ok 7 7 "account locked" describing_known
              (ApiBot.Session ApiBot.STATE_AWAITING_DESCRIPTION (Some "Premiums")
                 (Some (text_message 7 ann "/start")))
              "Premiums" answers_ok
              (Ptb.Update 3 (Some (Ptb.User 7 "Ann" (Some "Lee") None)) (Some 7)
                 (Some (Some "parcel lost")) None)
              (Ptb.User 7 "Ann" (Some "Lee") None) (Some "parcel lost") "Other"
              (Standalone.Bot (Some "Other") [] [])
              "Other"
              (RunnerBot.Bot {[ 7 := RunnerBot.STATE_DESCRIPTION ]} {[ 7 := Some "Other" ]}
                 [] [] 0))
    as [(r & Hr & Hn) [(r' & Hr' & Hn') (r'' & Hr'' & Hn'')]]; try reflexivity.
  split; [exists r | split; [exists r' | exists r'']]; split; assumption.
Defined.

(** ** The cancel command *)

(** The handler of [Standalone]: it answers with the acknowledgement and ends
    the conversation. *)
Lemma standalone_cancel_ends (E : env) (update : Ptb.update) (chat_id : Z)
    (w : Standalone.bot) :
  Ptb.effective_chat update = Some chat_id ->
  present (http E (SendMessage (ChatId chat_id) cancelled_text None)) = true ->
  Standalone.cancel E update w
  = (Some Standalone.END,
     Standalone.Bot (Standalone.user_data w) (Standalone.reports w)
       (Standalone.outbox w ++ [SendMessage (ChatId chat_id) cancelled_text None])).
Proof.
  intros Hc Hsend. unfold Standalone.cancel, Standalone.reply_text. monad_unfold.
  rewrite Hc, Hsend. reflexivity.
Qed.

(** [RunnerBot] has the command: it answers with the acknowledgement, resets
    the state of the user and drops the draft. *)
Lemma runner_cancel_resets (E : env) (update : Ptb.update) (user : Ptb.user)
    (chat_id : Z) (w : RunnerBot.bot) :
  Ptb.message update = Some (Some "/cancel") ->
  Ptb.effective_user update = Some user ->
  Ptb.effective_chat update = Some chat_id ->
  present (http E (SendMessage (ChatId chat_id) cancelled_text None)) = true ->
  RunnerBot.process_update E update w
  = (Some tt,
     RunnerBot.Bot
       (<[Ptb.id user := RunnerBot.STATE_INIT]> (RunnerBot.user_states w))
       (delete (Ptb.id user) (RunnerBot.user_data w))
       (RunnerBot.reports w)
       (RunnerBot.outbox w ++ [SendMessage (ChatId chat_id) cancelled_text None])
       (RunnerBot.last_update_id w)).
Proof.
  intros Hm Hu Hc Hsend. unfold RunnerBot.process_update, RunnerBot.cmd_cancel.
  rewrite Hm, Hu. runner_unfold. monad_unfold. cbn. rewrite Hc. cbn. rewrite Hsend.
  reflexivity.
Qed.

(** C2 on [ApiBot], evaluated.  [process_command] has no branch for
    [/cancel]: the text is classified as plain text.  While a description is
    awaited it is taken as the description, so a report is saved and
    forwarded and the user gets the success message; while a category is
    awaited nothing happens and the session stays where it is.  No
    acknowledgement is sent in either case. *)
Theorem cancel_text_is_filed_as_report :
  ApiBot.classify "/cancel" = ApiBot.PlainText
  ∧ exec (ApiBot.process_command answers_ok (text_message 7 ann "/cancel")) describing
    = ApiBot.Bot
        {[ Some 7 := ApiBot.Session ApiBot.STATE_IDLE None None ]}
        [Store.Report 1 7 "user_7" "Premiums" "/cancel" "Pending" (db_now answers_ok)]
        [SendMessage (ChatName ApiBot.CHANNEL_ID)
           (channel_text answers_ok "Premiums" 1 (Some 7) "user_7" "/cancel") None;
         SendMessage (ChatId 7) (ApiBot.success_msg 1) None]
        0
  ∧ exec (ApiBot.process_command answers_ok (text_message 7 ann "/cancel")) picking
    = picking.
Proof.
  split; [reflexivity|]. split.
  - vm_compute. reflexivity.
  - vm_compute. reflexivity.
Qed.

(** ** The polling loops *)

Lemma keeps_last_ret {A} (a : A) : keeps_last (mret a : MX RunnerBot.bot A).
Proof. intros w. reflexivity. Qed.

Lemma keeps_last_raise {A} : keeps_last (raise : MX RunnerBot.bot A).
Proof. intros w. reflexivity. Qed.

Lemma keeps_last_bind {A B} (m : MX RunnerBot.bot A) (f : A -> MX RunnerBot.bot B) :
  keeps_last m -> (∀ a, keeps_last (f a)) -> keeps_last (m ≫= f).
Proof.
  intros Hm Hf w. unfold mbind, MX_bind. specialize (Hm w).
  destruct (m w) as [[a|] w1]; cbn in *; [rewrite <- Hm; apply Hf | exact Hm].
Qed.

Lemma keeps_last_call E r : keeps_last (RunnerBot.call E r).
Proof. intros w. reflexivity. Qed.

Lemma keeps_last_attr {A} (x : option A) : keeps_last (RunnerBot.attr x).
Proof. intros w. destruct x; reflexivity. Qed.

Lemma keeps_last_get : keeps_last RunnerBot.get.
Proof. intros w. reflexivity. Qed.

Lemma keeps_last_set_state u st : keeps_last (RunnerBot.set_state u st).
Proof. intros w. reflexivity. Qed.

Lemma keeps_last_set_user_data f : keeps_last (RunnerBot.set_user_data f).
Proof. intros w. reflexivity. Qed.

Lemma keeps_last_save_report E u n c d : keeps_last (RunnerBot.save_report E u n c d).
Proof. intros w. unfold RunnerBot.save_report. destruct (db_ok E); reflexivity. Qed.

Ltac last_step :=
  first
    [ apply keeps_last_ret
    | apply keeps_last_raise
    | apply keeps_last_call
    | apply keeps_last_attr
    | apply keeps_last_get
    | apply keeps_last_set_state
    | apply keeps_last_set_user_data
    | apply keeps_last_save_report
    | apply keeps_last_bind; [| intros ?]
    | progress cbv zeta
    | case_match ].

Lemma keeps_last_process_update E update : keeps_last (RunnerBot.process_update E update).
Proof.
  unfold RunnerBot.process_update, RunnerBot.on_callback_query, RunnerBot.cmd_start,
    RunnerBot.cmd_help, RunnerBot.cmd_report, RunnerBot.cmd_cancel,
    RunnerBot.process_category, RunnerBot.process_description, RunnerBot.send_message.
  repeat last_step.
Qed.

Lemma ascending_from_lower (lo : Z) (ids : list Z) :
  ascending_from lo ids -> Forall (λ i, lo <= i) ids.
Proof.
  revert lo. induction ids as [|i ids IH]; intros lo H; [constructor|].
  destruct H as [Hi Hrest]. constructor; [exact Hi|].
  eapply Forall_impl; [apply (IH _ Hrest)|]. cbn. intros; lia.
Qed.

Lemma ascending_from_last (lo l : Z) (ids : list Z) :
  ascending_from lo ids -> last ids = Some l -> lo <= l.
Proof.
  intros H Hl. apply ascending_from_lower in H.
  rewrite Forall_forall in H. apply H. 
  rewrite last_Some in Hl. destruct Hl as [l' ->]. apply elem_of_app. right. constructor.
Qed.

Lemma api_batch_offset (envs : nat -> env) (updates : list update) :
  ∀ (i : nat) (w : ApiBot.bot),
    Forall (λ st, ApiBot.offset st.1 = ApiBot.offset w) (api_batch_states envs i updates w).
Proof.
  induction updates as [|u rest IH]; intros i w; cbn.
  - constructor; [reflexivity|constructor].
  - constructor; [reflexivity|].
    eapply Forall_impl; [apply IH|]. cbn. intros st ->.
    apply keeps_offset_dispatch.
Qed.

Lemma api_batch_last (envs : nat -> env) (updates : list update) :
  ∀ (i : nat) (w : ApiBot.bot),
    last (api_batch_states envs i updates w)
    = Some (exec (ApiBot.handle_batch envs i updates) w, []).
Proof.
  induction updates as [|u rest IH]; intros i w; [reflexivity|].
  cbn [api_batch_states]. rewrite last_cons, IH.
  unfold exec. cbn [ApiBot.handle_batch]. unfold mbind, M_bind.
  destruct (ApiBot.dispatch (envs i) u w). reflexivity.
Qed.

Lemma api_loop_last (p : ApiBot.poll) (envs : nat -> env) (w : ApiBot.bot) :
  last (api_loop_states p envs w) = Some (exec (ApiBot.run_once p envs) w, []).
Proof.
  unfold api_loop_states, ApiBot.run_once, exec, mbind, M_bind.
  destruct (ApiBot.get_updates p w) as [updates w1]. apply api_batch_last.
Qed.

Lemma runner_batch_invariant (envs : nat -> env) (updates : list Ptb.update) :
  ∀ (i : nat) (w : RunnerBot.bot) (lo : Z),
    ascending_from (RunnerBot.last_update_id w + 1) (Ptb.update_id <$> updates) ->
    lo <= RunnerBot.last_update_id w ->
    Forall (λ st, lo <= RunnerBot.last_update_id st.1
                  ∧ Forall (λ u, RunnerBot.last_update_id st.1 < Ptb.update_id u) st.2)
           (runner_batch_states envs i updates w).
Proof.
  induction updates as [|u rest IH]; intros i w lo Hasc Hlo.
  - cbn. constructor; [cbn; split; [exact Hlo | constructor] | constructor].
  - cbn [runner_batch_states]. constructor.
    + cbn. split; [exact Hlo|].
      apply ascending_from_lower in Hasc. rewrite Forall_fmap in Hasc.
      eapply Forall_impl; [exact Hasc|]. cbn. intros; lia.
    + destruct Hasc as [Hu Hrest]. cbn [fmap list_fmap] in *.
      pose proof (keeps_last_process_update (envs i) u w) as Hkeep.
      destruct (RunnerBot.process_update (envs i) u w) as [[[]|] w1]; cbn in Hkeep.
      * apply IH; cbn; [exact Hrest | lia].
      * constructor; [cbn; split; [lia | constructor] | constructor].
Qed.

Lemma runner_batch_last (envs : nat -> env) (updates : list Ptb.update) :
  ∀ (i : nat) (w : RunnerBot.bot),
    last (runner_batch_states envs i updates w)
    = Some ((RunnerBot.handle_batch envs i updates w).2, []).
Proof.
  induction updates as [|u rest IH]; intros i w; [reflexivity|].
  cbn [runner_batch_states RunnerBot.handle_batch]. unfold mbind, MX_bind.
  destruct (RunnerBot.process_update (envs i) u w) as [[[]|] w1].
  - rewrite last_cons, IH. reflexivity.
  - reflexivity.
Qed.

Lemma runner_loop_last (p : option (list Ptb.update)) (envs : nat -> env)
    (w : RunnerBot.bot) :
  last (runner_loop_states p envs w) = Some (exec (RunnerBot.run_once p envs) w, []).
Proof.
  destruct p as [updates|]; [|reflexivity]. apply runner_batch_last.
Qed.

Lemma runner_processed_prefix (envs : nat -> env) (updates : list Ptb.update) :
  ∀ (i : nat) (w : RunnerBot.bot), runner_processed envs i updates w `prefix_of` updates.
Proof.
  induction updates as [|u rest IH]; intros i w; cbn; [reflexivity|].
  destruct (RunnerBot.process_update (envs i) u w) as [[[]|] w1].
  - apply prefix_cons, IH.
  - apply prefix_nil.
Qed.

(** After the loop over a batch the cursor is the identifier of the last
    update that was processed without an exception, and the cursor before
    the loop when there is none. *)
Lemma runner_batch_cursor (envs : nat -> env) (updates : list Ptb.update) :
  ∀ (i : nat) (w : RunnerBot.bot),
    RunnerBot.last_update_id (RunnerBot.handle_batch envs i updates w).2
    = default (RunnerBot.last_update_id w)
        (last (Ptb.update_id <$> runner_processed envs i updates w)).
Proof.
  induction updates as [|u rest IH]; intros i w; [reflexivity|].
  cbn [RunnerBot.handle_batch runner_processed]. unfold mbind, MX_bind.
  pose proof (keeps_last_process_update (envs i) u w) as Hkeep.
  destruct (RunnerBot.process_update (envs i) u w) as [[[]|] w1]; cbn in Hkeep.
  - unfold RunnerBot.set_last_update_id at 1. cbn [snd].
    match goal with
    | |- context [RunnerBot.handle_batch envs (S i) rest ?w2] =>
      rewrite (IH (S i) w2)
    end.
    cbn [fmap list_fmap RunnerBot.set_last_update_id snd RunnerBot.last_update_id].
    rewrite last_cons.
    destruct (last _); reflexivity.
  - cbn. exact Hkeep.
Qed.

(** C9, as stated, fails on [ApiBot]: [get_updates] moves [offset] past the
    whole batch before [run] dispatches any of it.  With update 5 fetched and
    still to be dispatched, and nothing sent yet, the offset is 6 already. *)
Lemma api_cursor_passes_pending_event :
  ascending_from (ApiBot.offset ApiBot.init) [5]
  ∧ (λ st : ApiBot.bot * list update,
       (ApiBot.offset st.1, update_id <$> st.2, ApiBot.outbox st.1))
      <$> api_loop_states
            (ApiBot.PollBody true [Update 5 (UMessage (text_message 7 ann "/report"))])
            (λ _, answers_ok) ApiBot.init
    = [(6, [5], []);
       (6, [], [SendMessage (ChatId 7) ApiBot.category_prompt
                  (Some (InlineKeyboard [[("Discord Items", "Discord Items")];
                                         [("Premiums", "Premiums")]]))])]
  ∧ ¬ Forall (λ st, Forall (λ u, ApiBot.offset st.1 <= update_id u) st.2)
        (api_loop_states
           (ApiBot.PollBody true [Update 5 (UMessage (text_message 7 ann "/report"))])
           (λ _, answers_ok) ApiBot.init).
Proof.
  split; [cbn; lia|]. split; [vm_compute; reflexivity|].
  intros H. apply Forall_cons_1 in H as [H _]. apply Forall_cons_1 in H as [H _].
  vm_compute in H. apply H. reflexivity.
Qed.

(** C9, amended.  While the transport answers a poll with ascending
    identifiers, none below the offset asked for, the cursor never decreases
    during a turn of either loop.  [ApiBot] sets it once per turn, in
    [get_updates], to the identifier after the last update of the batch, and
    dispatching the batch leaves it alone.  [RunnerBot] moves it to the
    identifier of an update only after that update was processed without an
    exception: at every point of the loop each update still to be processed
    has an identifier above the cursor, and after the turn the cursor is the
    identifier of the last update of the batch that was processed without
    an exception (the loop is left at the first that raises), or the cursor
    before the turn when there is none or when the poll raised. *)
Theorem cursor_discipline (p : ApiBot.poll) (envs : nat -> env) (w : ApiBot.bot)
    (p' : option (list Ptb.update)) (envs' : nat -> env) (w' : RunnerBot.bot) :
  (∀ updates, p = ApiBot.PollBody true updates ->
              ascending_from (ApiBot.offset w) (update_id <$> updates)) ->
  (∀ updates, p' = Some updates ->
              ascending_from (RunnerBot.last_update_id w' + 1) (Ptb.update_id <$> updates)) ->
  Forall (λ st, ApiBot.offset w <= ApiBot.offset st.1
                ∧ ApiBot.offset st.1 = ApiBot.offset (exec (ApiBot.get_updates p) w))
         (api_loop_states p envs w)
  ∧ (∀ updates u, p = ApiBot.PollBody true updates -> last updates = Some u ->
       exec (ApiBot.get_updates p) w
       = ApiBot.Bot (ApiBot.user_states w) (ApiBot.reports w) (ApiBot.outbox w)
           (update_id u + 1))
  ∧ Forall (λ st, RunnerBot.last_update_id w' <= RunnerBot.last_update_id st.1
                  ∧ Forall (λ u, RunnerBot.last_update_id st.1 < Ptb.update_id u) st.2)
           (runner_loop_states p' envs' w')
  ∧ RunnerBot.last_update_id (exec (RunnerBot.run_once p' envs') w')
    = default (RunnerBot.last_update_id w')
        (last (Ptb.update_id
                 <$> runner_processed envs' 0 (default [] p') w'))
  ∧ runner_processed envs' 0 (default [] p') w' `prefix_of` default [] p'.
Proof.
  intros Hapi Hrunner. split; [|split; [|split; [|split]]].
  - assert (Hmono : ApiBot.offset w <= ApiBot.offset (exec (ApiBot.get_updates p) w)).
    { destruct p as [|[] updates]; try (cbn; lia).
      specialize (Hapi updates eq_refl). unfold ApiBot.get_updates.
      destruct (last updates) as [u|] eqn:Hlast; monad_unfold; api_unfold; cbn; [|lia].
      assert (last (update_id <$> updates) = Some (update_id u)) as Hl.
      { rewrite fmap_last, Hlast. reflexivity. }
      pose proof (ascending_from_last _ _ _ Hapi Hl). lia. }
    unfold api_loop_states, exec in *.
    destruct (ApiBot.get_updates p w) as [updates w1]. cbn in *.
    eapply Forall_impl; [apply api_batch_offset|]. cbn. intros st ->. lia.
  - intros updates u -> Hlast. unfold ApiBot.get_updates. rewrite Hlast. reflexivity.
  - destruct p' as [updates|]; cbn.
    + apply runner_batch_invariant; [apply Hrunner; reflexivity | lia].
    + constructor; [cbn; split; [lia | constructor] | constructor].
  - destruct p' as [updates|]; [|reflexivity].
    apply (runner_batch_cursor envs' updates 0 w').
  - apply runner_processed_prefix.
Qed.

(** The cursor of [RunnerBot] over a batch of two updates of which the
    second raises: it moves to the first and stays there. *)
Example runner_cursor_stops_at_failure :
  Ptb.update_id
    <$> runner_processed (λ i, match i with O => answers_ok | _ => network_down end) 0
          [Ptb.Update 3 (Some (Ptb.User 7 "Ann" (Some "Lee") None)) (Some 7)
             (Some (Some "/report")) None;
           Ptb.Update 4 (Some (Ptb.User 7 "Ann" (Some "Lee") None)) (Some 7)
             None (Some (Ptb.Callback "cb" "Other"))]
          RunnerBot.init
  = [3]
  ∧ (λ st : RunnerBot.bot * list Ptb.update,
       (RunnerBot.last_update_id st.1, Ptb.update_id <$> st.2))
      <$> runner_loop_states
            (Some [Ptb.Update 3 (Some (Ptb.User 7 "Ann" (Some "Lee") None)) (Some 7)
                     (Some (Some "/report")) None;
                   Ptb.Update 4 (Some (Ptb.User 7 "Ann" (Some "Lee") None)) (Some 7)
                     None (Some (Ptb.Callback "cb" "Other"))])
            (λ i, match i with O => answers_ok | _ => network_down end) RunnerBot.init
    = [(0, [3; 4]); (3, [4]); (3, [])].
Proof. vm_compute. split; reflexivity. Qed.

Lemma cursor_discipline_witness :
  Forall (λ st, ApiBot.offset ApiBot.init <= ApiBot.offset st.1
                ∧ ApiBot.offset st.1
                  = ApiBot.offset
                      (exec (ApiBot.get_updates
                               (ApiBot.PollBody true
                                  [Update 5 (UMessage (text_message 7 ann "/report"));
                                   Update 6 (UCallbackQuery (selection 7 ann "Premiums"))]))
                            ApiBot.init))
         (api_loop_states
            (ApiBot.PollBody true
               [Update 5 (UMessage (text_message 7 ann "/report"));
                Update 6 (UCallbackQuery (selection 7 ann "Premiums"))])
            (λ _, answers_ok) ApiBot.init)
  ∧ (∀ updates u,
       ApiBot.PollBody true
         [Update 5 (UMessage (text_message 7 ann "/report"));
          Update 6 (UCallbackQuery (selection 7 ann "Premiums"))]
       = ApiBot.PollBody true updates ->
       last updates = Some u ->
       exec (ApiBot.get_updates
               (ApiBot.PollBody true
                  [Update 5 (UMessage (text_message 7 ann "/report"));
                   Update 6 (UCallbackQuery (selection 7 ann "Premiums"))]))
            ApiBot.init
       = ApiBot.Bot (ApiBot.user_states ApiBot.init) (ApiBot.reports ApiBot.init)
           (ApiBot.outbox ApiBot.init) (update_id u + 1))
  ∧ Forall (λ st, RunnerBot.last_update_id RunnerBot.init
                  <= RunnerBot.last_update_id st.1
                  ∧ Forall (λ u, RunnerBot.last_update_id st.1 < Ptb.update_id u) st.2)
           (runner_loop_states
              (Some [Ptb.Update 3 (Some (Ptb.User 7 "Ann" (Some "Lee") None)) (Some 7)
                       (Some (Some "/report")) None;
                     Ptb.Update 4 (Some (Ptb.User 7 "Ann" (Some "Lee") None)) (Some 7)
                       None (Some (Ptb.Callback "cb" "Other"))])
              (λ i, match i with O => answers_ok | _ => network_down end) RunnerBot.init)
  ∧ RunnerBot.last_update_id
      (exec (RunnerBot.run_once
               (Some [Ptb.Update 3 (Some (Ptb.User 7 "Ann" (Some "Lee") None)) (Some 7)
                        (Some (Some "/report")) None;
                      Ptb.Update 4 (Some (Ptb.User 7 "Ann" (Some "Lee") None)) (Some 7)
                        None (Some (Ptb.Callback "cb" "Other"))])
               (λ i, match i with O => answers_ok | _ => network_down end))
         RunnerBot.init)
    = default (RunnerBot.last_update_id RunnerBot.init)
        (last (Ptb.update_id
                 <$> runner_processed
                       (λ i, match i with O => answers_ok | _ => network_down end) 0
                       (default []
                          (Some [Ptb.Update 3 (Some (Ptb.User 7 "Ann" (Some "Lee") None))
                                   (Some 7) (Some (Some "/report")) None;
                                 Ptb.Update 4 (Some (Ptb.User 7 "Ann" (Some "Lee") None))
                                   (Some 7) None (Some (Ptb.Callback "cb" "Other"))]))
                       RunnerBot.init))
  ∧ runner_processed (λ i, match i with O => answers_ok | _ => network_down end) 0
      (default []
         (Some [Ptb.Update 3 (Some (Ptb.User 7 "Ann" (Some "Lee") None))
                  (Some 7) (Some (Some "/report")) None;
                Ptb.Update 4 (Some (Ptb.User 7 "Ann" (Some "Lee") None))
                  (Some 7) None (Some (Ptb.Callback "cb" "Other"))]))
      RunnerBot.init
    `prefix_of`
    default []
      (Some [Ptb.Update 3 (Some (Ptb.User 7 "Ann" (Some "Lee") None))
               (Some 7) (Some (Some "/report")) None;
             Ptb.Update 4 (Some (Ptb.User 7 "Ann" (Some "Lee") None))
               (Some 7) None (Some (Ptb.Callback "cb" "Other"))]).
Proof.
  apply (cursor_discipline
           (ApiBot.PollBody true
              [Update 5 (UMessage (text_message 7 ann "/report"));
               Update 6 (UCallbackQuery (selection 7 ann "Premiums"))])
           (λ _, answers_ok) ApiBot.init
           (Some [Ptb.Update 3 (Some (Ptb.User 7 "Ann" (Some "Lee") None)) (Some 7)
                    (Some (Some "/report")) None;
                  Ptb.Update 4 (Some (Ptb.User 7 "Ann" (Some "Lee") None)) (Some 7)
                    None (Some (Ptb.Callback "cb" "Other"))])
           (λ i, match i with O => answers_ok | _ => network_down end) RunnerBot.init).
  - intros updates H. injection H as <-. cbn. lia.
  - intros updates H. injection H as <-. cbn. lia.
Defined.

(** * Whole runs, the other commands and the dashboard *)

(** ** What one update does to sessions and table *)

(** All the outcomes of [process_description]. *)
Lemma process_description_cases (E : env) (chat_id : Z) (u : option Z) (d : string)
    (w : ApiBot.bot) :
  ApiBot.user_states (exec (ApiBot.process_description E chat_id u d) w)
  = <[u := idle_session]> (ApiBot.user_states w)
  ∧ ApiBot.offset (exec (ApiBot.process_description E chat_id u d) w) = ApiBot.offset w
  ∧ ((ApiBot.reports (exec (ApiBot.process_description E chat_id u d) w) = ApiBot.reports w
      ∧ (db_ok E = false ∨ u = None
         ∨ ApiBot.user_states w !! u ≫= ApiBot.category = None))
     ∨ ∃ uid s c,
         u = Some uid ∧ ApiBot.user_states w !! u = Some s ∧ ApiBot.category s = Some c
         ∧ db_ok E = true
         ∧ ApiBot.reports (exec (ApiBot.process_description E chat_id u d) w)
           = ApiBot.reports w
               ++ [Store.Report (Z.of_nat (S (length (ApiBot.reports w)))) uid
                     (ApiBot.resolve_username s u) c d "Pending" (db_now E)]).
Proof.
  destruct (ApiBot.user_states w !! u ≫= ApiBot.category) as [c|] eqn:Hc.
  - destruct (ApiBot.user_states w !! u) as [s|] eqn:Hs; [|discriminate]. cbn in Hc.
    destruct (db_ok E) eqn:Hdb.
    + destruct u as [uid|].
      * rewrite (process_description_saved E chat_id uid d w s c Hs Hc Hdb). cbn.
        repeat split. right. exists uid, s, c. auto.
      * destruct s as [st c' md]; cbn in Hc; subst c'.
        unfold ApiBot.process_description. api_unfold. monad_unfold. cbn.
        rewrite Hs. cbn. auto 10.
    + rewrite (process_description_not_saved E chat_id u d w s c Hs Hc Hdb). cbn. auto 10.
  - rewrite (process_description_lost_track E chat_id u d w Hc). cbn. auto 10.
Qed.

Lemma in_state_true (us : gmap (option Z) ApiBot.session) (u : option Z)
    (st : ApiBot.conv_state) :
  ApiBot.in_state us u st = true -> ∃ s, us !! u = Some s ∧ ApiBot.state s = st.
Proof.
  unfold ApiBot.in_state. destruct (us !! u) as [s|]; [|discriminate].
  intros H. exists s. split; [reflexivity|]. apply bool_decide_eq_true in H. exact H.
Qed.

(** A description handed to [process_description] while one is awaited
    completes the report or abandons the draft. *)
Lemma description_effect (E : env) (chat_id : Z) (u : option Z) (d : string)
    (w : ApiBot.bot) :
  ApiBot.in_state (ApiBot.user_states w) u ApiBot.STATE_AWAITING_DESCRIPTION = true ->
  effect E u (ApiBot.user_states w) (ApiBot.reports w)
    (ApiBot.user_states (exec (ApiBot.process_description E chat_id u d) w))
    (ApiBot.reports (exec (ApiBot.process_description E chat_id u d) w)).
Proof.
  intros Hin. apply in_state_true in Hin as (s & Hs & Hst).
  destruct (process_description_cases E chat_id u d w)
    as (Hus & _ & [[Hrs Hwhy] | (uid & s' & c & -> & Hs' & Hc & Hdb & Hrs)]).
  - rewrite Hus, Hrs. apply (effect_abandon E u _ _ s Hs Hst).
    rewrite Hs in Hwhy. exact Hwhy.
  - rewrite Hus, Hrs. rewrite Hs in Hs'. injection Hs' as <-.
    apply (effect_complete E _ _ _ s uid c d); auto.
Qed.

(** Every update acts on the sessions and on the table by one of the
    transitions of [effect], for the user the update comes from. *)
Lemma dispatch_effect (E : env) (u : update) (w : ApiBot.bot) :
  effect E (sender u) (ApiBot.user_states w) (ApiBot.reports w)
    (ApiBot.user_states (exec (ApiBot.dispatch E u) w))
    (ApiBot.reports (exec (ApiBot.dispatch E u) w)).
Proof.
  remember (exec (ApiBot.dispatch E u) w) as w' eqn:Hw'.
  unfold exec, ApiBot.dispatch in Hw'. unfold sender.
  destruct (body u) as [m|q|].
  - (* a message *)
    unfold ApiBot.process_command in Hw'.
    remember (msg_from m ≫= tg_id) as user_id eqn:Hu; clear Hu.
    destruct (negb (Py.truthy_int (msg_chat m))); [subst w'; apply effect_none|].
    unfold mbind at 1, M_bind at 1, ApiBot.get_user_states in Hw'.
    destruct (bool_decide (default [] (msg_photo m) ≠ [])
              && ApiBot.in_state (ApiBot.user_states w) user_id
                   ApiBot.STATE_AWAITING_DESCRIPTION) eqn:Hphoto.
    + apply andb_true_iff in Hphoto as [_ Hin].
      unfold mbind, M_bind in Hw'.
      pose proof (description_effect E (default 0 (msg_chat m)) user_id
                    (if Py.truthy_str (default "" (msg_caption m))
                     then default "" (msg_caption m) else "") w Hin) as Heff.
      unfold exec in Heff.
      destruct (ApiBot.process_description E _ user_id _ w) as [[] w1].
      subst w'. exact Heff.
    + destruct (negb (Py.truthy_str (default "" (msg_text m))));
        [subst w'; apply effect_none|].
      destruct (ApiBot.classify (default "" (msg_text m))).
      * subst w'. apply effect_start.
      * rewrite cmd_report_effect in Hw'. subst w'. apply effect_report.
      * rewrite cmd_refund_effect in Hw'. subst w'. apply effect_refund.
      * destruct (quiet_cmd_respond E (default 0 (msg_chat m)) user_id
                    (default "" (msg_text m)) (Some m) w) as (H1 & H2 & _).
        subst w'. rewrite H1, H2. apply effect_none.
      * destruct (quiet_cmd_debug_channel E (default 0 (msg_chat m)) user_id
                    (default "" (msg_text m)) w) as (H1 & H2 & _).
        subst w'. rewrite H1, H2. apply effect_none.
      * destruct (ApiBot.in_state (ApiBot.user_states w) user_id
                    ApiBot.STATE_AWAITING_DESCRIPTION) eqn:Hin;
          [|subst w'; apply effect_none].
        subst w'. apply description_effect, Hin.
  - (* a button *)
    unfold ApiBot.process_callback_query in Hw'.
    remember (cq_from q ≫= tg_id) as user_id eqn:Hu; clear Hu.
    destruct (negb (Py.truthy_int (cq_chat q))
              || negb (Py.truthy_str (default "" (cq_data q)))
              || negb (Py.truthy_int user_id)); [subst w'; apply effect_none|].
    unfold mbind, M_bind, ApiBot.answer_callback_query, ApiBot.post,
      ApiBot.get_user_states, ApiBot.set_session in Hw'.
    cbn [ApiBot.user_states ApiBot.reports ApiBot.outbox ApiBot.offset] in Hw'.
    destruct (ApiBot.in_state (ApiBot.user_states w) user_id
                ApiBot.STATE_AWAITING_CATEGORY) eqn:Hin;
      [|subst w'; apply effect_none].
    destruct (bool_decide (default "" (cq_data q) ∈ ApiBot.CATEGORIES)) eqn:Hcat;
      [|subst w'; apply effect_none].
    apply in_state_true in Hin as (s & Hs & Hst).
    apply bool_decide_eq_true in Hcat.
    match type of Hw' with context [ApiBot.process_category E ?c ?u ?d ?w1] =>
      destruct (quiet_process_category E c u d w1) as (H1 & H2 & _) end.
    subst w'. rewrite H1, H2. cbn. apply (effect_select E _ _ _ s); assumption.
  - subst w'. apply effect_none.
Qed.

(** *** Sessions of other users *)

Lemma effect_other (E : env) (u v : option Z) us rs us' rs' :
  effect E u us rs us' rs' -> v ≠ u -> us' !! v = us !! v.
Proof.
  intros H Hne. destruct H; try reflexivity; apply lookup_insert_ne; congruence.
Qed.

(** X1.  Sessions are kept per user: after any run of updates, whatever the
    world answered, the session of a user who sent none of them is what it
    was (or is still missing). *)
Theorem other_sessions_untouched (events : list (env * update)) (w : ApiBot.bot)
    (v : option Z) :
  Forall (λ ev, sender ev.2 ≠ v) events ->
  ApiBot.user_states (run_events events w) !! v = ApiBot.user_states w !! v.
Proof.
  revert w. induction events as [|[E u] rest IH]; intros w Hall; [reflexivity|].
  apply Forall_cons_1 in Hall as [Hu Hrest]. cbn [run_events].
  rewrite (IH _ Hrest).
  apply (effect_other E (sender u) v _ _ _ _ (dispatch_effect E u w)). cbn in Hu. congruence.
Qed.

Lemma other_sessions_untouched_witness :
  ApiBot.user_states
    (run_events [(answers_ok, Update 1 (UMessage (text_message 8 bob "/report")));
                 (db_down, Update 2 (UCallbackQuery (selection 8 bob "Premiums")));
                 (answers_ok, Update 3 (UMessage (text_message 8 bob "late")))]
                describing) !! Some 7
  = ApiBot.user_states describing !! Some 7.
Proof.
  apply (other_sessions_untouched
           [(answers_ok, Update 1 (UMessage (text_message 8 bob "/report")));
            (db_down, Update 2 (UCallbackQuery (selection 8 bob "Premiums")));
            (answers_ok, Update 3 (UMessage (text_message 8 bob "late")))]
           describing (Some 7)).
  constructor; [cbn; discriminate|].
  constructor; [cbn; discriminate|].
  constructor; [cbn; discriminate|].
  constructor.
Defined.

(** *** The table only grows *)

Lemma effect_reports (E : env) (u : option Z) us rs us' rs' :
  effect E u us rs us' rs' ->
  rs' = rs
  ∨ ∃ r, rs' = rs ++ [r] ∧ Store.id r = Z.of_nat (S (length rs))
         ∧ Store.status r = "Pending" ∧ Some (Store.user_id r) = u.
Proof.
  intros H. destruct H; auto. right. eexists. split; [reflexivity|]. cbn. auto.
Qed.

Lemma reports_appended (events : list (env * update)) (w : ApiBot.bot) :
  ∃ new,
    ApiBot.reports (run_events events w) = ApiBot.reports w ++ new
    ∧ (length new <= length events)%nat
    ∧ Forall (λ r, Store.status r = "Pending") new.
Proof.
  revert w. induction events as [|[E u] rest IH]; intros w.
  - exists []. cbn. rewrite app_nil_r. split; [reflexivity|]. split; [lia|constructor].
  - cbn [run_events].
    destruct (IH (exec (ApiBot.dispatch E u) w)) as (new & Hnew & Hlen & Hst).
    destruct (effect_reports _ _ _ _ _ _ (dispatch_effect E u w))
      as [Hsame | (r & Hr & _ & Hpending & _)].
    + exists new. rewrite Hnew, Hsame. split; [reflexivity|]. split; [cbn; lia|exact Hst].
    + exists (r :: new). rewrite Hnew, Hr, <- app_assoc. split; [reflexivity|].
      split; [cbn; lia|]. constructor; assumption.
Qed.

Lemma run_events_dense (events : list (env * update)) (w : ApiBot.bot) :
  dense_ids (ApiBot.reports w) -> dense_ids (ApiBot.reports (run_events events w)).
Proof.
  revert w. induction events as [|[E u] rest IH]; intros w Hw; [exact Hw|].
  cbn [run_events]. apply IH.
  destruct (effect_reports _ _ _ _ _ _ (dispatch_effect E u w))
    as [-> | (r & -> & Hid & _)]; [exact Hw|].
  intros i x Hi. apply lookup_app_Some in Hi as [Hi | [Hlen Hi]]; [apply Hw, Hi|].
  apply list_lookup_singleton_Some in Hi as [Hi <-].
  rewrite Hid. f_equal. lia.
Qed.

(** X2.  The bot only ever appends to the table: after any run of updates
    the table is the one before followed by new rows, at most one per
    update.  On the table the bot starts with, which [init_db] created
    empty, the rows of every run have the ids 1, 2, ... in order and the
    status ["Pending"], so that a new row never takes the id of another. *)
Theorem reports_only_grow (events : list (env * update)) (w : ApiBot.bot) :
  (∃ new,
     ApiBot.reports (run_events events w) = ApiBot.reports w ++ new
     ∧ (length new <= length events)%nat)
  ∧ (length (ApiBot.reports (run_events events ApiBot.init)) <= length events)%nat
  ∧ ∀ (i : nat) r,
      ApiBot.reports (run_events events ApiBot.init) !! i = Some r ->
      Store.id r = Z.of_nat (S i) ∧ Store.status r = "Pending".
Proof.
  split; [|split].
  - destruct (reports_appended events w) as (new & Hnew & Hlen & _). eauto.
  - destruct (reports_appended events ApiBot.init) as (new & Hnew & Hlen & _).
    rewrite Hnew. exact Hlen.
  - intros i r Hi. split.
    + apply (run_events_dense events ApiBot.init); [|exact Hi].
      intros j x Hj. destruct j; discriminate Hj.
    + destruct (reports_appended events ApiBot.init) as (new & Hnew & _ & Hst).
      rewrite Hnew in Hi. cbn in Hi. rewrite Forall_forall in Hst.
      apply Hst. eapply list_elem_of_lookup_2, Hi.
Qed.

(** *** Drafts and categories *)


Lemma effect_ok (E : env) (u : option Z) us rs us' rs' :
  effect E u us rs us' rs' ->
  (∀ v s, us !! v = Some s -> session_ok s) ->
  Forall (λ r, known_category (Store.category r)) rs ->
  (∀ v s, us' !! v = Some s -> session_ok s)
  ∧ Forall (λ r, known_category (Store.category r)) rs'.
Proof.
  intros H Hus Hrs.
  assert (Hins : ∀ s0, session_ok s0 ->
            ∀ v s, <[u := s0]> us !! v = Some s -> session_ok s).
  { intros s0 Hs0 v s. destruct (decide (u = v)) as [<-|Hne].
    - rewrite lookup_insert_eq. intros [= <-]. exact Hs0.
    - rewrite lookup_insert_ne by exact Hne. apply Hus. }
  destruct H; (split; [|try exact Hrs]); try exact Hus; try (apply Hins; reflexivity).
  - apply Hins. exists "Refund". split; [reflexivity|]. right. reflexivity.
  - apply Hins. exists c. split; [reflexivity|]. left. assumption.
  - apply Forall_app. split; [exact Hrs|]. constructor; [|constructor]. cbn.
    match goal with Hl : us !! _ = Some ?s |- _ => pose proof (Hus _ _ Hl) as Hok end.
    unfold session_ok in Hok.
    match goal with Hst : ApiBot.state _ = _ |- _ => rewrite Hst in Hok end.
    destruct Hok as (c' & Hc' & Hk). congruence.
Qed.

Lemma bot_ok_run_events (events : list (env * update)) (w : ApiBot.bot) :
  bot_ok w -> bot_ok (run_events events w).
Proof.
  revert w. induction events as [|[E u] rest IH]; intros w Hok; [exact Hok|].
  cbn [run_events]. apply IH. destruct Hok as [Hus Hrs].
  exact (effect_ok E (sender u) _ _ _ _ (dispatch_effect E u w) Hus Hrs).
Qed.

Lemma bot_ok_init : bot_ok ApiBot.init.
Proof.
  split; [|constructor]. intros u s H. cbn in H. rewrite lookup_empty in H. discriminate.
Qed.

(** X3.  In every state the bot reaches from its initial state, a session
    holds a category exactly while it awaits a description, that category is
    a configured one or ["Refund"], and every report of the table has such a
    category. *)
Theorem categories_stay_known (events : list (env * update)) :
  bot_ok (run_events events ApiBot.init).
Proof. apply bot_ok_run_events, bot_ok_init. Qed.

(** *** A completion that cannot be saved *)

(** The insert is refused: the database raised, or the sender has no id
    for the column [user_id]. *)
Lemma process_description_rejected (E : env) (chat_id : Z) (u : option Z)
    (d : string) (w : ApiBot.bot) (s : ApiBot.session) (c : string) :
  ApiBot.user_states w !! u = Some s ->
  ApiBot.category s = Some c ->
  db_ok E = false ∨ u = None ->
  exec (ApiBot.process_description E chat_id u d) w
  = ApiBot.Bot (<[u := idle_session]> (ApiBot.user_states w)) (ApiBot.reports w)
      (ApiBot.outbox w ++ [SendMessage (ChatId chat_id) ApiBot.save_error_msg None])
      (ApiBot.offset w).
Proof.
  intros Hs Hc Hwhy. destruct (db_ok E) eqn:Hdb.
  - destruct Hwhy as [Hf | ->]; [discriminate Hf|].
    destruct s as [st c' md]; cbn in Hc; subst c'.
    unfold ApiBot.process_description. api_unfold. monad_unfold. cbn.
    rewrite Hs. reflexivity.
  - apply (process_description_not_saved E chat_id u d w s c Hs Hc Hdb).
Qed.

Lemma lost_track_msg_distinct (report_id : Z) :
  ApiBot.lost_track_msg ≠ ApiBot.success_msg report_id
  ∧ ApiBot.lost_track_msg ≠ ApiBot.error_msg
  ∧ ApiBot.lost_track_msg ≠ ApiBot.save_error_msg.
Proof.
  repeat split; intros H.
  - apply (f_equal (String.get 0)) in H. lazy in H. discriminate.
  - apply (f_equal (String.get 0)) in H. lazy in H. discriminate.
  - apply (f_equal (String.get 7)) in H. lazy in H. discriminate.
Qed.

(** X4.  When the insert of a completion is refused (the database raises,
    or the sender has no id), the description is dropped: no row is added,
    nothing is forwarded to the report channel, the only message is the
    save-error notice to the user, and the session is back in [STATE_IDLE]
    with the drafted category gone. *)
Theorem save_failure_drops_draft (E : env) (chat_id : Z) (u : option Z) (d : string)
    (w : ApiBot.bot) (s : ApiBot.session) (c : string) :
  ApiBot.user_states w !! u = Some s ->
  ApiBot.category s = Some c ->
  db_ok E = false ∨ u = None ->
  ApiBot.reports (exec (ApiBot.process_description E chat_id u d) w) = ApiBot.reports w
  ∧ ApiBot.outbox (exec (ApiBot.process_description E chat_id u d) w)
    = ApiBot.outbox w ++ [SendMessage (ChatId chat_id) ApiBot.save_error_msg None]
  ∧ sent_to (ChatName ApiBot.CHANNEL_ID)
      (ApiBot.outbox (exec (ApiBot.process_description E chat_id u d) w))
    = sent_to (ChatName ApiBot.CHANNEL_ID) (ApiBot.outbox w)
  ∧ ApiBot.user_states (exec (ApiBot.process_description E chat_id u d) w) !! u
    = Some idle_session.
Proof.
  intros Hs Hc Hwhy.
  rewrite (process_description_rejected E chat_id u d w s c Hs Hc Hwhy). cbn.
  repeat split.
  - unfold sent_to. rewrite filter_app.
    rewrite (filter_cons_False _ _ []) by (cbn; congruence).
    rewrite filter_nil. apply app_nil_r.
  - apply lookup_insert_eq.
Qed.

Lemma save_failure_drops_draft_witness :
  ApiBot.reports (exec (ApiBot.process_description db_down 7 (Some 7) "late") describing)
  = ApiBot.reports describing
  ∧ ApiBot.outbox (exec (ApiBot.process_description db_down 7 (Some 7) "late") describing)
    = ApiBot.outbox describing ++ [SendMessage (ChatId 7) ApiBot.save_error_msg None]
  ∧ sent_to (ChatName ApiBot.CHANNEL_ID)
      (ApiBot.outbox (exec (ApiBot.process_description db_down 7 (Some 7) "late") describing))
    = sent_to (ChatName ApiBot.CHANNEL_ID) (ApiBot.outbox describing)
  ∧ ApiBot.user_states
      (exec (ApiBot.process_description db_down 7 (Some 7) "late") describing) !! Some 7
    = Some idle_session.
Proof.
  apply (save_failure_drops_draft db_down 7 (Some 7) "late" describing
           (ApiBot.Session ApiBot.STATE_AWAITING_DESCRIPTION (Some "Premiums") None)
           "Premiums").
  - reflexivity.
  - reflexivity.
  - left. reflexivity.
Defined.

Lemma no_lost_track (E : env) (chat_id : Z) (u : option Z)
    (d : string) (w : ApiBot.bot) :
  bot_ok w ->
  ApiBot.in_state (ApiBot.user_states w) u ApiBot.STATE_AWAITING_DESCRIPTION = true ->
  ∀ chat,
    SendMessage (ChatId chat) ApiBot.lost_track_msg None
    ∉ drop (length (ApiBot.outbox w))
        (ApiBot.outbox (exec (ApiBot.process_description E chat_id u d) w)).
Proof.
  intros [Hus _] Hin chat. apply in_state_true in Hin as (s & Hs & Hst).
  pose proof (Hus _ _ Hs) as Hok. unfold session_ok in Hok. rewrite Hst in Hok.
  destruct Hok as (c & Hc & _).
  destruct (db_ok E) eqn:Hdb; [destruct u as [uid|]|].
  - rewrite (process_description_saved E chat_id uid d w s c Hs Hc Hdb).
    cbn [ApiBot.outbox]. rewrite drop_app_length.
    rewrite !not_elem_of_cons. split; [discriminate|]. split; [|apply not_elem_of_nil].
    intros [= _ H].
    destruct (lost_track_msg_distinct (Z.of_nat (S (length (ApiBot.reports w)))))
      as (H1 & H2 & _).
    destruct (ApiBot.reply_ok _); congruence.
  - rewrite (process_description_rejected E chat_id None d w s c Hs Hc) by auto.
    cbn [ApiBot.outbox]. rewrite drop_app_length.
    rewrite !not_elem_of_cons. split; [|apply not_elem_of_nil].
    intros [= _ H].
  - rewrite (process_description_rejected E chat_id u d w s c Hs Hc) by auto.
    cbn [ApiBot.outbox]. rewrite drop_app_length.
    rewrite !not_elem_of_cons. split; [|apply not_elem_of_nil].
    intros [= _ H].
Qed.

(** X5.  The answer "lost track of your report" is never given in a state
    the bot reaches from its initial state: when a description is awaited
    from a user, [process_description] finds the category drafted, so what
    it sends to any chat is the success message, the forwarding notice or
    the save-error notice. *)
Theorem lost_track_branch_is_dead (events : list (env * update)) (E : env)
    (chat_id : Z) (u : option Z) (d : string) :
  ApiBot.in_state (ApiBot.user_states (run_events events ApiBot.init)) u
    ApiBot.STATE_AWAITING_DESCRIPTION = true ->
  ∀ chat,
    SendMessage (ChatId chat) ApiBot.lost_track_msg None
    ∉ drop (length (ApiBot.outbox (run_events events ApiBot.init)))
        (ApiBot.outbox (exec (ApiBot.process_description E chat_id u d)
                          (run_events events ApiBot.init))).
Proof.
  intros Hin. apply no_lost_track; [|exact Hin]. apply bot_ok_run_events, bot_ok_init.
Qed.

Lemma lost_track_branch_is_dead_witness :
  SendMessage (ChatId 7) ApiBot.lost_track_msg None
  ∉ drop (length (ApiBot.outbox
                    (run_events [(answers_ok, Update 1 (UMessage (text_message 7 ann "refund")))]
                                ApiBot.init)))
      (ApiBot.outbox
         (exec (ApiBot.process_description channel_down 7 (Some 7) "charged twice")
            (run_events [(answers_ok, Update 1 (UMessage (text_message 7 ann "refund")))]
                        ApiBot.init))).
Proof.
  apply (lost_track_branch_is_dead
           [(answers_ok, Update 1 (UMessage (text_message 7 ann "refund")))]
           channel_down 7 (Some 7) "charged twice").
  reflexivity.
Defined.

(** *** A photo as the description *)

Lemma process_command_photo (E : env) (m : message) (w : ApiBot.bot) (chat_id : Z)
    (sizes : list string) (file_id : string) :
  msg_chat m = Some chat_id -> chat_id ≠ 0 ->
  msg_photo m = Some sizes -> last sizes = Some file_id ->
  ApiBot.in_state (ApiBot.user_states w) (msg_from m ≫= tg_id)
    ApiBot.STATE_AWAITING_DESCRIPTION = true ->
  exec (ApiBot.process_command E m) w
  = exec (ApiBot.send_photo_to_channel E (ChatName ApiBot.CHANNEL_ID) file_id
            (default "" (msg_caption m)))
      (exec (ApiBot.process_description E chat_id (msg_from m ≫= tg_id)
               (default "" (msg_caption m))) w).
Proof.
  intros Hchat Hnz Hphoto Hlast Hin. unfold exec, ApiBot.process_command.
  rewrite Hchat, Hphoto. cbn [default from_option id].
  rewrite (truthy_int_nonzero _ Hnz). cbn [negb].
  unfold mbind at 1, M_bind at 1, ApiBot.get_user_states. rewrite Hin.
  rewrite bool_decide_eq_true_2 by (intros ->; discriminate Hlast). cbn [andb].
  rewrite Hlast. cbn [default from_option id].
  replace (if Py.truthy_str (default "" (msg_caption m))
           then default "" (msg_caption m) else "")
    with (default "" (msg_caption m)).
  2:{ unfold Py.truthy_str. destruct (default "" (msg_caption m)); reflexivity. }
  unfold mbind, M_bind.
  destruct (ApiBot.process_description E chat_id _ _ w) as [[] w1]. cbn.
  reflexivity.
Qed.

(** X6.  A photo sent while a description is awaited completes the report
    with its caption as the description (the empty string when it has
    none), whatever the text of the message; the last request is the photo
    of the last size listed, forwarded to the report channel, also when the
    insert failed. *)
Theorem photo_completes_with_caption (E : env) (m : message) (w : ApiBot.bot)
    (chat_id uid : Z) (sizes : list string) (file_id : string)
    (s : ApiBot.session) (c : string) :
  msg_chat m = Some chat_id -> chat_id ≠ 0 ->
  msg_from m ≫= tg_id = Some uid ->
  msg_photo m = Some sizes -> last sizes = Some file_id ->
  ApiBot.user_states w !! Some uid = Some s ->
  ApiBot.state s = ApiBot.STATE_AWAITING_DESCRIPTION ->
  ApiBot.category s = Some c ->
  ApiBot.reports (exec (ApiBot.process_command E m) w)
  = (if db_ok E
     then ApiBot.reports w
            ++ [Store.Report (Z.of_nat (S (length (ApiBot.reports w)))) uid
                  (ApiBot.resolve_username s (Some uid)) c (default "" (msg_caption m))
                  "Pending" (db_now E)]
     else ApiBot.reports w)
  ∧ last (ApiBot.outbox (exec (ApiBot.process_command E m) w))
    = Some (SendPhoto (ChatName ApiBot.CHANNEL_ID) file_id (default "" (msg_caption m)))
  ∧ ApiBot.user_states (exec (ApiBot.process_command E m) w) !! Some uid
    = Some idle_session.
Proof.
  intros Hchat Hnz Hfrom Hphoto Hlast Hs Hst Hc.
  rewrite (process_command_photo E m w chat_id sizes file_id Hchat Hnz Hphoto Hlast).
  2:{ rewrite Hfrom. unfold ApiBot.in_state. rewrite Hs, Hst. reflexivity. }
  rewrite Hfrom. destruct (db_ok E) eqn:Hdb.
  - rewrite (process_description_saved E chat_id uid _ w s c Hs Hc Hdb). cbn.
    split; [reflexivity|]. split; [apply last_snoc | apply lookup_insert_eq].
  - rewrite (process_description_rejected E chat_id (Some uid) _ w s c Hs Hc) by auto. cbn.
    split; [reflexivity|]. split; [apply last_snoc | apply lookup_insert_eq].
Qed.

Lemma photo_completes_with_caption_witness :
  ApiBot.reports (exec (ApiBot.process_command answers_ok (photo_message 7 ann "torn box"))
                    describing)
  = (if db_ok answers_ok
     then ApiBot.reports describing
            ++ [Store.Report (Z.of_nat (S (length (ApiBot.reports describing)))) 7
                  (ApiBot.resolve_username
                     (ApiBot.Session ApiBot.STATE_AWAITING_DESCRIPTION (Some "Premiums") None)
                     (Some 7))
                  "Premiums" (default "" (msg_caption (photo_message 7 ann "torn box")))
                  "Pending" (db_now answers_ok)]
     else ApiBot.reports describing)
  ∧ last (ApiBot.outbox
            (exec (ApiBot.process_command answers_ok (photo_message 7 ann "torn box"))
               describing))
    = Some (SendPhoto (ChatName ApiBot.CHANNEL_ID) "large"
              (default "" (msg_caption (photo_message 7 ann "torn box"))))
  ∧ ApiBot.user_states
      (exec (ApiBot.process_command answers_ok (photo_message 7 ann "torn box")) describing)
      !! Some 7
    = Some idle_session.
Proof.
  apply (photo_completes_with_caption answers_ok (photo_message 7 ann "torn box") describing
           7 7 ["small"; "large"] "large"
           (ApiBot.Session ApiBot.STATE_AWAITING_DESCRIPTION (Some "Premiums") None)
           "Premiums").
  - reflexivity.
  - lia.
  - reflexivity.
  - reflexivity.
  - reflexivity.
  - reflexivity.
  - reflexivity.
  - reflexivity.
Defined.

(** *** Redelivery *)

Lemma idle_after_description (E : env) (chat_id : Z) (u : option Z) (d : string)
    (w : ApiBot.bot) :
  ApiBot.in_state (ApiBot.user_states (exec (ApiBot.process_description E chat_id u d) w))
    u ApiBot.STATE_AWAITING_DESCRIPTION = false.
Proof.
  destruct (process_description_cases E chat_id u d w) as (Hus & _).
  unfold ApiBot.in_state. rewrite Hus, lookup_insert_eq. reflexivity.
Qed.


(** A message with no command in it does nothing unless it is taken as a
    description. *)
Lemma plain_message_ignored (E : env) (m : message) (w : ApiBot.bot) :
  ApiBot.classify (default "" (msg_text m)) = ApiBot.PlainText ->
  taken_as_description m w = false ->
  exec (ApiBot.process_command E m) w = w.
Proof.
  intros Hc Hno. unfold taken_as_description in Hno.
  unfold exec, ApiBot.process_command.
  destruct (Py.truthy_int (msg_chat m)); [|reflexivity]. cbn [negb andb] in *.
  unfold mbind at 1, M_bind at 1, ApiBot.get_user_states. rewrite Hc.
  destruct (ApiBot.in_state _ _ _); cbn [andb] in *.
  - apply orb_false_iff in Hno as [-> ->]. reflexivity.
  - rewrite andb_false_r. destruct (negb _); reflexivity.
Qed.

(** Once taken as a description, the same message is not taken again. *)
Lemma taken_once (E : env) (m : message) (w : ApiBot.bot) :
  ApiBot.classify (default "" (msg_text m)) = ApiBot.PlainText ->
  taken_as_description m w = true ->
  taken_as_description m (exec (ApiBot.process_command E m) w) = false.
Proof.
  intros Hc Hyes. unfold taken_as_description in *.
  apply andb_true_iff in Hyes as [Hyes Hwhat].
  apply andb_true_iff in Hyes as [Hchat Hin].
  rewrite Hchat. cbn [andb].
  match goal with |- ?a && _ = false => assert (a = false) as ->; [|reflexivity] end.
  unfold exec, ApiBot.process_command. rewrite Hchat. cbn [negb].
  unfold mbind at 1, M_bind at 1, ApiBot.get_user_states. rewrite Hin, Hc.
  destruct (bool_decide (default [] (msg_photo m) ≠ [])); cbn [andb orb] in *.
  - unfold mbind, M_bind.
    pose proof (idle_after_description E (default 0 (msg_chat m)) (msg_from m ≫= tg_id)
                  (if Py.truthy_str (default "" (msg_caption m))
                   then default "" (msg_caption m) else "") w) as Hidle.
    unfold exec in Hidle.
    destruct (ApiBot.process_description E _ _ _ w) as [[] w1]. exact Hidle.
  - rewrite Hwhat. cbn [negb]. apply idle_after_description.
Qed.

(** X7.  Handling is idempotent on messages without a command: a message
    whose text is none of the commands, handled a second time right after
    the first, changes nothing, whatever the world answers either time.  So
    a description is filed once. *)
Theorem plain_message_redelivered_is_ignored (E1 E2 : env) (m : message)
    (w : ApiBot.bot) :
  ApiBot.classify (default "" (msg_text m)) = ApiBot.PlainText ->
  exec (ApiBot.process_command E2 m) (exec (ApiBot.process_command E1 m) w)
  = exec (ApiBot.process_command E1 m) w.
Proof.
  intros Hc. destruct (taken_as_description m w) eqn:Htaken.
  - apply plain_message_ignored; [exact Hc|]. apply taken_once; assumption.
  - rewrite (plain_message_ignored E1 m w Hc Htaken).
    apply (plain_message_ignored E2 m w Hc Htaken).
Qed.

Lemma plain_message_redelivered_is_ignored_witness :
  exec (ApiBot.process_command db_down (text_message 7 ann "account locked"))
    (exec (ApiBot.process_command answers_ok (text_message 7 ann "account locked"))
       describing)
  = exec (ApiBot.process_command answers_ok (text_message 7 ann "account locked")) describing.
Proof.
  apply (plain_message_redelivered_is_ignored answers_ok db_down
           (text_message 7 ann "account locked") describing).
  reflexivity.
Defined.

(** *** Commands in place of a description *)

(** X8.  A message without photo whose text is one of the commands never
    adds a row to the table, in whatever state the session of its sender
    is. *)
Theorem command_is_never_saved (E : env) (m : message) (w : ApiBot.bot) :
  default [] (msg_photo m) = [] ->
  ApiBot.classify (default "" (msg_text m)) ≠ ApiBot.PlainText ->
  ApiBot.reports (exec (ApiBot.process_command E m) w) = ApiBot.reports w.
Proof.
  intros Hphoto Hc. unfold exec, ApiBot.process_command. rewrite Hphoto.
  destruct (negb (Py.truthy_int (msg_chat m))); [reflexivity|].
  unfold mbind at 1, M_bind at 1, ApiBot.get_user_states.
  rewrite bool_decide_eq_false_2 by (intros H; apply H; reflexivity). cbn [andb].
  destruct (negb (Py.truthy_str (default "" (msg_text m)))); [reflexivity|].
  destruct (ApiBot.classify (default "" (msg_text m))); try reflexivity.
  - apply (quiet_cmd_respond E _ _ _ _ w).
  - apply (quiet_cmd_debug_channel E _ _ _ w).
  - congruence.
Qed.

Lemma command_is_never_saved_witness :
  ApiBot.reports (exec (ApiBot.process_command answers_ok
                          (text_message 7 ann "/respond 8 on its way")) describing)
  = ApiBot.reports describing.
Proof.
  apply (command_is_never_saved answers_ok (text_message 7 ann "/respond 8 on its way")
           describing).
  - reflexivity.
  - vm_compute. discriminate.
Defined.

(** *** Buttons *)

(** X9.  A button pressed while no category is awaited from its user
    changes neither sessions nor table nor offset: the bot at most answers
    the callback query. *)
Theorem stale_button_changes_nothing (E : env) (q : callback_query) (w : ApiBot.bot) :
  ApiBot.in_state (ApiBot.user_states w) (cq_from q ≫= tg_id)
    ApiBot.STATE_AWAITING_CATEGORY = false ->
  exec (ApiBot.process_callback_query E q) w = w
  ∨ exec (ApiBot.process_callback_query E q) w
    = ApiBot.Bot (ApiBot.user_states w) (ApiBot.reports w)
        (ApiBot.outbox w ++ [AnswerCallbackQuery (cq_id q)]) (ApiBot.offset w).
Proof.
  intros Hin. unfold exec, ApiBot.process_callback_query.
  remember (cq_from q ≫= tg_id) as user_id eqn:Huser.
  destruct (negb (Py.truthy_int (cq_chat q))
            || negb (Py.truthy_str (default "" (cq_data q)))
            || negb (Py.truthy_int user_id)); [left; reflexivity|].
  right. unfold mbind, M_bind, ApiBot.answer_callback_query, ApiBot.post,
    ApiBot.get_user_states.
  cbn [ApiBot.user_states]. rewrite Hin. reflexivity.
Qed.

Lemma stale_button_changes_nothing_witness :
  exec (ApiBot.process_callback_query answers_ok (selection 7 ann "Premiums")) describing
  = describing
  ∨ exec (ApiBot.process_callback_query answers_ok (selection 7 ann "Premiums")) describing
    = ApiBot.Bot (ApiBot.user_states describing) (ApiBot.reports describing)
        (ApiBot.outbox describing
           ++ [AnswerCallbackQuery (cq_id (selection 7 ann "Premiums"))])
        (ApiBot.offset describing).
Proof.
  apply (stale_button_changes_nothing answers_ok (selection 7 ann "Premiums") describing).
  reflexivity.
Defined.

Lemma kept_message_data_idem (us : gmap (option Z) ApiBot.session) (u : option Z)
    (st : ApiBot.conv_state) (c : option string) :
  ApiBot.kept_message_data
    (<[u := ApiBot.Session st c (ApiBot.kept_message_data us u)]> us) u
  = ApiBot.kept_message_data us u.
Proof.
  unfold ApiBot.kept_message_data at 1. rewrite lookup_insert_eq. cbn.
  unfold ApiBot.kept_message_data.
  destruct (us !! u ≫= ApiBot.message_data) as [m0|]; [|reflexivity].
  cbn. destruct (message_truthy m0) eqn:Hm; cbn; [rewrite Hm|]; reflexivity.
Qed.

Lemma process_category_discord (E : env) (chat_id : Z) (u : option Z) (w : ApiBot.bot) :
  ApiBot.process_category E chat_id u "Discord Items" w
  = (tt, ApiBot.Bot (ApiBot.user_states w) (ApiBot.reports w)
           (ApiBot.outbox w ++ [SendMessage (ChatId chat_id) ApiBot.discord_form None])
           (ApiBot.offset w)).
Proof. reflexivity. Qed.

Lemma process_category_premium (E : env) (chat_id : Z) (u : option Z) (w : ApiBot.bot) :
  ApiBot.process_category E chat_id u "Premiums" w
  = (tt, ApiBot.Bot (ApiBot.user_states w) (ApiBot.reports w)
           (ApiBot.outbox w ++ [SendMessage (ChatId chat_id) ApiBot.premium_form None])
           (ApiBot.offset w)).
Proof. reflexivity. Qed.

(** X10.  Every button of the keyboard that [cmd_report] sends is accepted
    when it is pressed next: its label is its callback data, the session
    moves to [STATE_AWAITING_DESCRIPTION] with that category (and the
    snapshot of [/start] it had), and the bot answers the query and sends
    the form of that category, the Discord form for ["Discord Items"] and
    the premium form for ["Premiums"]; the two forms differ. *)
Theorem offered_buttons_are_accepted (E1 E2 : env) (chat_id uid : Z)
    (q : callback_query) (w : ApiBot.bot) (text label data : string)
    (rows : list (list (string * string))) :
  chat_id ≠ 0 -> uid ≠ 0 ->
  last (ApiBot.outbox (exec (ApiBot.cmd_report E1 chat_id (Some uid)) w))
  = Some (SendMessage (ChatId chat_id) text (Some (InlineKeyboard rows))) ->
  (label, data) ∈ concat rows ->
  cq_chat q = Some chat_id -> cq_from q ≫= tg_id = Some uid -> cq_data q = Some data ->
  label = data
  ∧ ApiBot.user_states
      (exec (ApiBot.process_callback_query E2 q)
            (exec (ApiBot.cmd_report E1 chat_id (Some uid)) w)) !! Some uid
    = Some (ApiBot.Session ApiBot.STATE_AWAITING_DESCRIPTION (Some data)
              (ApiBot.kept_message_data (ApiBot.user_states w) (Some uid)))
  ∧ ApiBot.discord_form ≠ ApiBot.premium_form
  ∧ ∃ form,
      (data = "Discord Items" ∧ form = ApiBot.discord_form
       ∨ data = "Premiums" ∧ form = ApiBot.premium_form)
      ∧ ApiBot.outbox
          (exec (ApiBot.process_callback_query E2 q)
                (exec (ApiBot.cmd_report E1 chat_id (Some uid)) w))
        = ApiBot.outbox (exec (ApiBot.cmd_report E1 chat_id (Some uid)) w)
            ++ [AnswerCallbackQuery (cq_id q); SendMessage (ChatId chat_id) form None].
Proof.
  intros Hcnz Hunz Hlast Hbutton Hchat Hfrom Hdata.
  unfold exec in *. rewrite cmd_report_effect in *. cbn [snd] in *.
  cbn [ApiBot.outbox] in Hlast. rewrite last_snoc in Hlast.
  injection Hlast as <- <-.
  assert (Hcases : (label, data) = ("Discord Items", "Discord Items")
                   ∨ (label, data) = ("Premiums", "Premiums")).
  { cbn in Hbutton. rewrite !elem_of_cons, elem_of_nil in Hbutton. tauto. }
  assert (Hin : data ∈ ApiBot.CATEGORIES).
  { destruct Hcases as [[= _ ->] | [= _ ->]]; compute_done. }
  split; [destruct Hcases as [[= -> ->] | [= -> ->]]; reflexivity|].
  assert (Hforms : ApiBot.discord_form ≠ ApiBot.premium_form).
  { intros H. apply (f_equal String.length) in H. vm_compute in H. discriminate H. }
  erewrite selection_run; [| eassumption | assumption | eassumption | assumption
                           | eassumption | assumption | apply lookup_insert_eq | reflexivity].
  cbn [ApiBot.user_states ApiBot.reports ApiBot.outbox ApiBot.offset].
  rewrite kept_message_data_idem, insert_insert_eq.
  destruct Hcases as [[= _ ->] | [= _ ->]].
  - rewrite process_category_discord.
    cbn [snd ApiBot.user_states ApiBot.reports ApiBot.outbox ApiBot.offset].
    split; [apply lookup_insert_eq|]. split; [exact Hforms|].
    exists ApiBot.discord_form. split; [auto|]. rewrite <- !app_assoc. reflexivity.
  - rewrite process_category_premium.
    cbn [snd ApiBot.user_states ApiBot.reports ApiBot.outbox ApiBot.offset].
    split; [apply lookup_insert_eq|]. split; [exact Hforms|].
    exists ApiBot.premium_form. split; [auto|]. rewrite <- !app_assoc. reflexivity.
Qed.

Lemma offered_buttons_are_accepted_witness :
  "Premiums" = "Premiums"
  ∧ ApiBot.user_states
      (exec (ApiBot.process_callback_query network_down (selection 7 ann "Premiums"))
            (exec (ApiBot.cmd_report answers_ok 7 (Some 7)) ApiBot.init)) !! Some 7
    = Some (ApiBot.Session ApiBot.STATE_AWAITING_DESCRIPTION (Some "Premiums")
              (ApiBot.kept_message_data (ApiBot.user_states ApiBot.init) (Some 7)))
  ∧ ApiBot.discord_form ≠ ApiBot.premium_form
  ∧ ∃ form,
      ("Premiums" = "Discord Items" ∧ form = ApiBot.discord_form
       ∨ "Premiums" = "Premiums" ∧ form = ApiBot.premium_form)
      ∧ ApiBot.outbox
          (exec (ApiBot.process_callback_query network_down (selection 7 ann "Premiums"))
                (exec (ApiBot.cmd_report answers_ok 7 (Some 7)) ApiBot.init))
        = ApiBot.outbox (exec (ApiBot.cmd_report answers_ok 7 (Some 7)) ApiBot.init)
            ++ [AnswerCallbackQuery (cq_id (selection 7 ann "Premiums"));
                SendMessage (ChatId 7) form None].
Proof.
  apply (offered_buttons_are_accepted answers_ok network_down 7 7
           (selection 7 ann "Premiums") ApiBot.init ApiBot.category_prompt
           "Premiums" "Premiums"
           [[("Discord Items", "Discord Items")]; [("Premiums", "Premiums")]]).
  - lia.
  - lia.
  - reflexivity.
  - cbn. apply list_elem_of_further, list_elem_of_here.
  - reflexivity.
  - reflexivity.
  - reflexivity.
Defined.

(** *** The name of the submitter over several reports *)

(** The report that the flow "report command, configured category,
    description" creates, from any session: it is saved under the name that
    the snapshot kept in the session gives. *)
Lemma report_flow_result (E1 E2 E3 : env) (i1 i2 i3 chat_id uid : Z)
    (user : tg_user) (q : callback_query) (t c d : string) (w : ApiBot.bot) :
  chat_id ≠ 0 -> uid ≠ 0 -> tg_id user = Some uid ->
  ApiBot.classify t = ApiBot.CmdReport ->
  cq_chat q = Some chat_id -> cq_from q = Some user -> cq_data q = Some c ->
  c ∈ ApiBot.CATEGORIES ->
  d ≠ "" -> ApiBot.classify d = ApiBot.PlainText ->
  db_ok E3 = true ->
  let w' := run_events [(E1, Update i1 (UMessage (text_message chat_id user t)));
                        (E2, Update i2 (UCallbackQuery q));
                        (E3, Update i3 (UMessage (text_message chat_id user d)))] w in
  ApiBot.user_states w' = <[Some uid := idle_session]> (ApiBot.user_states w)
  ∧ ApiBot.reports w'
    = ApiBot.reports w
      ++ [Store.Report (Z.of_nat (S (length (ApiBot.reports w)))) uid
            (default ("user_" +:+ Py.str_of_int uid)
               ((ApiBot.kept_message_data (ApiBot.user_states w) (Some uid) ≫= msg_from)
                  ≫= tg_username))
            c d "Pending" (db_now E3)].
Proof.
  intros Hcnz Hunz Hid Ht Hqchat Hqfrom Hqdata Hin Hd Hplain Hdb.
  assert (Hfrom : ∀ x, msg_from (text_message chat_id user x) ≫= tg_id = Some uid).
  { intros x. cbn. exact Hid. }
  cbn [run_events ApiBot.dispatch body].
  set (w1 := exec (ApiBot.process_command E1 (text_message chat_id user t)) w).
  assert (Hw1 : ApiBot.user_states w1
                = <[Some uid := ApiBot.Session ApiBot.STATE_AWAITING_CATEGORY None
                      (ApiBot.kept_message_data (ApiBot.user_states w) (Some uid))]>
                    (ApiBot.user_states w)
                ∧ ApiBot.reports w1 = ApiBot.reports w).
  { subst w1. unfold exec.
    rewrite (process_command_text E1 _ w chat_id t) by
      (try reflexivity; try assumption; apply classify_nonempty; congruence).
    rewrite Ht, Hfrom, cmd_report_effect. cbn. auto. }
  destruct Hw1 as [Hu1 Hr1].
  set (w2 := exec (ApiBot.process_callback_query E2 q) w1).
  destruct (selection_effect E2 q w1 chat_id uid c
              (ApiBot.Session ApiBot.STATE_AWAITING_CATEGORY None
                 (ApiBot.kept_message_data (ApiBot.user_states w) (Some uid))))
    as [Hu2 Hr2]; try assumption; try reflexivity.
  { rewrite Hqfrom. exact Hid. }
  { rewrite Hu1. apply lookup_insert_eq. }
  fold w2 in Hu2, Hr2.
  rewrite Hu1, kept_message_data_idem, insert_insert_eq in Hu2.
  set (w3 := exec (ApiBot.process_command E3 (text_message chat_id user d)) w2).
  assert (Hw3 : w3 = exec (ApiBot.process_description E3 chat_id (Some uid) d) w2).
  { subst w3. unfold exec.
    rewrite (process_command_text E3 _ w2 chat_id d) by (try reflexivity; assumption).
    rewrite Hplain, Hfrom. unfold ApiBot.in_state. rewrite Hu2, lookup_insert_eq.
    cbn [ApiBot.state]. rewrite bool_decide_eq_true_2 by reflexivity. reflexivity. }
  rewrite Hw3.
  erewrite process_description_saved;
    [| rewrite Hu2; apply lookup_insert_eq | reflexivity | exact Hdb].
  cbn [ApiBot.user_states ApiBot.reports]. rewrite Hu2, Hr2, Hr1, insert_insert_eq.
  split; reflexivity.
Qed.

(** X11.  The handle of a user is used for one report only.  After
    [/start], a first report flow is saved under the handle of the sender;
    completing it resets the session to [{"state": STATE_IDLE}], which drops
    the snapshot of [/start], so a second flow of the same user is saved
    under [user_<id>]. *)
Theorem handle_is_used_for_one_report (E0 E1 E2 E3 E4 E5 E6 : env)
    (i0 i1 i2 i3 i4 i5 i6 chat_id uid : Z) (user : tg_user) (h : string)
    (q1 q2 : callback_query) (t0 t1 t2 c1 c2 d1 d2 : string) (w : ApiBot.bot) :
  chat_id ≠ 0 -> uid ≠ 0 -> tg_id user = Some uid -> tg_username user = Some h ->
  ApiBot.classify t0 = ApiBot.CmdStart ->
  ApiBot.classify t1 = ApiBot.CmdReport -> ApiBot.classify t2 = ApiBot.CmdReport ->
  cq_chat q1 = Some chat_id -> cq_from q1 = Some user -> cq_data q1 = Some c1 ->
  cq_chat q2 = Some chat_id -> cq_from q2 = Some user -> cq_data q2 = Some c2 ->
  c1 ∈ ApiBot.CATEGORIES -> c2 ∈ ApiBot.CATEGORIES ->
  d1 ≠ "" -> ApiBot.classify d1 = ApiBot.PlainText ->
  d2 ≠ "" -> ApiBot.classify d2 = ApiBot.PlainText ->
  db_ok E3 = true -> db_ok E6 = true ->
  ∃ r1 r2,
    ApiBot.reports
      (run_events [(E0, Update i0 (UMessage (text_message chat_id user t0)));
                   (E1, Update i1 (UMessage (text_message chat_id user t1)));
                   (E2, Update i2 (UCallbackQuery q1));
                   (E3, Update i3 (UMessage (text_message chat_id user d1)));
                   (E4, Update i4 (UMessage (text_message chat_id user t2)));
                   (E5, Update i5 (UCallbackQuery q2));
                   (E6, Update i6 (UMessage (text_message chat_id user d2)))] w)
    = ApiBot.reports w ++ [r1; r2]
    ∧ Store.description r1 = d1 ∧ Store.username r1 = h
    ∧ Store.description r2 = d2 ∧ Store.username r2 = "user_" +:+ Py.str_of_int uid.
Proof.
  intros Hcnz Hunz Hid Hh Ht0 Ht1 Ht2 Hq1c Hq1f Hq1d Hq2c Hq2f Hq2d Hc1 Hc2
    Hd1 Hp1 Hd2 Hp2 Hdb3 Hdb6.
  set (w0 := exec (ApiBot.dispatch E0 (Update i0 (UMessage (text_message chat_id user t0)))) w).
  assert (Hw0 : ApiBot.user_states w0
                = <[Some uid := ApiBot.Session ApiBot.STATE_IDLE None
                                  (Some (text_message chat_id user t0))]>
                    (ApiBot.user_states w)
                ∧ ApiBot.reports w0 = ApiBot.reports w).
  { subst w0. unfold exec. cbn [ApiBot.dispatch body].
    rewrite (process_command_text E0 _ w chat_id t0) by
      (try reflexivity; try assumption; apply classify_nonempty; congruence).
    rewrite Ht0. cbn. rewrite Hid. auto. }
  destruct Hw0 as [Hu0 Hr0].
  set (flow1 := [(E1, Update i1 (UMessage (text_message chat_id user t1)));
                 (E2, Update i2 (UCallbackQuery q1));
                 (E3, Update i3 (UMessage (text_message chat_id user d1)))]).
  set (flow2 := [(E4, Update i4 (UMessage (text_message chat_id user t2)));
                 (E5, Update i5 (UCallbackQuery q2));
                 (E6, Update i6 (UMessage (text_message chat_id user d2)))]).
  change (run_events _ w) with (run_events flow2 (run_events flow1 w0)).
  destruct (report_flow_result E1 E2 E3 i1 i2 i3 chat_id uid user q1 t1 c1 d1 w0)
    as [Hu1 Hr1]; try assumption.
  fold flow1 in Hu1, Hr1.
  destruct (report_flow_result E4 E5 E6 i4 i5 i6 chat_id uid user q2 t2 c2 d2
              (run_events flow1 w0)) as [_ Hr2]; try assumption.
  fold flow2 in Hr2.
  rewrite Hr2, Hr1, Hu1, Hr0, Hu0, <- app_assoc.
  eexists _, _. split; [reflexivity|].
  cbn [Store.description Store.username].
  unfold ApiBot.kept_message_data. rewrite !lookup_insert_eq. cbn. rewrite Hh.
  auto.
Qed.

Lemma handle_is_used_for_one_report_witness :
  ∃ r1 r2,
    ApiBot.reports
      (run_events [(answers_ok, Update 1 (UMessage (text_message 8 bob "/start")));
                   (answers_ok, Update 2 (UMessage (text_message 8 bob "/report")));
                   (answers_ok, Update 3 (UCallbackQuery (selection 8 bob "Premiums")));
                   (answers_ok, Update 4 (UMessage (text_message 8 bob "account locked")));
                   (answers_ok, Update 5 (UMessage (text_message 8 bob "report")));
                   (answers_ok, Update 6 (UCallbackQuery (selection 8 bob "Discord Items")));
                   (answers_ok, Update 7 (UMessage (text_message 8 bob "item missing")))]
                  ApiBot.init)
    = ApiBot.reports ApiBot.init ++ [r1; r2]
    ∧ Store.description r1 = "account locked" ∧ Store.username r1 = "bob_k"
    ∧ Store.description r2 = "item missing"
    ∧ Store.username r2 = "user_" +:+ Py.str_of_int 8.
Proof.
  apply (handle_is_used_for_one_report answers_ok answers_ok answers_ok answers_ok
           answers_ok answers_ok answers_ok 1 2 3 4 5 6 7 8 8 bob "bob_k"
           (selection 8 bob "Premiums") (selection 8 bob "Discord Items")
           "/start" "/report" "report" "Premiums" "Discord Items"
           "account locked" "item missing" ApiBot.init).
  - lia.
  - lia.
  - reflexivity.
  - reflexivity.
  - reflexivity.
  - reflexivity.
  - reflexivity.
  - reflexivity.
  - reflexivity.
  - reflexivity.
  - reflexivity.
  - reflexivity.
  - reflexivity.
  - apply list_elem_of_further, list_elem_of_here.
  - apply list_elem_of_here.
  - discriminate.
  - reflexivity.
  - discriminate.
  - reflexivity.
  - reflexivity.
  - reflexivity.
Defined.

(** *** [/start] in the middle of a report *)

(** X12.  [/start] abandons a report in progress: from any session it
    leaves the session in [STATE_IDLE] with only the snapshot of the
    message, adds no row, and a text sent next that is none of the commands
    is ignored altogether. *)
Theorem start_discards_draft (E1 E2 : env) (i1 i2 chat_id : Z) (user : tg_user)
    (t d : string) (w : ApiBot.bot) :
  chat_id ≠ 0 ->
  ApiBot.classify t = ApiBot.CmdStart ->
  ApiBot.classify d = ApiBot.PlainText ->
  let w1 := exec (ApiBot.dispatch E1 (Update i1 (UMessage (text_message chat_id user t)))) w in
  ApiBot.user_states w1 !! tg_id user
  = Some (ApiBot.Session ApiBot.STATE_IDLE None (Some (text_message chat_id user t)))
  ∧ ApiBot.reports w1 = ApiBot.reports w
  ∧ exec (ApiBot.dispatch E2 (Update i2 (UMessage (text_message chat_id user d)))) w1 = w1.
Proof.
  intros Hcnz Ht Hd w1.
  assert (Hw1 : w1 = exec (ApiBot.cmd_start E1 chat_id (tg_id user)
                             (text_message chat_id user t)) w).
  { subst w1. unfold exec. cbn [ApiBot.dispatch body].
    rewrite (process_command_text E1 _ w chat_id t) by
      (try reflexivity; try assumption; apply classify_nonempty; congruence).
    rewrite Ht. reflexivity. }
  assert (Hs : ApiBot.user_states w1 !! tg_id user
               = Some (ApiBot.Session ApiBot.STATE_IDLE None
                         (Some (text_message chat_id user t)))).
  { rewrite Hw1. cbn. apply lookup_insert_eq. }
  split; [exact Hs|]. split; [rewrite Hw1; reflexivity|].
  unfold exec at 1. cbn [ApiBot.dispatch body].
  destruct (decide (d = "")) as [-> | Hne].
  - unfold ApiBot.process_command. cbn.
    replace (chat_id =? 0) with false by (symmetry; apply Z.eqb_neq; exact Hcnz).
    reflexivity.
  - rewrite (process_command_text E2 _ w1 chat_id d) by (try reflexivity; assumption).
    rewrite Hd. unfold ApiBot.in_state.
    change (msg_from (text_message chat_id user d) ≫= tg_id) with (tg_id user).
    rewrite Hs. reflexivity.
Qed.

Lemma start_discards_draft_witness :
  ApiBot.user_states
    (exec (ApiBot.dispatch answers_ok (Update 1 (UMessage (text_message 7 ann "/start"))))
       describing) !! tg_id ann
  = Some (ApiBot.Session ApiBot.STATE_IDLE None (Some (text_message 7 ann "/start")))
  ∧ ApiBot.reports
      (exec (ApiBot.dispatch answers_ok (Update 1 (UMessage (text_message 7 ann "/start"))))
         describing)
    = ApiBot.reports describing
  ∧ exec (ApiBot.dispatch answers_ok
            (Update 2 (UMessage (text_message 7 ann "account locked"))))
      (exec (ApiBot.dispatch answers_ok (Update 1 (UMessage (text_message 7 ann "/start"))))
         describing)
    = exec (ApiBot.dispatch answers_ok (Update 1 (UMessage (text_message 7 ann "/start"))))
        describing.
Proof.
  apply (start_discards_draft answers_ok answers_ok 1 2 7 ann "/start" "account locked"
           describing).
  - lia.
  - reflexivity.
  - reflexivity.
Defined.

(** *** The channel probe *)

(** X13.  The channel probe is open to every sender and leaves sessions,
    table and offset alone: for a [/debug_channel] text with an argument the
    bot sends the debug information to the chat of the sender, then a test
    message to the chat the argument names, then tells the sender whether
    that message was accepted. *)
Theorem debug_channel_probes_named_chat (E : env) (m : message) (chat_id : Z)
    (t c : string) (w : ApiBot.bot) :
  msg_chat m = Some chat_id -> chat_id ≠ 0 ->
  msg_text m = Some t -> default [] (msg_photo m) = [] ->
  ApiBot.classify t = ApiBot.CmdDebugChannel ->
  Py.split None (Py.strip t) !! 1%nat = Some c -> c ≠ "" ->
  let user_id := Py.str_of_opt_int (msg_from m ≫= tg_id) in
  let probe := SendMessage (ChatName c) (ApiBot.debug_test_msg user_id (now_manila E)) None in
  exec (ApiBot.process_command E m) w
  = ApiBot.Bot (ApiBot.user_states w) (ApiBot.reports w)
      (ApiBot.outbox w
         ++ [SendMessage (ChatId chat_id)
               (ApiBot.debug_info (Py.str_of_int chat_id) user_id) None;
             probe;
             SendMessage (ChatId chat_id)
               (match http E probe with
                | Some r => if ok r then ApiBot.debug_sent c
                            else ApiBot.debug_failed c (repr r)
                | None => ApiBot.debug_failed c "None"
                end) None])
      (ApiBot.offset w).
Proof.
  intros Hchat Hcnz Htext Hphoto Hc Hparts Hne user_id probe. unfold exec.
  rewrite (process_command_text E m w chat_id t) by
    (try assumption; apply classify_nonempty; congruence).
  rewrite Hc. unfold ApiBot.cmd_debug_channel. rewrite Hparts.
  unfold Py.truthy_str. rewrite (bool_decide_eq_false_2 _ Hne). cbn [negb].
  fold user_id. unfold mbind, M_bind, mret, M_ret, ApiBot.send_message, ApiBot.post.
  cbn [fst snd ApiBot.user_states ApiBot.reports ApiBot.outbox ApiBot.offset].
  fold probe. unfold ApiBot.reply_ok.
  destruct (http E probe) as [r|]; [destruct (ok r)|];
    cbn [fst snd ApiBot.user_states ApiBot.reports ApiBot.outbox ApiBot.offset from_option];
    rewrite <- !app_assoc; reflexivity.
Qed.

Lemma debug_channel_probes_named_chat_witness :
  exec (ApiBot.process_command channel_down (text_message 7 ann "/debug_channel -100200"))
    describing
  = ApiBot.Bot (ApiBot.user_states describing) (ApiBot.reports describing)
      (ApiBot.outbox describing
         ++ [SendMessage (ChatId 7)
               (ApiBot.debug_info (Py.str_of_int 7)
                  (Py.str_of_opt_int
                     (msg_from (text_message 7 ann "/debug_channel -100200") ≫= tg_id)))
               None;
             SendMessage (ChatName "-100200")
               (ApiBot.debug_test_msg
                  (Py.str_of_opt_int
                     (msg_from (text_message 7 ann "/debug_channel -100200") ≫= tg_id))
                  (now_manila channel_down)) None;
             SendMessage (ChatId 7)
               (match
                  http channel_down
                    (SendMessage (ChatName "-100200")
                       (ApiBot.debug_test_msg
                          (Py.str_of_opt_int
                             (msg_from (text_message 7 ann "/debug_channel -100200")
                                ≫= tg_id))
                          (now_manila channel_down)) None)
                with
                | Some r => if ok r then ApiBot.debug_sent "-100200"
                            else ApiBot.debug_failed "-100200" (repr r)
                | None => ApiBot.debug_failed "-100200" "None"
                end) None])
      (ApiBot.offset describing).
Proof.
  apply (debug_channel_probes_named_chat channel_down
           (text_message 7 ann "/debug_channel -100200") 7 "/debug_channel -100200"
           "-100200" describing).
  - reflexivity.
  - lia.
  - reflexivity.
  - reflexivity.
  - reflexivity.
  - reflexivity.
  - discriminate.
Defined.

(** ** [telegram_bot_runner.py] *)


(** [process_update] on a text that completes a report. *)
Lemma runner_description_step (E : env) (u : Ptb.update) (user : Ptb.user)
    (chat_id : Z) (d c : string) (w : RunnerBot.bot) :
  Ptb.effective_user u = Some user ->
  Ptb.effective_chat u = Some chat_id ->
  Ptb.message u = Some (Some d) ->
  d ≠ "" -> ¬ runner_command d ->
  RunnerBot.user_states w !! Ptb.id user = Some RunnerBot.STATE_DESCRIPTION ->
  RunnerBot.user_data w !! Ptb.id user = Some (Some c) ->
  let report_id :=
    if db_ok E then Some (Z.of_nat (S (length (RunnerBot.reports w)))) else None in
  let rows :=
    if db_ok E
    then RunnerBot.reports w
           ++ [Store.Report (Z.of_nat (S (length (RunnerBot.reports w)))) (Ptb.id user)
                 (ptb_resolve_username user) c d "Pending" (db_now E)]
    else RunnerBot.reports w in
  let thanks := SendMessage (ChatId chat_id) (thanks_text report_id c) None in
  RunnerBot.process_update E u w
  = if present (http E thanks)
    then (Some tt,
          RunnerBot.Bot (<[Ptb.id user := RunnerBot.STATE_INIT]> (RunnerBot.user_states w))
            (delete (Ptb.id user) (RunnerBot.user_data w)) rows
            (RunnerBot.outbox w ++ [thanks]) (RunnerBot.last_update_id w))
    else (None,
          RunnerBot.Bot (RunnerBot.user_states w) (RunnerBot.user_data w) rows
            (RunnerBot.outbox w ++ [thanks]) (RunnerBot.last_update_id w)).
Proof.
  intros Hu Hc Hm Hne Hcmd Hst Hdata report_id rows thanks.
  unfold runner_command in Hcmd.
  unfold RunnerBot.process_update, RunnerBot.process_description.
  rewrite Hm, Hu. unfold Py.truthy_str. rewrite (bool_decide_eq_false_2 _ Hne). cbn [negb].
  runner_unfold. monad_unfold. cbn.
  rewrite !bool_decide_eq_false_2 by tauto.
  rewrite Hst. rewrite bool_decide_eq_true_2 by reflexivity.
  rewrite Hdata. cbn. rewrite Hc. subst report_id rows thanks.
  destruct (db_ok E); cbn; destruct (present (http E _)); reflexivity.
Qed.

(** *** A confirmation that cannot be sent *)

(** X14.  In [telegram_bot_runner.py] a report can be filed twice.  When
    the confirmation of a completed report cannot be sent, [process_update]
    raises after the insert: the row is in the table, but states and cursor
    are as before, so the same update is asked for again; processing it a
    second time files a second row with the same user, category and
    description. *)
Theorem runner_redelivery_duplicates_report (E1 E2 : env) (u : Ptb.update)
    (user : Ptb.user) (chat_id : Z) (d c : string) (w : RunnerBot.bot) :
  Ptb.effective_user u = Some user ->
  Ptb.effective_chat u = Some chat_id ->
  Ptb.message u = Some (Some d) ->
  d ≠ "" -> ¬ runner_command d ->
  RunnerBot.user_states w !! Ptb.id user = Some RunnerBot.STATE_DESCRIPTION ->
  RunnerBot.user_data w !! Ptb.id user = Some (Some c) ->
  db_ok E1 = true -> db_ok E2 = true ->
  (∀ r, http E1 r = None) ->
  (∀ r, present (http E2 r) = true) ->
  let w1 := exec (RunnerBot.run_once (Some [u]) (λ _, E1)) w in
  let w2 := exec (RunnerBot.run_once (Some [u]) (λ _, E2)) w1 in
  let n := Z.of_nat (S (length (RunnerBot.reports w))) in
  RunnerBot.last_update_id w1 = RunnerBot.last_update_id w
  ∧ RunnerBot.user_states w1 = RunnerBot.user_states w
  ∧ RunnerBot.last_update_id w2 = Ptb.update_id u
  ∧ RunnerBot.reports w2
    = RunnerBot.reports w
      ++ [Store.Report n (Ptb.id user) (ptb_resolve_username user) c d "Pending" (db_now E1);
          Store.Report (n + 1) (Ptb.id user) (ptb_resolve_username user) c d "Pending"
            (db_now E2)].
Proof.
  intros Hu Hc Hm Hne Hcmd Hst Hdata Hdb1 Hdb2 Hdown Hup w1 w2 n.
  assert (Hw1 : w1 = RunnerBot.Bot (RunnerBot.user_states w) (RunnerBot.user_data w)
                       (RunnerBot.reports w
                          ++ [Store.Report n (Ptb.id user) (ptb_resolve_username user) c d
                                "Pending" (db_now E1)])
                       (RunnerBot.outbox w
                          ++ [SendMessage (ChatId chat_id) (thanks_text (Some n) c) None])
                       (RunnerBot.last_update_id w)).
  { subst w1. unfold exec, RunnerBot.run_once. cbn [snd RunnerBot.handle_batch].
    unfold mbind at 1, MX_bind at 1.
    rewrite (runner_description_step E1 u user chat_id d c w) by assumption.
    rewrite Hdb1, Hdown. reflexivity. }
  assert (Hw2 : w2 = RunnerBot.Bot
                       (<[Ptb.id user := RunnerBot.STATE_INIT]> (RunnerBot.user_states w))
                       (delete (Ptb.id user) (RunnerBot.user_data w))
                       (RunnerBot.reports w1
                          ++ [Store.Report (Z.of_nat (S (length (RunnerBot.reports w1))))
                                (Ptb.id user) (ptb_resolve_username user) c d
                                "Pending" (db_now E2)])
                       (RunnerBot.outbox w1
                          ++ [SendMessage (ChatId chat_id)
                                (thanks_text
                                   (Some (Z.of_nat (S (length (RunnerBot.reports w1))))) c)
                                None])
                       (Ptb.update_id u)).
  { subst w2. unfold exec, RunnerBot.run_once. cbn [snd RunnerBot.handle_batch].
    unfold mbind at 1, MX_bind at 1.
    rewrite (runner_description_step E2 u user chat_id d c w1)
      by (try assumption; rewrite Hw1; assumption).
    rewrite Hdb2, Hup. rewrite Hw1 at 1 2. reflexivity. }
  rewrite Hw2. cbn [RunnerBot.last_update_id RunnerBot.reports].
  rewrite Hw1. cbn [RunnerBot.last_update_id RunnerBot.reports RunnerBot.user_states].
  repeat split; try reflexivity.
  rewrite <- app_assoc. cbn [app]. do 3 f_equal.
  rewrite length_app. cbn [length]. subst n. f_equal. lia.
Qed.

Lemma runner_redelivery_duplicates_report_witness :
  RunnerBot.last_update_id
    (exec (RunnerBot.run_once (Some [ptb_text 3 7 ann_ptb "parcel lost"]) (λ _, network_down))
       runner_describing)
  = RunnerBot.last_update_id runner_describing
  ∧ RunnerBot.user_states
      (exec (RunnerBot.run_once (Some [ptb_text 3 7 ann_ptb "parcel lost"])
               (λ _, network_down)) runner_describing)
    = RunnerBot.user_states runner_describing
  ∧ RunnerBot.last_update_id
      (exec (RunnerBot.run_once (Some [ptb_text 3 7 ann_ptb "parcel lost"])
               (λ _, answers_ok))
         (exec (RunnerBot.run_once (Some [ptb_text 3 7 ann_ptb "parcel lost"])
                  (λ _, network_down)) runner_describing))
    = Ptb.update_id (ptb_text 3 7 ann_ptb "parcel lost")
  ∧ RunnerBot.reports
      (exec (RunnerBot.run_once (Some [ptb_text 3 7 ann_ptb "parcel lost"])
               (λ _, answers_ok))
         (exec (RunnerBot.run_once (Some [ptb_text 3 7 ann_ptb "parcel lost"])
                  (λ _, network_down)) runner_describing))
    = RunnerBot.reports runner_describing
      ++ [Store.Report (Z.of_nat (S (length (RunnerBot.reports runner_describing))))
            (Ptb.id ann_ptb) (ptb_resolve_username ann_ptb) "Other" "parcel lost" "Pending"
            (db_now network_down);
          Store.Report (Z.of_nat (S (length (RunnerBot.reports runner_describing))) + 1)
            (Ptb.id ann_ptb) (ptb_resolve_username ann_ptb) "Other" "parcel lost" "Pending"
            (db_now answers_ok)].
Proof.
  apply (runner_redelivery_duplicates_report network_down answers_ok
           (ptb_text 3 7 ann_ptb "parcel lost") ann_ptb 7 "parcel lost" "Other"
           runner_describing).
  - reflexivity.
  - reflexivity.
  - reflexivity.
  - discriminate.
  - unfold runner_command. intros [H | [H | [H | H]]]; discriminate H.
  - reflexivity.
  - reflexivity.
  - reflexivity.
  - reflexivity.
  - intros r. reflexivity.
  - intros r. reflexivity.
Defined.

(** *** An insert that fails *)

(** X15.  In [telegram_bot_runner.py] a failed insert is reported as a
    success: no row is added, yet the user is sent the confirmation, with
    [None] as the report id, and the conversation is reset. *)
Theorem runner_thanks_without_report (E : env) (u : Ptb.update) (user : Ptb.user)
    (chat_id : Z) (d c : string) (w : RunnerBot.bot) :
  Ptb.effective_user u = Some user ->
  Ptb.effective_chat u = Some chat_id ->
  Ptb.message u = Some (Some d) ->
  d ≠ "" -> ¬ runner_command d ->
  RunnerBot.user_states w !! Ptb.id user = Some RunnerBot.STATE_DESCRIPTION ->
  RunnerBot.user_data w !! Ptb.id user = Some (Some c) ->
  db_ok E = false ->
  (∀ r, present (http E r) = true) ->
  ∃ text,
    exec (RunnerBot.process_update E u) w
    = RunnerBot.Bot (<[Ptb.id user := RunnerBot.STATE_INIT]> (RunnerBot.user_states w))
        (delete (Ptb.id user) (RunnerBot.user_data w)) (RunnerBot.reports w)
        (RunnerBot.outbox w ++ [SendMessage (ChatId chat_id) text None])
        (RunnerBot.last_update_id w)
    ∧ Py.startswith text
        "Thank you! Your report (ID: None) has been submitted successfully." = true.
Proof.
  intros Hu Hc Hm Hne Hcmd Hst Hdata Hdb Hup.
  exists (thanks_text None c). unfold exec.
  rewrite (runner_description_step E u user chat_id d c w) by assumption.
  rewrite Hdb, Hup. split; reflexivity.
Qed.

Lemma runner_thanks_without_report_witness :
  ∃ text,
    exec (RunnerBot.process_update db_down (ptb_text 3 7 ann_ptb "parcel lost"))
      runner_describing
    = RunnerBot.Bot
        (<[Ptb.id ann_ptb := RunnerBot.STATE_INIT]> (RunnerBot.user_states runner_describing))
        (delete (Ptb.id ann_ptb) (RunnerBot.user_data runner_describing))
        (RunnerBot.reports runner_describing)
        (RunnerBot.outbox runner_describing ++ [SendMessage (ChatId 7) text None])
        (RunnerBot.last_update_id runner_describing)
    ∧ Py.startswith text
        "Thank you! Your report (ID: None) has been submitted successfully." = true.
Proof.
  apply (runner_thanks_without_report db_down (ptb_text 3 7 ann_ptb "parcel lost") ann_ptb 7
           "parcel lost" "Other" runner_describing).
  - reflexivity.
  - reflexivity.
  - reflexivity.
  - discriminate.
  - unfold runner_command. intros [H | [H | [H | H]]]; discriminate H.
  - reflexivity.
  - reflexivity.
  - reflexivity.
  - intros r. reflexivity.
Defined.

(** One more update of a batch, processed without exception. *)
Lemma runner_batch_cons (envs : nat -> env) (i : nat) (u : Ptb.update)
    (rest : list Ptb.update) (w w1 : RunnerBot.bot) :
  RunnerBot.process_update (envs i) u w = (Some tt, w1) ->
  RunnerBot.handle_batch envs i (u :: rest) w
  = RunnerBot.handle_batch envs (S i) rest
      (RunnerBot.Bot (RunnerBot.user_states w1) (RunnerBot.user_data w1)
         (RunnerBot.reports w1) (RunnerBot.outbox w1) (Ptb.update_id u)).
Proof.
  intros H. cbn [RunnerBot.handle_batch]. unfold mbind, MX_bind. rewrite H. reflexivity.
Qed.

(** *** The category is whatever the button carries *)

(** X16.  [telegram_bot_runner.py] does not check the callback data
    against its categories: the flow [/report], button, description files
    one report whose category is whatever the button carried. *)
Theorem runner_flow_takes_any_category (envs : nat -> env) (u1 u2 u3 : Ptb.update)
    (user : Ptb.user) (chat_id : Z) (qid c d : string) (w : RunnerBot.bot) :
  Ptb.effective_user u1 = Some user -> Ptb.effective_chat u1 = Some chat_id ->
  Ptb.effective_user u2 = Some user -> Ptb.effective_chat u2 = Some chat_id ->
  Ptb.effective_user u3 = Some user -> Ptb.effective_chat u3 = Some chat_id ->
  Ptb.message u1 = Some (Some "/report") ->
  Ptb.message u2 = None -> Ptb.callback_query u2 = Some (Ptb.Callback qid c) ->
  Ptb.message u3 = Some (Some d) -> d ≠ "" -> ¬ runner_command d ->
  (∀ i r, present (http (envs i) r) = true) ->
  db_ok (envs 2%nat) = true ->
  let w' := exec (RunnerBot.run_once (Some [u1; u2; u3]) envs) w in
  RunnerBot.reports w'
  = RunnerBot.reports w
    ++ [Store.Report (Z.of_nat (S (length (RunnerBot.reports w)))) (Ptb.id user)
          (ptb_resolve_username user) c d "Pending" (db_now (envs 2%nat))]
  ∧ RunnerBot.user_states w' !! Ptb.id user = Some RunnerBot.STATE_INIT
  ∧ RunnerBot.user_data w' !! Ptb.id user = None
  ∧ RunnerBot.last_update_id w' = Ptb.update_id u3.
Proof.
  intros Hu1 Hc1 Hu2 Hc2 Hu3 Hc3 Hm1 Hm2 Hq2 Hm3 Hne Hcmd Hup Hdb w'.
  set (w1 := RunnerBot.Bot
               (<[Ptb.id user := RunnerBot.STATE_CATEGORY]> (RunnerBot.user_states w))
               (RunnerBot.user_data w) (RunnerBot.reports w)
               (RunnerBot.outbox w
                  ++ [SendMessage (ChatId chat_id) ptb_category_prompt
                        (Some (InlineKeyboard
                                 ((λ category, [(category, category)])
                                    <$> RunnerBot.categories)))])
               (RunnerBot.last_update_id w)).
  assert (H1 : RunnerBot.process_update (envs 0%nat) u1 w = (Some tt, w1)).
  { unfold RunnerBot.process_update, RunnerBot.cmd_report. rewrite Hm1, Hu1.
    runner_unfold. monad_unfold. cbn. rewrite Hc1. cbn. rewrite Hup. reflexivity. }
  set (w1' := RunnerBot.Bot (RunnerBot.user_states w1) (RunnerBot.user_data w1)
                (RunnerBot.reports w1) (RunnerBot.outbox w1) (Ptb.update_id u1)).
  set (w2 := RunnerBot.Bot
               (<[Ptb.id user := RunnerBot.STATE_DESCRIPTION]> (RunnerBot.user_states w1'))
               (<[Ptb.id user := Some c]> (RunnerBot.user_data w1'))
               (RunnerBot.reports w1')
               (RunnerBot.outbox w1'
                  ++ [AnswerCallbackQuery (Some qid);
                      SendMessage (ChatId chat_id) (selected_text c) None])
               (RunnerBot.last_update_id w1')).
  assert (H2 : RunnerBot.process_update (envs 1%nat) u2 w1' = (Some tt, w2)).
  { unfold RunnerBot.process_update, RunnerBot.on_callback_query,
      RunnerBot.process_category. rewrite Hm2, Hq2, Hu2.
    subst w2 w1' w1. runner_unfold. monad_unfold. cbn.
    rewrite bool_decide_eq_true_2 by apply lookup_insert_eq. cbn. rewrite Hup. cbn.
    rewrite Hc2. cbn. rewrite Hup. cbn. rewrite <- !app_assoc. reflexivity. }
  set (w2' := RunnerBot.Bot (RunnerBot.user_states w2) (RunnerBot.user_data w2)
                (RunnerBot.reports w2) (RunnerBot.outbox w2) (Ptb.update_id u2)).
  pose proof (runner_description_step (envs 2%nat) u3 user chat_id d c w2' Hu3 Hc3 Hm3
                Hne Hcmd) as H3.
  cbv zeta in H3. rewrite Hdb, Hup in H3.
  specialize (H3 (lookup_insert_eq _ _ _) (lookup_insert_eq _ _ _)).
  subst w'. unfold exec, RunnerBot.run_once. cbn [snd].
  rewrite (runner_batch_cons envs 0 u1 _ w w1 H1). fold w1'.
  rewrite (runner_batch_cons envs 1 u2 _ w1' w2 H2). fold w2'.
  erewrite (runner_batch_cons envs 2 u3 _ w2'); [|exact H3].
  subst w2' w2 w1' w1. cbn. rewrite lookup_insert_eq, lookup_delete_eq. auto.
Qed.

Lemma runner_flow_takes_any_category_witness :
  RunnerBot.reports
    (exec (RunnerBot.run_once
             (Some [ptb_text 3 7 ann_ptb "/report";
                    ptb_selection 4 7 ann_ptb "Free money";
                    ptb_text 5 7 ann_ptb "parcel lost"]) (λ _, answers_ok))
       RunnerBot.init)
  = RunnerBot.reports RunnerBot.init
    ++ [Store.Report (Z.of_nat (S (length (RunnerBot.reports RunnerBot.init))))
          (Ptb.id ann_ptb) (ptb_resolve_username ann_ptb) "Free money" "parcel lost"
          "Pending" (db_now answers_ok)]
  ∧ RunnerBot.user_states
      (exec (RunnerBot.run_once
               (Some [ptb_text 3 7 ann_ptb "/report";
                      ptb_selection 4 7 ann_ptb "Free money";
                      ptb_text 5 7 ann_ptb "parcel lost"]) (λ _, answers_ok))
         RunnerBot.init) !! Ptb.id ann_ptb
    = Some RunnerBot.STATE_INIT
  ∧ RunnerBot.user_data
      (exec (RunnerBot.run_once
               (Some [ptb_text 3 7 ann_ptb "/report";
                      ptb_selection 4 7 ann_ptb "Free money";
                      ptb_text 5 7 ann_ptb "parcel lost"]) (λ _, answers_ok))
         RunnerBot.init) !! Ptb.id ann_ptb
    = None
  ∧ RunnerBot.last_update_id
      (exec (RunnerBot.run_once
               (Some [ptb_text 3 7 ann_ptb "/report";
                      ptb_selection 4 7 ann_ptb "Free money";
                      ptb_text 5 7 ann_ptb "parcel lost"]) (λ _, answers_ok))
         RunnerBot.init)
    = Ptb.update_id (ptb_text 5 7 ann_ptb "parcel lost").
Proof.
  apply (runner_flow_takes_any_category (λ _, answers_ok)
           (ptb_text 3 7 ann_ptb "/report") (ptb_selection 4 7 ann_ptb "Free money")
           (ptb_text 5 7 ann_ptb "parcel lost") ann_ptb 7 "cb" "Free money" "parcel lost"
           RunnerBot.init).
  - reflexivity.
  - reflexivity.
  - reflexivity.
  - reflexivity.
  - reflexivity.
  - reflexivity.
  - reflexivity.
  - reflexivity.
  - reflexivity.
  - reflexivity.
  - discriminate.
  - unfold runner_command. intros [H | [H | [H | H]]]; discriminate H.
  - intros i r. reflexivity.
  - reflexivity.
Defined.

(** *** An update that raises *)


Lemma keeps_states_ret {A} (a : A) : keeps_states (mret a : MX RunnerBot.bot A).
Proof. intros w. reflexivity. Qed.

Lemma keeps_states_bind {A B} (m : MX RunnerBot.bot A) (f : A -> MX RunnerBot.bot B) :
  keeps_states m -> (∀ a, keeps_states (f a)) -> keeps_states (m ≫= f).
Proof.
  intros Hm Hf w. unfold mbind, MX_bind. specialize (Hm w).
  destruct (m w) as [[a|] w1]; cbn in *; [rewrite <- Hm; apply Hf | exact Hm].
Qed.

Lemma keeps_states_call E r : keeps_states (RunnerBot.call E r).
Proof. intros w. reflexivity. Qed.

Lemma keeps_states_attr {A} (x : option A) : keeps_states (RunnerBot.attr x).
Proof. intros w. destruct x; reflexivity. Qed.

Lemma keeps_states_get : keeps_states RunnerBot.get.
Proof. intros w. reflexivity. Qed.

Lemma keeps_states_set_user_data f : keeps_states (RunnerBot.set_user_data f).
Proof. intros w. reflexivity. Qed.

Lemma keeps_states_save_report E u n c d : keeps_states (RunnerBot.save_report E u n c d).
Proof. intros w. unfold RunnerBot.save_report. destruct (db_ok E); reflexivity. Qed.

Ltac states_step :=
  first
    [ apply keeps_states_ret
    | apply keeps_states_call
    | apply keeps_states_attr
    | apply keeps_states_get
    | apply keeps_states_set_user_data
    | apply keeps_states_save_report
    | apply keeps_states_bind; [| intros ?]
    | progress cbv zeta
    | case_match ].

Lemma keeps_states_handlers E update :
  keeps_states (RunnerBot.cmd_start E update)
  ∧ keeps_states (RunnerBot.cmd_help E update)
  ∧ keeps_states (RunnerBot.cmd_report E update)
  ∧ keeps_states (RunnerBot.cmd_cancel E update)
  ∧ keeps_states (RunnerBot.process_category E update)
  ∧ keeps_states (RunnerBot.process_description E update).
Proof.
  unfold RunnerBot.cmd_start, RunnerBot.cmd_help, RunnerBot.cmd_report,
    RunnerBot.cmd_cancel, RunnerBot.process_category, RunnerBot.process_description,
    RunnerBot.send_message.
  repeat split; repeat states_step.
Qed.

Lemma raises_clean_ret {A} (a : A) : raises_clean (mret a : MX RunnerBot.bot A).
Proof. intros w _. reflexivity. Qed.

Lemma raises_clean_bind {A B} (m : MX RunnerBot.bot A) (f : A -> MX RunnerBot.bot B) :
  keeps_states m -> (∀ a, raises_clean (f a)) -> raises_clean (m ≫= f).
Proof.
  intros Hm Hf w. unfold mbind, MX_bind. specialize (Hm w).
  destruct (m w) as [[a|] w1]; cbn in *; [|intros _; exact Hm].
  intros Hnone. rewrite <- Hm. apply Hf, Hnone.
Qed.

Lemma raises_clean_then_set {A} (m : MX RunnerBot.bot A) (u : Z)
    (st : RunnerBot.conv_state) :
  keeps_states m -> raises_clean (m;; RunnerBot.set_state u st).
Proof.
  intros Hm w. unfold mbind, MX_bind. specialize (Hm w).
  destruct (m w) as [[a|] w1]; cbn in *; [discriminate | intros _; exact Hm].
Qed.

(** X17.  An update whose processing raises in [telegram_bot_runner.py]
    leaves the conversation states as they were, and the polling loop does
    not move its cursor past it. *)
Theorem runner_failed_update_keeps_states (E : env) (u : Ptb.update) (w : RunnerBot.bot) :
  (RunnerBot.process_update E u w).1 = None ->
  RunnerBot.user_states (RunnerBot.process_update E u w).2 = RunnerBot.user_states w
  ∧ RunnerBot.last_update_id (exec (RunnerBot.run_once (Some [u]) (λ _, E)) w)
    = RunnerBot.last_update_id w.
Proof.
  intros Hnone. split.
  - revert w Hnone. change (raises_clean (RunnerBot.process_update E u)).
    destruct (keeps_states_handlers E u) as (Hs & Hh & Hr & Hc & Hcat & Hd).
    unfold RunnerBot.process_update, RunnerBot.on_callback_query.
    repeat first
      [ apply raises_clean_ret
      | apply raises_clean_then_set; assumption
      | apply raises_clean_bind;
        [first [apply keeps_states_attr | apply keeps_states_get] | intros ?]
      | progress cbv zeta
      | case_match ].
  - unfold exec, RunnerBot.run_once. cbn [snd RunnerBot.handle_batch].
    unfold mbind at 1, MX_bind at 1.
    pose proof (keeps_last_process_update E u w) as Hlast.
    destruct (RunnerBot.process_update E u w) as [[[]|] w1]; cbn in *;
      [discriminate | exact Hlast].
Qed.

Lemma runner_failed_update_keeps_states_witness :
  RunnerBot.user_states
    (RunnerBot.process_update network_down (ptb_text 3 7 ann_ptb "/report")
       runner_describing).2
  = RunnerBot.user_states runner_describing
  ∧ RunnerBot.last_update_id
      (exec (RunnerBot.run_once (Some [ptb_text 3 7 ann_ptb "/report"]) (λ _, network_down))
         runner_describing)
    = RunnerBot.last_update_id runner_describing.
Proof.
  apply (runner_failed_update_keeps_states network_down (ptb_text 3 7 ann_ptb "/report")
           runner_describing).
  reflexivity.
Defined.



(** ** [app.py] *)

(** *** The table, as the dashboard sees it *)

(** X19.  [update_report] writes one status at most: the table keeps its
    length, every row keeps its id, user, name, category, description and
    timestamp, and a row keeps its status unless it has the requested id,
    the request carries a status and the session is logged in; unless the
    answer is the success answer, the table is untouched. *)
Theorem update_report_sets_one_status (admin_id : option Z) (report_id : Z)
    (data : gmap string string) (rows : list Store.report) :
  let rows' := exec (App.update_report admin_id report_id data) rows in
  length rows' = length rows
  ∧ (∀ (i : nat) r, rows !! i = Some r ->
       ∃ r', rows' !! i = Some r'
             ∧ Store.id r' = Store.id r ∧ Store.user_id r' = Store.user_id r
             ∧ Store.username r' = Store.username r ∧ Store.category r' = Store.category r
             ∧ Store.description r' = Store.description r
             ∧ Store.timestamp r' = Store.timestamp r
             ∧ (Store.status r' = Store.status r
                ∨ (Store.id r = report_id ∧ data !! "status" = Some (Store.status r')
                   ∧ is_Some admin_id)))
  ∧ ((App.update_report admin_id report_id data rows).1 ≠ App.Success -> rows' = rows).
Proof.
  intros rows'. subst rows'. unfold exec, App.update_report, App.login_required.
  destruct admin_id as [a|]; cbn.
  2:{ split; [reflexivity|]. split; [|reflexivity]. intros i r Hi. exists r. auto 10. }
  destruct (list_find _ rows) as [[k report]|] eqn:Hfind; cbn.
  2:{ split; [reflexivity|]. split; [|reflexivity]. intros i r Hi. exists r. auto 10. }
  apply list_find_Some in Hfind as (Hk & Hid & _).
  destruct (data !! "status") as [s|] eqn:Hdata; cbn.
  2:{ split; [reflexivity|]. split; [|reflexivity]. intros i r Hi. exists r. auto 10. }
  split; [apply length_insert|]. split; [|intros H; contradiction H; reflexivity].
  intros i r Hi. destruct (decide (i = k)) as [->|Hne].
  - rewrite Hk in Hi. injection Hi as <-.
    exists (App.set_status s report). split.
    + apply list_lookup_insert_eq. eapply lookup_lt_Some, Hk.
    + cbn. repeat split; try reflexivity. right. eauto.
  - exists r. rewrite list_lookup_insert_ne by congruence. auto 10.
Qed.

(** *** A report of the bot, resolved on the dashboard *)

(** X20.  Every report the bot has filed in a run from its initial state
    can be resolved on the dashboard: its id finds its row and no other,
    [update_report] sets the status of that row and answers with success,
    and [get_reports] then lists the row with the new status among as many
    rows as before. *)
Theorem filed_report_can_be_resolved (events : list (env * update)) (admin_id : Z)
    (r : Store.report) (s : string) :
  r ∈ ApiBot.reports (run_events events ApiBot.init) ->
  ∃ (i : nat) l,
    ApiBot.reports (run_events events ApiBot.init) !! i = Some r
    ∧ App.update_report (Some admin_id) (Store.id r) {["status" := s]}
        (ApiBot.reports (run_events events ApiBot.init))
      = (App.Success,
         <[i := App.set_status s r]> (ApiBot.reports (run_events events ApiBot.init)))
    ∧ App.get_reports (Some admin_id)
        (<[i := App.set_status s r]> (ApiBot.reports (run_events events ApiBot.init)))
      = (App.ReportList l,
         <[i := App.set_status s r]> (ApiBot.reports (run_events events ApiBot.init)))
    ∧ App.set_status s r ∈ l
    ∧ length l = length (ApiBot.reports (run_events events ApiBot.init)).
Proof.
  intros Hr.
  assert (Hdense : dense_ids (ApiBot.reports (run_events events ApiBot.init))).
  { apply run_events_dense. intros i x Hi. destruct i; discriminate Hi. }
  set (rows := ApiBot.reports (run_events events ApiBot.init)) in *.
  apply list_elem_of_lookup_1 in Hr as [i Hi].
  exists i, (Store.list_reports (<[i := App.set_status s r]> rows)).
  split; [exact Hi|]. split; [|split; [reflexivity|split]].
  - unfold App.update_report, App.login_required.
    assert (Hfind : list_find (λ x, Store.id x = Store.id r) rows = Some (i, r)).
    { apply list_find_Some. split; [exact Hi|]. split; [reflexivity|].
      intros j y Hj Hlt. rewrite (Hdense _ _ Hj), (Hdense _ _ Hi). lia. }
    rewrite Hfind, lookup_singleton_eq. reflexivity.
  - rewrite list_reports_Permutation.
    eapply list_elem_of_lookup_2. apply list_lookup_insert_eq.
    eapply lookup_lt_Some, Hi.
  - rewrite list_reports_Permutation. apply length_insert.
Qed.

Lemma filed_report_can_be_resolved_witness :
  ∃ (i : nat) l,
    ApiBot.reports
      (run_events [(answers_ok, Update 1 (UMessage (text_message 7 ann "refund")));
                   (answers_ok, Update 2 (UMessage (text_message 7 ann "charged twice")))]
                  ApiBot.init) !! i
    = Some (Store.Report 1 7 "user_7" "Refund" "charged twice" "Pending" 1700000000)
    ∧ App.update_report (Some 1)
        (Store.id (Store.Report 1 7 "user_7" "Refund" "charged twice" "Pending" 1700000000))
        {["status" := "Resolved"]}
        (ApiBot.reports
           (run_events [(answers_ok, Update 1 (UMessage (text_message 7 ann "refund")));
                        (answers_ok, Update 2 (UMessage (text_message 7 ann "charged twice")))]
                       ApiBot.init))
      = (App.Success,
         <[i := App.set_status "Resolved"
                  (Store.Report 1 7 "user_7" "Refund" "charged twice" "Pending" 1700000000)]>
           (ApiBot.reports
              (run_events [(answers_ok, Update 1 (UMessage (text_message 7 ann "refund")));
                           (answers_ok,
                            Update 2 (UMessage (text_message 7 ann "charged twice")))]
                          ApiBot.init)))
    ∧ App.get_reports (Some 1)
        (<[i := App.set_status "Resolved"
                  (Store.Report 1 7 "user_7" "Refund" "charged twice" "Pending" 1700000000)]>
           (ApiBot.reports
              (run_events [(answers_ok, Update 1 (UMessage (text_message 7 ann "refund")));
                           (answers_ok,
                            Update 2 (UMessage (text_message 7 ann "charged twice")))]
                          ApiBot.init)))
      = (App.ReportList l,
         <[i := App.set_status "Resolved"
                  (Store.Report 1 7 "user_7" "Refund" "charged twice" "Pending" 1700000000)]>
           (ApiBot.reports
              (run_events [(answers_ok, Update 1 (UMessage (text_message 7 ann "refund")));
                           (answers_ok,
                            Update 2 (UMessage (text_message 7 ann "charged twice")))]
                          ApiBot.init)))
    ∧ App.set_status "Resolved"
        (Store.Report 1 7 "user_7" "Refund" "charged twice" "Pending" 1700000000) ∈ l
    ∧ length l
      = length (ApiBot.reports
                  (run_events [(answers_ok, Update 1 (UMessage (text_message 7 ann "refund")));
                               (answers_ok,
                                Update 2 (UMessage (text_message 7 ann "charged twice")))]
                              ApiBot.init)).
Proof.
  apply (filed_report_can_be_resolved
           [(answers_ok, Update 1 (UMessage (text_message 7 ann "refund")));
            (answers_ok, Update 2 (UMessage (text_message 7 ann "charged twice")))]
           1 (Store.Report 1 7 "user_7" "Refund" "charged twice" "Pending" 1700000000)
           "Resolved").
  vm_compute. apply list_elem_of_here.
Defined.

(** ** [standalone_bot.py] *)

(** X21.  The handlers of [standalone_bot.py], called in the order of the
    conversation while the requests go through: [start_report] moves to
    [CATEGORY], [category_selected] stores whatever the button carried and
    moves to [DESCRIPTION], [report_description] ends the conversation; one
    row is filed when the insert succeeds and none when it fails, the
    confirmation is sent either way, and the category stays in
    [user_data]. *)
Theorem standalone_flow_creates_one_report (E1 E2 E3 : env) (u1 u2 u3 : Ptb.update)
    (user : Ptb.user) (chat_id : Z) (qid c : string) (text : option string)
    (w : Standalone.bot) :
  Ptb.effective_chat u1 = Some chat_id ->
  Ptb.effective_chat u2 = Some chat_id ->
  Ptb.effective_chat u3 = Some chat_id ->
  Ptb.callback_query u2 = Some (Ptb.Callback qid c) ->
  Ptb.effective_user u3 = Some user -> Ptb.message u3 = Some text ->
  (∀ r, present (http E1 r) = true) ->
  (∀ r, present (http E2 r) = true) ->
  (∀ r, present (http E3 r) = true) ->
  ∃ w1 w2 w3,
    Standalone.start_report E1 u1 w = (Some Standalone.CATEGORY, w1)
    ∧ Standalone.category_selected E2 u2 w1 = (Some Standalone.DESCRIPTION, w2)
    ∧ Standalone.report_description E3 u3 w2 = (Some Standalone.END, w3)
    ∧ Standalone.user_data w3 = Some c
    ∧ Standalone.reports w3
      = (if db_ok E3
         then Standalone.reports w
                ++ [Store.Report (Z.of_nat (S (length (Standalone.reports w)))) (Ptb.id user)
                      (ptb_resolve_username user) c (default "" text) "Pending" (db_now E3)]
         else Standalone.reports w)
    ∧ last (Standalone.outbox w3)
      = Some (SendMessage (ChatId chat_id)
                (thanks_text
                   (if db_ok E3
                    then Some (Z.of_nat (S (length (Standalone.reports w)))) else None) c)
                None).
Proof.
  intros Hc1 Hc2 Hc3 Hq Hu Hm Hup1 Hup2 Hup3.
  set (keyboard := (λ category : string, [(category, category)]) <$> Standalone.CATEGORIES).
  set (w1 := Standalone.Bot (Standalone.user_data w) (Standalone.reports w)
               (Standalone.outbox w
                  ++ [SendMessage (ChatId chat_id) ptb_category_prompt
                        (Some (InlineKeyboard keyboard))])).
  set (w2 := Standalone.Bot (Some c) (Standalone.reports w)
               ((Standalone.outbox w1 ++ [AnswerCallbackQuery (Some qid)])
                  ++ [SendMessage (ChatId chat_id) (selected_text c) None])).
  set (n := Z.of_nat (S (length (Standalone.reports w)))).
  set (rows := if db_ok E3
               then Standalone.reports w
                      ++ [Store.Report n (Ptb.id user) (ptb_resolve_username user) c
                            (default "" text) "Pending" (db_now E3)]
               else Standalone.reports w).
  set (w3 := Standalone.Bot (Some c) rows
               (Standalone.outbox w2
                  ++ [SendMessage (ChatId chat_id)
                        (thanks_text (if db_ok E3 then Some n else None) c) None])).
  exists w1, w2, w3.
  split; [|split; [|split; [|split; [reflexivity|split; [reflexivity|apply last_snoc]]]]].
  - unfold Standalone.start_report, Standalone.reply_text. monad_unfold.
    rewrite Hc1, Hup1. reflexivity.
  - unfold Standalone.category_selected, Standalone.reply_text. rewrite Hq.
    monad_unfold. rewrite Hup2, Hc2, Hup2. reflexivity.
  - unfold Standalone.report_description, Standalone.save_report, Standalone.reply_text.
    rewrite Hu, Hm. monad_unfold.
    cbn [Standalone.user_data Standalone.reports Standalone.outbox Ptb.data w2].
    rewrite Hc3. subst w3 rows. destruct (db_ok E3); cbn; rewrite Hup3; reflexivity.
Qed.

Lemma standalone_flow_creates_one_report_witness :
  ∃ w1 w2 w3,
    Standalone.start_report answers_ok (ptb_text 3 7 ann_ptb "/report")
      (Standalone.Bot None [] [])
    = (Some Standalone.CATEGORY, w1)
    ∧ Standalone.category_selected answers_ok (ptb_selection 4 7 ann_ptb "Other") w1
      = (Some Standalone.DESCRIPTION, w2)
    ∧ Standalone.report_description db_down (ptb_text 5 7 ann_ptb "parcel lost") w2
      = (Some Standalone.END, w3)
    ∧ Standalone.user_data w3 = Some "Other"
    ∧ Standalone.reports w3
      = (if db_ok db_down
         then Standalone.reports (Standalone.Bot None [] [])
                ++ [Store.Report
                      (Z.of_nat (S (length (Standalone.reports (Standalone.Bot None [] [])))))
                      (Ptb.id ann_ptb) (ptb_resolve_username ann_ptb) "Other"
                      (default "" (Some "parcel lost")) "Pending" (db_now db_down)]
         else Standalone.reports (Standalone.Bot None [] []))
    ∧ last (Standalone.outbox w3)
      = Some (SendMessage (ChatId 7)
                (thanks_text
                   (if db_ok db_down
                    then Some (Z.of_nat
                                 (S (length (Standalone.reports (Standalone.Bot None [] [])))))
                    else None) "Other")
                None).
Proof.
  apply (standalone_flow_creates_one_report answers_ok answers_ok db_down
           (ptb_text 3 7 ann_ptb "/report") (ptb_selection 4 7 ann_ptb "Other")
           (ptb_text 5 7 ann_ptb "parcel lost") ann_ptb 7 "cb" "Other" (Some "parcel lost")
           (Standalone.Bot None [] [])).
  - reflexivity.
  - reflexivity.
  - reflexivity.
  - reflexivity.
  - reflexivity.
  - reflexivity.
  - intros r. reflexivity.
  - intros r. reflexivity.
  - intros r. reflexivity.
Defined.
